(** * SmartPay-AP: invoice / purchase-order reconciliation

    A shallow embedding of the reconciliation engine of the repository
    (src/features.py, src/agent/scorer.py, src/agent/agent_graph.py, the
    aggregation of src/data.py and the model artifact of src/model.py) and the
    properties its specification states about it.

    Modelling conventions.
    - A pandas DataFrame is the list of its rows, a row is a record with one
      field per column; a column-wise pandas expression is written once, for a
      row, and mapped over the list.
    - A float cell is a [npfloat]: NaN, the two infinities, or an exact
      rational.  Rounding and the sign of zero are not represented: arithmetic on
      finite values is exact, and a non-zero value divided by zero is the
      infinity with the sign of the numerator.
    - NumPy's global legacy generator is explicit state: every function that
      seeds it or draws from it takes the state and returns the new one.
    - A Python exception is the [Raise] branch of [result].
    - The clock is explicit where the code reads it: the date parser of the
      loader completes a partial date from the current date, so the data of a
      call are the data of a day ([environment_at]). *)

From Stdlib Require Import ZArith QArith Qabs Lqa String Ascii List Bool Lia Sorted.
From stdpp Require Import base gmap strings list.
Import ListNotations.
Local Open Scope Z_scope.
Local Open Scope string_scope.

(** ** Floating-point cells *)

Inductive npfloat : Type :=
| NaN
| PosInf
| NegInf
| Fin (q : Q).

Definition Qlt_bool (x y : Q) : bool := negb (Qle_bool y x).

Module NpFloat.

Definition of_Z (z : Z) : npfloat := Fin (inject_Z z).

Definition is_finite (a : npfloat) : bool :=
  match a with Fin _ => true | _ => false end.

(** Equality of cells up to the representation of the rational. *)
Definition eqb (a b : npfloat) : bool :=
  match a, b with
  | NaN, NaN | PosInf, PosInf | NegInf, NegInf => true
  | Fin x, Fin y => Qeq_bool x y
  | _, _ => false
  end.

Definition eqv (a b : npfloat) : Prop :=
  match a, b with
  | NaN, NaN | PosInf, PosInf | NegInf, NegInf => True
  | Fin x, Fin y => (x == y)%Q
  | _, _ => False
  end.

Definition neg (a : npfloat) : npfloat :=
  match a with
  | NaN => NaN
  | PosInf => NegInf
  | NegInf => PosInf
  | Fin x => Fin (- x)%Q
  end.

(** [a - b] *)
Definition sub (a b : npfloat) : npfloat :=
  match a, b with
  | NaN, _ | _, NaN => NaN
  | PosInf, PosInf | NegInf, NegInf => NaN
  | PosInf, _ | _, NegInf => PosInf
  | NegInf, _ | _, PosInf => NegInf
  | Fin x, Fin y => Fin (x - y)%Q
  end.

(** [a / b], NumPy's true division with the warnings silenced. *)
Definition div (a b : npfloat) : npfloat :=
  match a, b with
  | NaN, _ | _, NaN => NaN
  | Fin x, Fin y =>
      if Qeq_bool y 0 then
        if Qeq_bool x 0 then NaN
        else if Qlt_bool 0 x then PosInf else NegInf
      else Fin (x / y)%Q
  | Fin _, _ => Fin 0
  | _, PosInf | _, NegInf => NaN
  | PosInf, Fin y => if Qlt_bool y 0 then NegInf else PosInf
  | NegInf, Fin y => if Qlt_bool y 0 then PosInf else NegInf
  end.

(** [Series.abs()] *)
Definition abs (a : npfloat) : npfloat :=
  match a with
  | NaN => NaN
  | PosInf | NegInf => PosInf
  | Fin x => Fin (Qabs x)
  end.

(** [a > c] and [a < c]: every comparison with NaN is False. *)
Definition gt (a : npfloat) (c : Q) : bool :=
  match a with
  | NaN | NegInf => false
  | PosInf => true
  | Fin x => Qlt_bool c x
  end.

Definition lt (a : npfloat) (c : Q) : bool :=
  match a with
  | NaN | PosInf => false
  | NegInf => true
  | Fin x => Qlt_bool x c
  end.

(** [Series.fillna(v)] *)
Definition fillna (v : Q) (a : npfloat) : npfloat :=
  match a with NaN => Fin v | _ => a end.

(** [np.clip(a, lo, hi)]: NaN is propagated. *)
Definition clip (lo hi : Q) (a : npfloat) : npfloat :=
  match a with
  | NaN => NaN
  | PosInf => Fin hi
  | NegInf => Fin lo
  | Fin x => Fin (if Qlt_bool x lo then lo else if Qlt_bool hi x then hi else x)
  end.

(** [Series.replace([np.inf, -np.inf], np.nan)] *)
Definition replace_inf (a : npfloat) : npfloat :=
  match a with PosInf | NegInf => NaN | _ => a end.

End NpFloat.

(** ** NumPy's legacy global generator *)

(** What the pipeline uses of [np.random]: [seed(s)], and the draw of one
    sample of the unit interval, which advances the state. *)
Class NpRandom : Type := {
  rng_state : Type;
  rng_seed : Z -> rng_state;
  rng_next : rng_state -> Q * rng_state
}.

(** [np.random.random(n)]: [n] consecutive draws. *)
Fixpoint rng_random `{NpRandom} (n : nat) (g : rng_state) : list Q * rng_state :=
  match n with
  | O => ([], g)
  | S n' =>
      let '(x, g1) := rng_next g in
      let '(xs, g2) := rng_random n' g1 in
      (x :: xs, g2)
  end.

(** [np.random.random(n) < p], the mask and the state after the draw.  A
    sample is a multiple of 2^-53, and for such a number the comparison with
    the decimal 0.15 (or 0.05) and the comparison with the closest double have
    the same outcome. *)
Definition random_mask `{NpRandom} (p : Q) (n : nat) (g : rng_state)
  : list bool * rng_state :=
  let '(xs, g') := rng_random n g in (map (fun x => Qlt_bool x p) xs, g').

(** The generator behind [np.random.seed] / [np.random.random]: MT19937 with
    the 32-bit integer seeding and the 53-bit double construction. *)
Module MT19937.

Definition N : nat := 624.
Definition M : nat := 397.
Definition MATRIX_A : Z := 0x9908b0df.
Definition UPPER_MASK : Z := 0x80000000.
Definition LOWER_MASK : Z := 0x7fffffff.

Definition u32 (x : Z) : Z := Z.land x 0xffffffff.

Record state : Type := { key : list Z; pos : nat }.

Fixpoint init_key (n : nat) (p : Z) (s : Z) : list Z :=
  match n with
  | O => []
  | S n' =>
      s :: init_key n' (p + 1)
             (u32 (1812433253 * Z.lxor s (Z.shiftr s 30) + p + 1))
  end.

Definition seed (s : Z) : state :=
  {| key := init_key N 0 (u32 s); pos := N |}.

(** One step of the in-place regeneration of the key array. *)
Definition twist_at (k : list Z) (kk : nat) : list Z :=
  let y := Z.lor (Z.land (nth kk k 0) UPPER_MASK)
                 (Z.land (nth ((kk + 1) mod N) k 0) LOWER_MASK) in
  <[ kk := Z.lxor (Z.lxor (nth ((kk + M) mod N) k 0) (Z.shiftr y 1))
                  (if Z.odd y then MATRIX_A else 0) ]> k.

Definition twist (k : list Z) : list Z := fold_left twist_at (seq 0 N) k.

Definition temper (y : Z) : Z :=
  let y := Z.lxor y (Z.shiftr y 11) in
  let y := Z.lxor y (Z.land (Z.shiftl y 7) 0x9d2c5680) in
  let y := Z.lxor y (Z.land (Z.shiftl y 15) 0xefc60000) in
  Z.lxor y (Z.shiftr y 18).

Definition next_uint32 (st : state) : Z * state :=
  let st' :=
    if (N <=? pos st)%nat then {| key := twist (key st); pos := 0 |} else st in
  (temper (nth (pos st') (key st') 0),
   {| key := key st'; pos := S (pos st') |}).

Definition next_double (st : state) : Q * state :=
  let '(a, st1) := next_uint32 st in
  let '(b, st2) := next_uint32 st1 in
  (Qmake (Z.shiftr a 5 * 67108864 + Z.shiftr b 6) 9007199254740992, st2).

End MT19937.

#[export] Instance mt19937_random : NpRandom := {|
  rng_state := MT19937.state;
  rng_seed := MT19937.seed;
  rng_next := MT19937.next_double
|}.

(** ** Strings *)

Module Str.

Definition is_upper (c : ascii) : bool :=
  let n := nat_of_ascii c in ((65 <=? n) && (n <=? 90))%nat.

(** ASCII white space, as [str.isspace] sees it. *)
Definition is_space (c : ascii) : bool :=
  let n := nat_of_ascii c in
  (((9 <=? n) && (n <=? 13)) || ((28 <=? n) && (n <=? 32)))%nat.

Definition lower_char (c : ascii) : ascii :=
  if is_upper c then ascii_of_nat (nat_of_ascii c + 32) else c.

(** [s.lower()] on ASCII text; other bytes are kept. *)
Fixpoint lower (s : string) : string :=
  match s with
  | EmptyString => EmptyString
  | String c s' => String (lower_char c) (lower s')
  end.

Fixpoint lstrip (s : string) : string :=
  match s with
  | EmptyString => EmptyString
  | String c s' => if is_space c then lstrip s' else s
  end.

Fixpoint rstrip (s : string) : string :=
  match s with
  | EmptyString => EmptyString
  | String c s' =>
      match rstrip s' with
      | EmptyString => if is_space c then EmptyString else String c EmptyString
      | r => String c r
      end
  end.

(** [s.strip()] *)
Definition strip (s : string) : string := rstrip (lstrip s).

(** [s.split()]: the maximal runs of characters that are not white space.
    [cur] is the run being read, reversed. *)
Fixpoint split_go (cur : list ascii) (s : string) : list string :=
  let flush (rest : list string) :=
    match cur with
    | [] => rest
    | _ => string_of_list_ascii (rev cur) :: rest
    end in
  match s with
  | EmptyString => flush []
  | String c s' =>
      if is_space c then flush (split_go [] s') else split_go (c :: cur) s'
  end.

Definition split (s : string) : list string := split_go [] s.

(** [s[3:]] *)
Definition drop3 (s : string) : string :=
  String.substring 3 (String.length s - 3) s.

End Str.

(** ** The data model: one record per kind of row *)

(** A timestamp is a number of nanoseconds; [None] is NaT. *)
Definition timestamp : Type := option Z.

(** A row of [inv_agg], the invoices aggregated by [normalize_types]. *)
Module Inv.
Record row : Type := {
  invoice_id : string;
  vendor_id : string;
  vendor_name : option string;
  currency : string;
  invoice_total : npfloat;
  line_count : Z;
  max_qty : npfloat;
  avg_unit_price : npfloat;
  invoice_date : timestamp
}.
End Inv.

(** A row of [po], the combined purchase-order / goods-receipt records. *)
Module PO.
Record row : Type := {
  po_number : string;
  vendor_id : string;
  vendor_name : option string;
  currency : string;
  po_total : npfloat;
  po_date : timestamp;
  grn_number : option string;
  grn_date : timestamp
}.
End PO.

(** A row of the frame [build_links] returns: the invoice columns, the
    candidate key, and the purchase-order columns, null when the left join
    found no partner. *)
Module Linked.
Record row : Type := {
  invoice_id : string;
  vendor_id : string;
  vendor_name_inv : option string;
  currency : string;
  invoice_total : npfloat;
  line_count : Z;
  max_qty : npfloat;
  avg_unit_price : npfloat;
  invoice_date : timestamp;
  candidate_po : string;
  po_number : option string;
  vendor_name_po : option string;
  po_total : npfloat;
  po_date : timestamp;
  grn_number : option string;
  grn_date : timestamp
}.
End Linked.

(** A row of the frame [engineer_features] returns: the linked columns as the
    function leaves them, and the columns it adds. *)
Module Feat.
Record row : Type := {
  linked : Linked.row;
  vendor_similarity : npfloat;
  vendor_match : Z;
  has_grn : Z;
  amount_delta : npfloat;
  amount_delta_abs : npfloat;
  amount_delta_pct : npfloat;
  amount_over_tolerance : Z;
  amount_pct_over_tolerance : Z;
  days_delta : npfloat;
  days_since_grn : npfloat;
  invoice_before_po : Z;
  invoice_too_late : Z;
  invoice_before_grn : Z;
  po_missing : Z;
  currency_match : Z
}.
End Feat.

Abbreviation AggregatedInvoice := Inv.row.
Abbreviation PurchaseOrderRecord := PO.row.
Abbreviation LinkedPair := Linked.row.
Abbreviation FeatureRow := Feat.row.

(** ** The linker (features.py, [invoice_to_po_key] and [build_links]) *)

Definition invoice_to_po_key (s : string) : string :=
  if String.prefix "INV" s then "PO" ++ Str.drop3 s else s.

(** The join condition of the merge: [candidate_po], [vendor_id] and
    [currency] on the left against [po_number], [vendor_id] and [currency]. *)
Definition join_keys_match (i : AggregatedInvoice) (p : PurchaseOrderRecord) : bool :=
  bool_decide (invoice_to_po_key (Inv.invoice_id i) = PO.po_number p)
  && bool_decide (Inv.vendor_id i = PO.vendor_id p)
  && bool_decide (Inv.currency i = PO.currency p).

(** The merged row of an invoice and a matching purchase order. *)
Definition joined_row (i : AggregatedInvoice) (p : PurchaseOrderRecord) : LinkedPair :=
  {| Linked.invoice_id := Inv.invoice_id i;
     Linked.vendor_id := Inv.vendor_id i;
     Linked.vendor_name_inv := Inv.vendor_name i;
     Linked.currency := Inv.currency i;
     Linked.invoice_total := Inv.invoice_total i;
     Linked.line_count := Inv.line_count i;
     Linked.max_qty := Inv.max_qty i;
     Linked.avg_unit_price := Inv.avg_unit_price i;
     Linked.invoice_date := Inv.invoice_date i;
     Linked.candidate_po := invoice_to_po_key (Inv.invoice_id i);
     Linked.po_number := Some (PO.po_number p);
     Linked.vendor_name_po := PO.vendor_name p;
     Linked.po_total := PO.po_total p;
     Linked.po_date := PO.po_date p;
     Linked.grn_number := PO.grn_number p;
     Linked.grn_date := PO.grn_date p |}.

(** The row a left join emits for an invoice without partner. *)
Definition unmatched_row (i : AggregatedInvoice) : LinkedPair :=
  {| Linked.invoice_id := Inv.invoice_id i;
     Linked.vendor_id := Inv.vendor_id i;
     Linked.vendor_name_inv := Inv.vendor_name i;
     Linked.currency := Inv.currency i;
     Linked.invoice_total := Inv.invoice_total i;
     Linked.line_count := Inv.line_count i;
     Linked.max_qty := Inv.max_qty i;
     Linked.avg_unit_price := Inv.avg_unit_price i;
     Linked.invoice_date := Inv.invoice_date i;
     Linked.candidate_po := invoice_to_po_key (Inv.invoice_id i);
     Linked.po_number := None;
     Linked.vendor_name_po := None;
     Linked.po_total := NaN;
     Linked.po_date := None;
     Linked.grn_number := None;
     Linked.grn_date := None |}.

(** [inv_agg.merge(po, how="left", ...)]: the invoices in their order, each
    with its partners in the order of [po], or alone. *)
Definition merge_one (po : list PurchaseOrderRecord) (i : AggregatedInvoice)
  : list LinkedPair :=
  match List.filter (join_keys_match i) po with
  | [] => [unmatched_row i]
  | ps => map (joined_row i) ps
  end.

Definition merge_left (inv_agg : list AggregatedInvoice) (po : list PurchaseOrderRecord)
  : list LinkedPair :=
  concat (map (merge_one po) inv_agg).

(** [df.loc[mask, ["po_number", "po_date", "vendor_name_po", "po_total",
    "grn_number", "grn_date"]] = None] on one row. *)
Definition break_link (masked : bool) (r : LinkedPair) : LinkedPair :=
  if masked then
    {| Linked.invoice_id := Linked.invoice_id r;
       Linked.vendor_id := Linked.vendor_id r;
       Linked.vendor_name_inv := Linked.vendor_name_inv r;
       Linked.currency := Linked.currency r;
       Linked.invoice_total := Linked.invoice_total r;
       Linked.line_count := Linked.line_count r;
       Linked.max_qty := Linked.max_qty r;
       Linked.avg_unit_price := Linked.avg_unit_price r;
       Linked.invoice_date := Linked.invoice_date r;
       Linked.candidate_po := Linked.candidate_po r;
       Linked.po_number := None;
       Linked.vendor_name_po := None;
       Linked.po_total := NaN;
       Linked.po_date := None;
       Linked.grn_number := None;
       Linked.grn_date := None |}
  else r.

(** [build_links]: the merge, then the links broken where the mask drawn
    after [np.random.seed(42)] is set.  The printed report is not modelled. *)
Definition build_links `{NpRandom} (inv_agg : list AggregatedInvoice)
    (po : list PurchaseOrderRecord) (g : rng_state) : list LinkedPair * rng_state :=
  let df := merge_left inv_agg po in
  let g := rng_seed 42 in
  let '(missing_po_mask, g) := random_mask (15 # 100) (length df) g in
  (zip_with break_link missing_po_mask df, g).

(** ** The feature engine (features.py, [engineer_features]) *)

(** The local function [vendor_similarity]; a missing name is [None]. *)
Definition vendor_similarity (v1 v2 : option string) : Q :=
  match v1, v2 with
  | Some v1, Some v2 =>
      let v1 := Str.strip (Str.lower v1) in
      let v2 := Str.strip (Str.lower v2) in
      if bool_decide (v1 = v2) then 1
      else
        let s1 : gset string := list_to_set (Str.split v1) in
        let s2 : gset string := list_to_set (Str.split v2) in
        let common_words := s1 ∩ s2 in
        let total_words := s1 ∪ s2 in
        if bool_decide (total_words = ∅) then 0
        else (inject_Z (Z.of_nat (size common_words))
              / inject_Z (Z.of_nat (size total_words)))%Q
  | _, _ => 0
  end.

Definition ns_per_day : Z := 86400000000000.

(** [(a - b).dt.days]: whole days, rounded down; NaN when a date is NaT. *)
Definition days_between (a b : timestamp) : npfloat :=
  match a, b with
  | Some x, Some y => NpFloat.of_Z ((x - y) / ns_per_day)
  | _, _ => NaN
  end.

(** The closing loop over [numeric_cols]:
    [df[col].replace([np.inf, -np.inf], np.nan).fillna(0.0)]. *)
Definition replace_inf_nan (a : npfloat) : npfloat :=
  NpFloat.fillna 0 (NpFloat.replace_inf a).

(** One row of [engineer_features], given the row's bit in each of the three
    masks the function draws. *)
Definition engineer_row (missing_grn additional_missing currency_mismatch : bool)
    (r : LinkedPair) : FeatureRow :=
  let vendor_similarity :=
    Fin (vendor_similarity (Linked.vendor_name_inv r) (Linked.vendor_name_po r)) in
  let vendor_match := Z.b2z (NpFloat.gt vendor_similarity (8 # 10)) in
  let has_grn := Z.b2z (bool_decide (Linked.grn_number r <> None)) in
  let has_grn := if missing_grn then 0 else has_grn in
  let grn_number := if missing_grn then None else Linked.grn_number r in
  let po_total := Linked.po_total r in
  let invoice_total := Linked.invoice_total r in
  let amount_delta := NpFloat.fillna 0 (NpFloat.sub invoice_total po_total) in
  let amount_delta_abs := NpFloat.abs amount_delta in
  let amount_delta_pct := NpFloat.fillna 0 (NpFloat.div amount_delta po_total) in
  let amount_delta_pct := NpFloat.clip (- (1)) 1 amount_delta_pct in
  let amount_over_tolerance := Z.b2z (NpFloat.gt amount_delta_abs 100) in
  let amount_pct_over_tolerance :=
    Z.b2z (NpFloat.gt (NpFloat.abs amount_delta_pct) (5 # 100)) in
  let days_delta := days_between (Linked.invoice_date r) (Linked.po_date r) in
  let days_since_grn := days_between (Linked.invoice_date r) (Linked.grn_date r) in
  let invoice_before_po := Z.b2z (NpFloat.lt days_delta (- (2))) in
  let invoice_too_late := Z.b2z (NpFloat.gt days_delta 120) in
  let invoice_before_grn := Z.b2z (NpFloat.lt days_since_grn (- (3))) in
  let po_missing := Z.b2z (bool_decide (Linked.po_number r = None)) in
  let po_missing := if additional_missing then 1 else po_missing in
  let po_number := if additional_missing then None else Linked.po_number r in
  let po_total := if additional_missing then NaN else po_total in
  let po_date := if additional_missing then None else Linked.po_date r in
  let currency_match := if currency_mismatch then 0 else 1 in
  {| Feat.linked :=
       {| Linked.invoice_id := Linked.invoice_id r;
          Linked.vendor_id := Linked.vendor_id r;
          Linked.vendor_name_inv := Linked.vendor_name_inv r;
          Linked.currency := Linked.currency r;
          Linked.invoice_total := invoice_total;
          Linked.line_count := Linked.line_count r;
          Linked.max_qty := Linked.max_qty r;
          Linked.avg_unit_price := Linked.avg_unit_price r;
          Linked.invoice_date := Linked.invoice_date r;
          Linked.candidate_po := Linked.candidate_po r;
          Linked.po_number := po_number;
          Linked.vendor_name_po := Linked.vendor_name_po r;
          Linked.po_total := po_total;
          Linked.po_date := po_date;
          Linked.grn_number := grn_number;
          Linked.grn_date := Linked.grn_date r |};
     Feat.vendor_similarity := replace_inf_nan vendor_similarity;
     Feat.vendor_match := vendor_match;
     Feat.has_grn := has_grn;
     Feat.amount_delta := replace_inf_nan amount_delta;
     Feat.amount_delta_abs := replace_inf_nan amount_delta_abs;
     Feat.amount_delta_pct := replace_inf_nan amount_delta_pct;
     Feat.amount_over_tolerance := amount_over_tolerance;
     Feat.amount_pct_over_tolerance := amount_pct_over_tolerance;
     Feat.days_delta := replace_inf_nan days_delta;
     Feat.days_since_grn := replace_inf_nan days_since_grn;
     Feat.invoice_before_po := invoice_before_po;
     Feat.invoice_too_late := invoice_too_late;
     Feat.invoice_before_grn := invoice_before_grn;
     Feat.po_missing := po_missing;
     Feat.currency_match := currency_match |}.

(** [zip_with] for the three masks and the frame. *)
Fixpoint engineer_rows (m1 m2 m3 : list bool) (df : list LinkedPair) : list FeatureRow :=
  match m1, m2, m3, df with
  | b1 :: m1, b2 :: m2, b3 :: m3, r :: df =>
      engineer_row b1 b2 b3 r :: engineer_rows m1 m2 m3 df
  | _, _, _, _ => []
  end.

(** [engineer_features]: the generator is seeded with 42 before the missing-GRN
    mask, the additional missing-PO mask continues the same stream, and the
    generator is seeded with 42 again before the currency mask. *)
Definition engineer_features `{NpRandom} (df_linked : list LinkedPair) (g : rng_state)
  : list FeatureRow * rng_state :=
  let n := length df_linked in
  let g := rng_seed 42 in
  let '(missing_grn_mask, g) := random_mask (15 # 100) n g in
  let '(additional_missing_mask, g) := random_mask (5 # 100) n g in
  let g := rng_seed 42 in
  let '(currency_mismatch_mask, g) := random_mask (5 # 100) n g in
  (engineer_rows missing_grn_mask additional_missing_mask currency_mismatch_mask
     df_linked, g).

(** ** Python values, exceptions and the effect monad *)

Inductive exn : Type :=
| FileNotFoundError (msg : string)
| AssertionError (msg : string)
| RuntimeError (msg : string)
| TypeError (msg : string)
| ValueError (msg : string)
| AttributeError (msg : string)
| KeyError (key : string).

(** [str(e)] *)
Definition exn_str (e : exn) : string :=
  match e with
  | FileNotFoundError m | AssertionError m | RuntimeError m
  | TypeError m | ValueError m | AttributeError m => m
  | KeyError k => "'" ++ k ++ "'"
  end.

Inductive result (A : Type) : Type :=
| Ok (a : A)
| Raise (e : exn).
Arguments Ok {A} a.
Arguments Raise {A} e.

(** A value of the facts dictionary: a [bool] or a [float]. *)
Inductive pyval : Type :=
| PBool (b : bool)
| PFloat (x : npfloat).

(** Truth value of a fact, as [if], [or] and [not] take it. *)
Definition truthy (v : pyval) : bool :=
  match v with
  | PBool b => b
  | PFloat (Fin q) => negb (Qeq_bool q 0)
  | PFloat _ => true
  end.

(** The number a fact stands for ([True] is 1 and [False] is 0). *)
Definition to_float (v : pyval) : npfloat :=
  match v with
  | PBool b => NpFloat.of_Z (Z.b2z b)
  | PFloat x => x
  end.

(** [facts.get(key, default)] *)
Definition dict_get (facts : gmap string pyval) (key : string) (default : pyval) : pyval :=
  match facts !! key with
  | Some v => v
  | None => default
  end.

(** [MatchResult] *)
Record MatchResult : Type := {
  status : string;
  confidence : Q;
  facts : gmap string pyval;
  explanation : string
}.

(** What [score_invoice] returns: the dictionary with [found] False and a
    message, or the one with [found] True, a status, the model's probability
    and the facts. *)
Inductive score_result : Type :=
| NotFound (message : string)
| Found (status : string) (confidence : Q) (facts : gmap string pyval).

(** A positional argument of a tool call. *)
Inductive pyarg : Type :=
| AStr (s : string)
| ADict (d : gmap string pyval)
| AFloat (x : npfloat)
| ANone.

(** What a tool returns. *)
Inductive pyobj : Type :=
| OMatch (mr : MatchResult)
| OStr (s : string).

(** The loaded model: the attribute [_features_used], when the object has it,
    and [predict_proba] on one row of features, the probability of class 1. *)
Record Classifier : Type := {
  features_used : option (list string);
  predict_proba : list npfloat -> Q
}.

(** What the program reads from outside and the text formats of Python:
    - [models path]: the object [load_model path] returns, [None] when no file
      is at [path];
    - [datasets dir]: the frames [normalize_types] returns for the three CSV
      files [load_data] reads in [dir], [None] when a file is missing; they
      are the frames of the day of the call, as [parse_date_safe] completes
      a partial date from the current date ([environment_at] builds the
      environment of a day from the files);
    - [format_2f x] is [f"{x:.2f}"], [py_str x] is [f"{x}"] for a float and
      [py_repr a] is [f"{a}"] for an argument that is not a string. *)
Class Environment : Type := {
  models : string -> option Classifier;
  datasets : string -> option (list AggregatedInvoice * list PurchaseOrderRecord);
  format_2f : npfloat -> string;
  py_str : npfloat -> string;
  py_repr : pyarg -> string
}.

(** A computation that may raise and that reads and writes the generator. *)
Definition Py `{NpRandom} (A : Type) : Type := rng_state -> result A * rng_state.

Definition py_ret `{NpRandom} {A} (a : A) : Py A := fun g => (Ok a, g).

Definition py_raise `{NpRandom} {A} (e : exn) : Py A := fun g => (Raise e, g).

Definition py_bind `{NpRandom} {A B} (c : Py A) (k : A -> Py B) : Py B :=
  fun g =>
    match c g with
    | (Ok a, g') => k a g'
    | (Raise e, g') => (Raise e, g')
    end.

(** [try: c except Exception as e: h e] *)
Definition py_try `{NpRandom} {A} (c : Py A) (h : exn -> Py A) : Py A :=
  fun g =>
    match c g with
    | (Ok a, g') => (Ok a, g')
    | (Raise e, g') => h e g'
    end.

(** A function on the generator that cannot raise. *)
Definition py_lift `{NpRandom} {A} (f : rng_state -> A * rng_state) : Py A :=
  fun g => let '(a, g') := f g in (Ok a, g').

(** [assert cond, msg] *)
Definition py_assert `{NpRandom} (cond : bool) (msg : string) : Py unit :=
  if cond then py_ret tt else py_raise (AssertionError msg).

Notation "x <- c ;; k" := (py_bind c (fun x => k))
  (at level 100, c at next level, right associativity).
Notation "c ;;; k" := (py_bind c (fun _ => k))
  (at level 100, right associativity).

(** [for x in xs: body x], for its effects, stopping at the first exception. *)
Fixpoint py_map `{NpRandom} {A B} (f : A -> Py B) (xs : list A) : Py (list B) :=
  match xs with
  | [] => py_ret []
  | x :: xs' => y <- f x ;; ys <- py_map f xs' ;; py_ret (y :: ys)
  end.

(** ** The scorer (agent/scorer.py, [score_invoice]) *)

(** model.py, [FEATURE_COLS] *)
Definition FEATURE_COLS : list string :=
  [ "vendor_match"; "vendor_similarity"; "has_grn"; "amount_delta_abs";
    "amount_delta_pct"; "amount_over_tolerance"; "amount_pct_over_tolerance";
    "days_delta"; "days_since_grn"; "invoice_before_po"; "invoice_too_late";
    "invoice_before_grn"; "po_missing"; "currency_match" ].

Inductive column : Type :=
| Numeric (x : npfloat)
| NonNumeric
| Absent.

(** [row[col]] read for [astype(float)]: the numeric columns by name, the text
    and date columns, and the names the frame does not have. *)
Definition feat_column (col : string) (r : FeatureRow) : column :=
  if bool_decide (col = "vendor_similarity") then Numeric (Feat.vendor_similarity r)
  else if bool_decide (col = "vendor_match") then Numeric (NpFloat.of_Z (Feat.vendor_match r))
  else if bool_decide (col = "has_grn") then Numeric (NpFloat.of_Z (Feat.has_grn r))
  else if bool_decide (col = "amount_delta") then Numeric (Feat.amount_delta r)
  else if bool_decide (col = "amount_delta_abs") then Numeric (Feat.amount_delta_abs r)
  else if bool_decide (col = "amount_delta_pct") then Numeric (Feat.amount_delta_pct r)
  else if bool_decide (col = "amount_over_tolerance")
       then Numeric (NpFloat.of_Z (Feat.amount_over_tolerance r))
  else if bool_decide (col = "amount_pct_over_tolerance")
       then Numeric (NpFloat.of_Z (Feat.amount_pct_over_tolerance r))
  else if bool_decide (col = "days_delta") then Numeric (Feat.days_delta r)
  else if bool_decide (col = "days_since_grn") then Numeric (Feat.days_since_grn r)
  else if bool_decide (col = "invoice_before_po")
       then Numeric (NpFloat.of_Z (Feat.invoice_before_po r))
  else if bool_decide (col = "invoice_too_late")
       then Numeric (NpFloat.of_Z (Feat.invoice_too_late r))
  else if bool_decide (col = "invoice_before_grn")
       then Numeric (NpFloat.of_Z (Feat.invoice_before_grn r))
  else if bool_decide (col = "po_missing") then Numeric (NpFloat.of_Z (Feat.po_missing r))
  else if bool_decide (col = "currency_match")
       then Numeric (NpFloat.of_Z (Feat.currency_match r))
  else if bool_decide (col = "invoice_total")
       then Numeric (Linked.invoice_total (Feat.linked r))
  else if bool_decide (col = "line_count")
       then Numeric (NpFloat.of_Z (Linked.line_count (Feat.linked r)))
  else if bool_decide (col = "max_qty") then Numeric (Linked.max_qty (Feat.linked r))
  else if bool_decide (col = "avg_unit_price")
       then Numeric (Linked.avg_unit_price (Feat.linked r))
  else if bool_decide (col = "po_total") then Numeric (Linked.po_total (Feat.linked r))
  else if bool_decide (col ∈ [ "invoice_id"; "vendor_id"; "vendor_name_inv"; "currency";
                               "invoice_date"; "candidate_po"; "po_number";
                               "vendor_name_po"; "po_date"; "grn_number"; "grn_date" ])
       then NonNumeric
  else Absent.

(** [feats[col].nunique()]: the number of distinct values that are not NaN. *)
Fixpoint distinct (xs : list npfloat) : list npfloat :=
  match xs with
  | [] => []
  | x :: xs' =>
      let d := distinct xs' in
      if existsb (NpFloat.eqb x) d then d else x :: d
  end.

Definition nunique (col : string) (feats : list FeatureRow) : nat :=
  length (distinct (omap (fun r => match feat_column col r with
                                   | Numeric NaN => None
                                   | Numeric x => Some x
                                   | _ => None
                                   end) feats)).

(** The feature list when the model has no [_features_used]: the names of
    [FEATURE_COLS] whose column has more than one value. *)
Definition varying_feature_cols (feats : list FeatureRow) : list string :=
  List.filter (fun col => (1 <? nunique col feats)%nat) FEATURE_COLS.

(** [row[feature_cols].astype(float).values] for the first row. *)
Fixpoint feature_values (cols : list string) (r : FeatureRow) : result (list npfloat) :=
  match cols with
  | [] => Ok []
  | c :: cols' =>
      match feat_column c r with
      | Absent => Raise (KeyError c)
      | NonNumeric => Raise (ValueError ("could not convert column to float: " ++ c))
      | Numeric x =>
          match feature_values cols' r with
          | Ok xs => Ok (x :: xs)
          | Raise e => Raise e
          end
      end
  end.

(** The selection [(feats["invoice_id"] == invoice_id) &
    (feats["po_number"] == po_number)]; a null [po_number] equals no string. *)
Definition is_pair (invoice_id po_number : string) (r : FeatureRow) : bool :=
  bool_decide (Linked.invoice_id (Feat.linked r) = invoice_id)
  && bool_decide (Linked.po_number (Feat.linked r) = Some po_number).

(** The facts dictionary built from the first selected row.  Every column the
    source tests with [in row] is a column of the frame, so the defaults of the
    conditional expressions are never taken. *)
Definition facts_of_row (r : FeatureRow) : gmap string pyval :=
  <[ "amount_delta" := PFloat (Feat.amount_delta_abs r) ]>
  (<[ "vendor_match" := PBool (negb (Feat.vendor_match r =? 0)%Z) ]>
  (<[ "po_missing" := PBool (negb (Feat.po_missing r =? 0)%Z) ]>
  (<[ "has_grn" := PBool (negb (Feat.has_grn r =? 0)%Z) ]>
  (<[ "days_delta" := PFloat (Feat.days_delta r) ]> ∅)))).

Section Pipeline.

Context {R : NpRandom} {E : Environment}.

(** [score_invoice].  The error of a missing CSV file comes from pandas; its
    class is modelled and its text is not.  The status the function computes
    from the threshold 0.5 is returned and never read by [call_matcher]. *)
Definition score_invoice (data_dir model_path invoice_id po_number : string)
  : Py score_result :=
  match models model_path with
  | None =>
      py_raise (FileNotFoundError
        ("Model not found at " ++ model_path
         ++ ". Train D2 first to create matcher_model.pkl."))
  | Some clf =>
      match datasets data_dir with
      | None => py_raise (FileNotFoundError ("No such file or directory: " ++ data_dir))
      | Some (inv_agg, po) =>
          linked <- py_lift (build_links inv_agg po) ;;
          feats <- py_lift (engineer_features linked) ;;
          match List.filter (is_pair invoice_id po_number) feats with
          | [] => py_ret (NotFound "No feature row for given (invoice_id, po_number).")
          | row :: _ =>
              let feature_cols :=
                match features_used clf with
                | Some cols => cols
                | None => varying_feature_cols feats
                end in
              match feature_values feature_cols row with
              | Raise e => py_raise e
              | Ok X =>
                  let proba := predict_proba clf X in
                  let status := if Qle_bool (1 # 2) proba then "mismatch" else "match" in
                  py_ret (Found status proba (facts_of_row row))
              end
          end
      end
  end.

End Pipeline.

(** ** The decision policy and the texts (agent/agent_graph.py) *)

Definition nl : string := String (ascii_of_nat 10) EmptyString.

(** [sep.join(xs)] *)
Definition join (sep : string) (xs : list string) : string := String.concat sep xs.

(** The test [has_material_issues] of [call_matcher]. *)
Definition has_material_issues (facts : gmap string pyval) : bool :=
  truthy (dict_get facts "po_missing" (PBool false))
  || negb (truthy (dict_get facts "vendor_match" (PBool true)))
  || NpFloat.gt (to_float (dict_get facts "amount_delta" (PFloat (Fin 0)))) (1 # 100)
  || negb (truthy (dict_get facts "has_grn" (PBool true))).

(** The status and the confidence [call_matcher] assigns to a found pair. *)
Definition decide_status (facts : gmap string pyval) (mismatch_prob : Q) : string * Q :=
  if has_material_issues facts then ("mismatch", mismatch_prob)
  else if Qle_bool (8 # 10) mismatch_prob then ("mismatch", mismatch_prob)
  else if Qle_bool (6 # 10) mismatch_prob then ("partial", mismatch_prob)
  else ("match", (1 - mismatch_prob)%Q).

Section Texts.

Context {E : Environment}.

Definition build_explanation (facts : gmap string pyval) (status : string)
    (confidence : Q) : string :=
  let days_delta := NpFloat.abs (to_float (dict_get facts "days_delta" (PFloat (Fin 0)))) in
  let issues :=
    concat
      [ if truthy (dict_get facts "po_missing" (PBool false))
        then ["PO reference was not found"] else [];
        if negb (truthy (dict_get facts "vendor_match" (PBool true)))
        then ["Vendor on invoice does not match vendor on PO"] else [];
        if NpFloat.gt (to_float (dict_get facts "amount_delta" (PFloat (Fin 0)))) (1 # 100)
        then ["Amount discrepancy of "
              ++ format_2f (to_float (dict_get facts "amount_delta" (PFloat (Fin 0))))]
        else [];
        if negb (truthy (dict_get facts "has_grn" (PBool true)))
        then ["No GRN found for this PO"] else [];
        if NpFloat.gt days_delta 30
        then ["Invoice timing concern: " ++ py_str days_delta ++ " days from GRN"]
        else [] ] in
  let conf := format_2f (Fin confidence) in
  if bool_decide (status = "mismatch") then
    match issues with
    | _ :: _ => "Mismatch detected: " ++ join "; " issues ++ ". Confidence: " ++ conf
    | [] => "Model detected potential mismatch (confidence: " ++ conf
            ++ "). Manual review recommended."
    end
  else if bool_decide (status = "partial") then
    "Uncertain match requiring review (confidence: " ++ conf ++ "). "
    ++ match issues with
       | _ :: _ => join "; " issues
       | [] => "Model suggests possible issues."
       end
  else
    match issues with
    | _ :: _ => "Match confirmed despite minor issues: " ++ join "; " issues
                ++ ". Confidence: " ++ conf
    | [] => "Clean match with no material differences. Confidence: " ++ conf
    end.

Definition draft_dispute_email (vendor_name invoice_id po_number : string)
    (facts : gmap string pyval) (match_status : string) : string :=
  let amount_delta := to_float (dict_get facts "amount_delta" (PFloat (Fin 0))) in
  let days_delta := NpFloat.abs (to_float (dict_get facts "days_delta" (PFloat (Fin 0)))) in
  let issues :=
    concat
      [ if truthy (dict_get facts "po_missing" (PBool false))
        then ["• PO reference could not be located in our system"] else [];
        if negb (truthy (dict_get facts "vendor_match" (PBool true)))
        then ["• Vendor information does not match our PO records"] else [];
        if NpFloat.gt amount_delta (1 # 100)
        then ["• Amount discrepancy of $" ++ format_2f amount_delta ++ " detected"]
        else [];
        if negb (truthy (dict_get facts "has_grn" (PBool true)))
        then ["• No goods receipt (GRN) found for the referenced PO"] else [];
        if NpFloat.gt days_delta 30
        then ["• Timing discrepancy: Invoice received " ++ py_str days_delta
              ++ " days after goods receipt"]
        else [] ] in
  let '(subject_prefix, urgency_text, action_text) :=
    if bool_decide (match_status = "mismatch") then
      ("URGENT: Invoice Discrepancy",
       "We have identified significant discrepancies that require immediate attention:",
       "Please provide corrected documentation or explanation within 5 business days. Payment is currently on hold.")
    else if bool_decide (match_status = "partial") then
      ("Review Required",
       "We are reviewing your invoice and need clarification on the following items:",
       "Please review and provide supporting documentation or confirmation within 7 business days.")
    else
      ("Clarification Requested",
       "We are processing your invoice and would appreciate clarification on minor items:",
       "Please provide any additional documentation at your convenience. This will not delay payment processing.") in
  let issues_text :=
    match issues with
    | _ :: _ => join nl issues
    | [] => "• General compliance review as part of our standard process"
    end in
  "Subject: " ++ subject_prefix ++ " - Invoice " ++ invoice_id ++ " / PO " ++ po_number ++ nl
  ++ nl
  ++ "Dear " ++ vendor_name ++ "," ++ nl
  ++ nl
  ++ urgency_text ++ nl
  ++ nl
  ++ issues_text ++ nl
  ++ nl
  ++ "Invoice Details:" ++ nl
  ++ "- Invoice ID: " ++ invoice_id ++ nl
  ++ "- PO Number: " ++ po_number ++ nl
  ++ "- Amount Delta: $" ++ format_2f amount_delta ++ nl
  ++ "- Vendor Match: "
  ++ (if truthy (dict_get facts "vendor_match" (PBool true)) then "Yes" else "No") ++ nl
  ++ "- GRN Available: "
  ++ (if truthy (dict_get facts "has_grn" (PBool true)) then "Yes" else "No") ++ nl
  ++ "- PO Status: "
  ++ (if negb (truthy (dict_get facts "po_missing" (PBool false)))
      then "Found" else "Missing") ++ nl
  ++ nl
  ++ action_text ++ nl
  ++ nl
  ++ "If you have any questions, please contact our Accounts Payable team at ap@acme-manufacturing.com or call (555) 123-4567." ++ nl
  ++ nl
  ++ "Best regards," ++ nl
  ++ "Accounts Payable Department" ++ nl
  ++ "Acme Manufacturing" ++ nl.

End Texts.

(** ** The matcher, the guardrail and the workflow (agent/agent_graph.py) *)

(** An entry of the batch, and a task as the stages fill it; an absent key is
    [None]. *)
Module Item.
Record t : Type := {
  invoice_id : string;
  po_number : string;
  vendor_name : string
}.
End Item.

Module Task.
Record t : Type := {
  invoice_id : string;
  po_number : string;
  vendor_name : string;
  match_result : option MatchResult;
  email_reason : option string;
  needs_email : option bool;
  email_draft : option (option string)
}.
End Task.

Module Summary.
Record t : Type := {
  total_invoices : nat;
  clean_matches : nat;
  partial_matches : nat;
  mismatches : nat;
  emails_to_send : nat;
  approval_required : bool
}.
End Summary.

(** The context dictionary threaded through the stages. *)
Module Ctx.
Record t : Type := {
  data_dir : string;
  model_path : string;
  invoices : list Item.t;
  min_conf : option Q;
  tasks : option (list Task.t);
  summary : option Summary.t;
  status : option string
}.
End Ctx.

(** A callable of the tool table, applied to its positional arguments. *)
Definition tool `{NpRandom} : Type := list pyarg -> Py pyobj.

Definition is_str (a : pyarg) : bool :=
  match a with AStr _ => true | _ => false end.

Definition is_dict (a : pyarg) : bool :=
  match a with ADict _ => true | _ => false end.

Definition STATUSES : list string := ["match"; "partial"; "mismatch"].

(** [a in ["match", "partial", "mismatch"]] *)
Definition is_status (a : pyarg) : bool :=
  match a with
  | AStr s => bool_decide (s ∈ STATUSES)
  | _ => false
  end.

(** [tool_name in tools] and [tools[tool_name]] *)
Fixpoint tool_lookup `{NpRandom} (tools : list (string * tool)) (name : string)
  : option tool :=
  match tools with
  | [] => None
  | (k, f) :: rest => if bool_decide (k = name) then Some f else tool_lookup rest name
  end.

(** [list(tools.keys())], printed. *)
Definition keys_repr `{NpRandom} (tools : list (string * tool)) : string :=
  "[" ++ join ", " (map (fun kf => "'" ++ fst kf ++ "'") tools) ++ "]".

Section Agent.

Context {R : NpRandom} {E : Environment}.

(** [f"{a}"] *)
Definition arg_str (a : pyarg) : string :=
  match a with
  | AStr s => s
  | _ => py_repr a
  end.

Definition call_matcher (invoice_id po_number data_dir model_path : string)
  : Py MatchResult :=
  res <- score_invoice data_dir model_path invoice_id po_number ;;
  match res with
  | NotFound _ =>
      py_ret {| status := "partial"; confidence := 5 # 10; facts := ∅;
                explanation := "No features available for this pair." |}
  | Found _ mismatch_prob facts =>
      let '(status, confidence) := decide_status facts mismatch_prob in
      let explanation := build_explanation facts status confidence in
      py_ret {| status := status; confidence := confidence; facts := facts;
                explanation := explanation |}
  end.

(** The two functions applied to an unpacked argument list: a call with a
    number of arguments the function does not take is a [TypeError]. *)
Definition matcher_tool : tool := fun args =>
  match args with
  | [AStr invoice_id; AStr po_number; AStr data_dir; AStr model_path] =>
      mr <- call_matcher invoice_id po_number data_dir model_path ;;
      py_ret (OMatch mr)
  | _ => py_raise (TypeError "call_matcher() takes 4 positional arguments")
  end.

Definition email_drafter_tool : tool := fun args =>
  match args with
  | [vendor_name; invoice_id; po_number; ADict facts; AStr match_status] =>
      py_ret (OStr (draft_dispute_email (arg_str vendor_name) (arg_str invoice_id)
                      (arg_str po_number) facts match_status))
  | _ => py_raise (TypeError "draft_dispute_email() takes 5 positional arguments")
  end.

Definition ALLOWED_TOOLS : list (string * tool) :=
  [("matcher", matcher_tool); ("email_drafter", email_drafter_tool)].

(** [guardrail_tool_call], over the tool table it consults.  No call site
    passes keyword arguments. *)
Definition guardrail_tool_call_in (tools : list (string * tool))
    (tool_name : string) (args : list pyarg) : Py pyobj :=
  match tool_lookup tools tool_name with
  | None =>
      py_raise (AssertionError
        ("Tool '" ++ tool_name ++ "' not permitted. Allowed: " ++ keys_repr tools))
  | Some f =>
      (if bool_decide (tool_name = "matcher") then
         py_assert (4 <=? length args)%nat
           "Matcher requires: invoice_id, po_number, data_dir, model_path" ;;;
         py_assert (forallb is_str (firstn 4 args)) "All matcher args must be strings"
       else if bool_decide (tool_name = "email_drafter") then
         py_assert (5 <=? length args)%nat
           "Email drafter requires: vendor_name, invoice_id, po_number, facts, status" ;;;
         py_assert (is_dict (nth 3 args ANone)) "Facts must be a dictionary" ;;;
         py_assert (is_status (nth 4 args ANone))
           ("Invalid status: " ++ arg_str (nth 4 args ANone))
       else py_ret tt) ;;;
      py_try (f args)
        (fun e => py_raise (RuntimeError
           ("Tool '" ++ tool_name ++ "' execution failed: " ++ exn_str e)))
  end.

Definition guardrail_tool_call : string -> list pyarg -> Py pyobj :=
  guardrail_tool_call_in ALLOWED_TOOLS.

Definition planner_node (context : Ctx.t) : list Task.t :=
  map (fun item =>
         {| Task.invoice_id := Item.invoice_id item;
            Task.po_number := Item.po_number item;
            Task.vendor_name := Item.vendor_name item;
            Task.match_result := None;
            Task.email_reason := None;
            Task.needs_email := None;
            Task.email_draft := None |})
      (Ctx.invoices context).

(** [context.get("min_conf", 0.75)] *)
Definition min_conf_of (context : Ctx.t) : Q :=
  match Ctx.min_conf context with
  | Some c => c
  | None => 75 # 100
  end.

(** The flag and the reason the loop of [reconcile_node] writes for a result. *)
Definition email_decision (mr : MatchResult) (min_conf : Q) : bool * string :=
  if bool_decide (status mr = "mismatch") then
    (true, "Material discrepancies detected")
  else if bool_decide (status mr = "partial") then
    (true, "Uncertain match requires clarification")
  else if Qlt_bool (confidence mr) min_conf then
    (true, "Low confidence match requires review")
  else (false, "Clean match - no action required").

(** The body of the loop of [reconcile_node]. *)
Definition reconcile_task (context : Ctx.t) (t : Task.t) : Py Task.t :=
  o <- guardrail_tool_call "matcher"
         [AStr (Task.invoice_id t); AStr (Task.po_number t);
          AStr (Ctx.data_dir context); AStr (Ctx.model_path context)] ;;
  match o with
  | OStr _ => py_raise (AttributeError "'str' object has no attribute '__dict__'")
  | OMatch mr =>
      let '(needs_email, email_reason) := email_decision mr (min_conf_of context) in
      py_ret {| Task.invoice_id := Task.invoice_id t;
                Task.po_number := Task.po_number t;
                Task.vendor_name := Task.vendor_name t;
                Task.match_result := Some mr;
                Task.email_reason := Some email_reason;
                Task.needs_email := Some needs_email;
                Task.email_draft := Task.email_draft t |}
  end.

(** [context["tasks"]] *)
Definition tasks_of (context : Ctx.t) : result (list Task.t) :=
  match Ctx.tasks context with
  | Some ts => Ok ts
  | None => Raise (KeyError "tasks")
  end.

Definition reconcile_node (context : Ctx.t) : Py (list Task.t) :=
  match tasks_of context with
  | Raise e => py_raise e
  | Ok ts => py_map (reconcile_task context) ts
  end.

(** The body of the loop of [email_node]. *)
Definition email_task (t : Task.t) : Py Task.t :=
  let with_draft (d : option string) :=
    {| Task.invoice_id := Task.invoice_id t;
       Task.po_number := Task.po_number t;
       Task.vendor_name := Task.vendor_name t;
       Task.match_result := Task.match_result t;
       Task.email_reason := Task.email_reason t;
       Task.needs_email := Task.needs_email t;
       Task.email_draft := Some d |} in
  match Task.needs_email t with
  | Some true =>
      match Task.match_result t with
      | None => py_raise (KeyError "match_result")
      | Some mr =>
          o <- guardrail_tool_call "email_drafter"
                 [AStr (Task.vendor_name t); AStr (Task.invoice_id t);
                  AStr (Task.po_number t); ADict (facts mr); AStr (status mr)] ;;
          match o with
          | OStr s => py_ret (with_draft (Some s))
          | OMatch _ => py_raise (TypeError "email draft is not a string")
          end
      end
  | _ => py_ret (with_draft None)
  end.

Definition email_node (context : Ctx.t) : Py (list Task.t) :=
  match tasks_of context with
  | Raise e => py_raise e
  | Ok ts => py_map email_task ts
  end.

(** [context.update({"tasks": ts})] *)
Definition update_tasks (context : Ctx.t) (ts : list Task.t) : Ctx.t :=
  {| Ctx.data_dir := Ctx.data_dir context;
     Ctx.model_path := Ctx.model_path context;
     Ctx.invoices := Ctx.invoices context;
     Ctx.min_conf := Ctx.min_conf context;
     Ctx.tasks := Some ts;
     Ctx.summary := Ctx.summary context;
     Ctx.status := Ctx.status context |}.

End Agent.

(** [t["match_result"]["status"]] for every task of the list. *)
Fixpoint task_statuses (ts : list Task.t) : result (list string) :=
  match ts with
  | [] => Ok []
  | t :: ts' =>
      match Task.match_result t with
      | None => Raise (KeyError "match_result")
      | Some mr =>
          match task_statuses ts' with
          | Ok ss => Ok (status mr :: ss)
          | Raise e => Raise e
          end
      end
  end.

(** [sum(1 for s in statuses if s == name)] *)
Definition count_status (name : string) (statuses : list string) : nat :=
  length (List.filter (fun s => bool_decide (s = name)) statuses).

(** [t.get("needs_email", False)] *)
Definition needs_email_flag (t : Task.t) : bool :=
  match Task.needs_email t with
  | Some b => b
  | None => false
  end.

Definition approval_gate (context : Ctx.t) : result Ctx.t :=
  match Ctx.tasks context with
  | None => Raise (KeyError "tasks")
  | Some ts =>
      match task_statuses ts with
      | Raise e => Raise e
      | Ok statuses =>
          let total_invoices := length ts in
          let matches := count_status "match" statuses in
          let partial_matches := count_status "partial" statuses in
          let mismatches := count_status "mismatch" statuses in
          let emails_needed := length (List.filter needs_email_flag ts) in
          let summary :=
            {| Summary.total_invoices := total_invoices;
               Summary.clean_matches := matches;
               Summary.partial_matches := partial_matches;
               Summary.mismatches := mismatches;
               Summary.emails_to_send := emails_needed;
               Summary.approval_required :=
                 (0 <? emails_needed)%nat || (0 <? mismatches)%nat |} in
          Ok {| Ctx.data_dir := Ctx.data_dir context;
                Ctx.model_path := Ctx.model_path context;
                Ctx.invoices := Ctx.invoices context;
                Ctx.min_conf := Ctx.min_conf context;
                Ctx.tasks := Some ts;
                Ctx.summary := Some summary;
                Ctx.status :=
                  Some (if Summary.approval_required summary
                        then "APPROVAL_AWAITING" else "COMPLETED") |}
      end
  end.

Definition agent_run `{NpRandom} `{Environment} (data_dir model_path : string)
    (invoices : list Item.t) : Py Ctx.t :=
  let context :=
    {| Ctx.data_dir := data_dir; Ctx.model_path := model_path;
       Ctx.invoices := invoices; Ctx.min_conf := Some (75 # 100);
       Ctx.tasks := None; Ctx.summary := None; Ctx.status := None |} in
  let context := update_tasks context (planner_node context) in
  ts <- reconcile_node context ;;
  let context := update_tasks context ts in
  ts <- email_node context ;;
  let context := update_tasks context ts in
  match approval_gate context with
  | Ok context => py_ret context
  | Raise e => py_raise e
  end.

(** ** The loader (data.py, the aggregation of [normalize_types]) *)

(** A row of the invoice lines as [load_data] reads them.  The four grouping
    columns hold text or are null; the date is the raw cell. *)
Module Line.
Record row : Type := {
  invoice_id : option string;
  vendor_id : option string;
  vendor_name : option string;
  currency : option string;
  line_item_number : option Z;
  quantity : npfloat;
  unit_price : npfloat;
  line_total : npfloat;
  invoice_date : option string
}.
End Line.

Abbreviation RawInvoiceLine := Line.row.

(** The key of a group: invoice, vendor, vendor name, currency. *)
Definition group_key : Type := string * string * string * string.

(** The key of a line; [groupby] drops a line with a null in a key column. *)
Definition line_key (l : RawInvoiceLine) : option group_key :=
  match Line.invoice_id l, Line.vendor_id l, Line.vendor_name l, Line.currency l with
  | Some i, Some v, Some n, Some c => Some (i, v, n, c)
  | _, _, _, _ => None
  end.

(** The order of two pairs: by the first components, then by the second. *)
Definition pair_compare {A B : Type} (cmp_a : A -> A -> comparison)
    (cmp_b : B -> B -> comparison) (x y : A * B) : comparison :=
  match cmp_a (fst x) (fst y) with
  | Eq => cmp_b (snd x) (snd y)
  | c => c
  end.

(** The order [groupby] sorts the groups in: the key columns from left to
    right, each as text. *)
Definition key_compare : group_key -> group_key -> comparison :=
  pair_compare (pair_compare (pair_compare String.compare String.compare)
                  String.compare) String.compare.

(** The sorted list of keys with one more key. *)
Fixpoint insert_key (k : group_key) (ks : list group_key) : list group_key :=
  match ks with
  | [] => [k]
  | k' :: rest =>
      match key_compare k k' with
      | Lt => k :: ks
      | Eq => ks
      | Gt => k' :: insert_key k rest
      end
  end.

(** The keys of the groups, sorted. *)
Definition group_keys (lines : list RawInvoiceLine) : list group_key :=
  fold_left (fun ks l => match line_key l with
                         | Some k => insert_key k ks
                         | None => ks
                         end) lines [].

(** The lines of a group, in the order of the frame. *)
Definition group_lines (k : group_key) (lines : list RawInvoiceLine)
  : list RawInvoiceLine :=
  List.filter (fun l => bool_decide (line_key l = Some k)) lines.

Module Agg.

(** [a + b] *)
Definition add (a b : npfloat) : npfloat :=
  match a, b with
  | NaN, _ | _, NaN => NaN
  | PosInf, NegInf | NegInf, PosInf => NaN
  | PosInf, _ | _, PosInf => PosInf
  | NegInf, _ | _, NegInf => NegInf
  | Fin x, Fin y => Fin (x + y)%Q
  end.

(** The larger of two cells that are not NaN. *)
Definition max (a b : npfloat) : npfloat :=
  match a, b with
  | NaN, x | x, NaN => x
  | PosInf, _ | _, PosInf => PosInf
  | NegInf, x | x, NegInf => x
  | Fin x, Fin y => if Qlt_bool x y then Fin y else Fin x
  end.

(** The cells of a column that are not NaN. *)
Definition present (xs : list npfloat) : list npfloat :=
  List.filter (fun x => negb (NpFloat.eqb x NaN)) xs.

(** ["sum"]: the sum of the cells that are not NaN, 0 when there is none. *)
Definition sum (xs : list npfloat) : npfloat := fold_left add (present xs) (Fin 0).

(** ["count"]: the number of cells that are not null. *)
Definition count {A : Type} (xs : list (option A)) : Z :=
  Z.of_nat (length (List.filter (fun x => match x with Some _ => true | None => false end) xs)).

(** ["max"]: the largest cell that is not NaN, NaN when there is none. *)
Definition maximum (xs : list npfloat) : npfloat :=
  match present xs with
  | [] => NaN
  | x :: rest => fold_left max rest x
  end.

(** ["mean"]: the mean of the cells that are not NaN, NaN when there is none. *)
Definition mean (xs : list npfloat) : npfloat :=
  match present xs with
  | [] => NaN
  | ys => NpFloat.div (fold_left add ys (Fin 0)) (NpFloat.of_Z (Z.of_nat (length ys)))
  end.

(** ["first"]: the first cell that is not null, null when there is none. *)
Fixpoint first {A : Type} (xs : list (option A)) : option A :=
  match xs with
  | [] => None
  | Some x :: _ => Some x
  | None :: rest => first rest
  end.

End Agg.

(** The frame [inv_agg] of [normalize_types]: the invoice dates parsed by
    [parse_date_safe] (the tolerant date parser, a parameter here), the lines
    grouped by the four key columns, one row for each group in the order of
    the keys.  The purchase-order half of the function only parses [po_date]
    and is not modelled. *)
Definition normalize_types_inv_agg (parse_date_safe : option string -> timestamp)
    (df_invoices : list RawInvoiceLine) : list AggregatedInvoice :=
  map (fun k =>
         let '(invoice_id, vendor_id, vendor_name, currency) := k in
         let grp := group_lines k df_invoices in
         {| Inv.invoice_id := invoice_id;
            Inv.vendor_id := vendor_id;
            Inv.vendor_name := Some vendor_name;
            Inv.currency := currency;
            Inv.invoice_total := Agg.sum (map Line.line_total grp);
            Inv.line_count := Agg.count (map Line.line_item_number grp);
            Inv.max_qty := Agg.maximum (map Line.quantity grp);
            Inv.avg_unit_price := Agg.mean (map Line.unit_price grp);
            Inv.invoice_date :=
              Agg.first (map (fun l => parse_date_safe (Line.invoice_date l)) grp) |})
      (group_keys df_invoices).

(** ** The model artifact (model.py, [save_model] and [load_model]) *)

(** What a file written with [joblib.dump] holds: a dictionary, with or
    without the keys [model] and [features_used], or a bare model. *)
Inductive artifact : Type :=
| InfoDict (model : option Classifier) (features : option (list string))
| BareModel (model : Classifier).

(** The model with its attribute [_features_used] set. *)
Definition with_features (clf : Classifier) (cols : list string) : Classifier :=
  {| features_used := Some cols; predict_proba := predict_proba clf |}.

(** [save_model]: the files after [dump(model_info, path)].  A path whose
    directory does not exist is not modelled. *)
Definition save_model (clf : Classifier) (path : string)
    (files : gmap string artifact) : gmap string artifact :=
  <[ path := InfoDict (Some clf) (Some (default FEATURE_COLS (features_used clf))) ]> files.

(** [load_model]; the text of the error for a missing file is joblib's and is
    not modelled. *)
Definition load_model (path : string) (files : gmap string artifact)
  : result Classifier :=
  match files !! path with
  | None => Raise (FileNotFoundError path)
  | Some (InfoDict None _) => Raise (KeyError "model")
  | Some (InfoDict (Some model) features) =>
      Ok (with_features model (default FEATURE_COLS features))
  | Some (BareModel model) => Ok (with_features model FEATURE_COLS)
  end.

(** ** The dates of the loader and the clock (data.py, [parse_date_safe]) *)

(** A calendar date; the clock of a call is the date of the day it runs. *)
Module Civil.
Record t : Type := {
  year : Z;
  month : Z;
  day : Z
}.
End Civil.

Definition is_leap (y : Z) : bool :=
  ((y mod 4 =? 0)%Z && negb (y mod 100 =? 0)%Z) || (y mod 400 =? 0)%Z.

(** [calendar.monthrange(y, m)[1]], the number of days of a month. *)
Definition days_in_month (y m : Z) : Z :=
  if (m =? 2)%Z then (if is_leap y then 29 else 28)
  else if (m =? 4)%Z || (m =? 6)%Z || (m =? 9)%Z || (m =? 11)%Z then 30
  else 31.

(** The number of days from 1970-01-01 to a date of the Gregorian calendar. *)
Definition days_from_civil (y m d : Z) : Z :=
  let y := if (m <=? 2)%Z then y - 1 else y in
  let era := y / 400 in
  let yoe := y - era * 400 in
  let mp := (m + 9) mod 12 in
  let doy := (153 * mp + 2) / 5 + d - 1 in
  let doe := yoe * 365 + yoe / 4 - yoe / 100 + doy in
  era * 146097 + doe - 719468.

(** What dateutil's parser has read in a text: the fields the text gives, the
    weekday it names, Monday being 0, and the time of day in nanoseconds, 0
    when the text gives none. *)
Module Read.
Record t : Type := {
  year : option Z;
  month : option Z;
  day : option Z;
  weekday : option Z;
  time : Z
}.
End Read.

(** The two date readers of the pipeline, as functions of the clock and of
    the cell.
    - [dateutil_read today text] is what [parser.parse(text, dayfirst=True,
      yearfirst=False, fuzzy=True)] reads in the text before it builds the
      date, [None] when it raises; the reading may consult the clock, as the
      century of a two-digit year is chosen around the current year.
    - [to_datetime today cell] is [pd.to_datetime(cell, errors="coerce")], by
      which [engineer_features] reads [grn_date].
    A time zone in the text is not modelled. *)
Class DateLibrary : Type := {
  dateutil_read : Civil.t -> string -> option Read.t;
  to_datetime : Civil.t -> option string -> timestamp
}.

(** dateutil's [_build_naive] with the default the parser takes when it is
    given none, as [parse_date_safe] calls it: the current date at midnight.
    A field the text does not give comes from the current date, the day
    brought back to the end of the month; a named weekday without day moves
    the date on to that weekday; a date that does not exist raises, which
    [parse_date_safe] turns into NaT. *)
Definition build_naive (res : Read.t) (today : Civil.t) : timestamp :=
  let y := match Read.year res with Some y => y | None => Civil.year today end in
  let m := match Read.month res with Some m => m | None => Civil.month today end in
  let last := days_in_month y m in
  let d := match Read.day res with
           | Some d => d
           | None => Z.min (Civil.day today) last
           end in
  if (1 <=? y)%Z && (y <=? 9999)%Z && (1 <=? m)%Z && (m <=? 12)%Z
     && (1 <=? d)%Z && (d <=? last)%Z
  then
    let days := days_from_civil y m d in
    let days := match Read.weekday res, Read.day res with
                | Some w, None => days + (w - (days + 3)) mod 7
                | _, _ => days
                end in
    Some (days * ns_per_day + Read.time res)
  else None.

(** [parse_date_safe], the function [normalize_types] applies to the date
    cells; [str(s)] of a null cell is the text "nan". *)
Definition parse_date_safe `{DateLibrary} (today : Civil.t) (s : option string)
  : timestamp :=
  let text := match s with Some t => t | None => "nan" end in
  match dateutil_read today text with
  | None => None
  | Some res => build_naive res today
  end.

(** A row of [po_grn.csv] as [load_data] reads it: the two dates are raw
    cells. *)
Module RawPO.
Record row : Type := {
  po_number : string;
  vendor_id : string;
  vendor_name : option string;
  currency : string;
  po_total : npfloat;
  po_date : option string;
  grn_number : option string;
  grn_date : option string
}.
End RawPO.

(** The two frames of a data directory that [score_invoice] uses. *)
Record Files : Type := {
  invoices_csv : list RawInvoiceLine;
  po_grn_csv : list RawPO.row
}.

(** A purchase-order row after [normalize_types] has parsed [po_date], with
    [grn_date] as [engineer_features] reads it afterwards. *)
Definition po_record `{DateLibrary} (today : Civil.t) (r : RawPO.row)
  : PurchaseOrderRecord :=
  {| PO.po_number := RawPO.po_number r;
     PO.vendor_id := RawPO.vendor_id r;
     PO.vendor_name := RawPO.vendor_name r;
     PO.currency := RawPO.currency r;
     PO.po_total := RawPO.po_total r;
     PO.po_date := parse_date_safe today (RawPO.po_date r);
     PO.grn_number := RawPO.grn_number r;
     PO.grn_date := to_datetime today (RawPO.grn_date r) |}.

(** [normalize_types] on the day [today]. *)
Definition normalize_types `{DateLibrary} (today : Civil.t)
    (df_invoices : list RawInvoiceLine) (df_po : list RawPO.row)
  : list AggregatedInvoice * list PurchaseOrderRecord :=
  (normalize_types_inv_agg (parse_date_safe today) df_invoices,
   map (po_record today) df_po).

(** The environment of a call made on the day [today] over the files
    [files]: the data are what [load_data] and [normalize_types] make of the
    files on that day; the models and the formatting are those of [E0]. *)
Definition environment_at `{DateLibrary} (E0 : Environment)
    (files : string -> option Files) (today : Civil.t) : Environment :=
  {| models := @models E0;
     datasets := fun dir =>
       match files dir with
       | Some f => Some (normalize_types today (invoices_csv f) (po_grn_csv f))
       | None => None
       end;
     format_2f := @format_2f E0;
     py_str := @py_str E0;
     py_repr := @py_repr E0 |}.

(** Every date cell of the files reads the same on the two days. *)
Definition dates_agree `{DateLibrary} (today1 today2 : Civil.t) (f : Files) : Prop :=
  (forall l, In l (invoices_csv f) ->
     parse_date_safe today1 (Line.invoice_date l)
     = parse_date_safe today2 (Line.invoice_date l))
  /\ (forall r, In r (po_grn_csv f) ->
        parse_date_safe today1 (RawPO.po_date r)
        = parse_date_safe today2 (RawPO.po_date r)
        /\ to_datetime today1 (RawPO.grn_date r) = to_datetime today2 (RawPO.grn_date r)).

(** ** Concrete inputs *)

Module Demo.

Definition day (n : Z) : timestamp := Some (n * ns_per_day).

Definition invoice (id : string) (total : Q) : AggregatedInvoice :=
  {| Inv.invoice_id := id;
     Inv.vendor_id := "V001";
     Inv.vendor_name := Some "Acme Supplies Ltd";
     Inv.currency := "USD";
     Inv.invoice_total := Fin total;
     Inv.line_count := 1;
     Inv.max_qty := Fin 1;
     Inv.avg_unit_price := Fin total;
     Inv.invoice_date := day 10 |}.

Definition purchase_order (number : string) (total : Q) : PurchaseOrderRecord :=
  {| PO.po_number := number;
     PO.vendor_id := "V001";
     PO.vendor_name := Some "acme supplies ltd";
     PO.currency := "USD";
     PO.po_total := Fin total;
     PO.po_date := day 3;
     PO.grn_number := Some "GRN0001";
     PO.grn_date := day 5 |}.

(** Seven invoices, each with its purchase order. *)
Definition invoices7 : list AggregatedInvoice :=
  map (fun id => invoice id 100)
      ["INV0001"; "INV0002"; "INV0003"; "INV0004"; "INV0005"; "INV0006"; "INV0007"].

Definition orders7 : list PurchaseOrderRecord :=
  map (fun n => purchase_order n 100)
      ["PO0001"; "PO0002"; "PO0003"; "PO0004"; "PO0005"; "PO0006"; "PO0007"].

(** An invoice of 50 against a purchase order whose total is zero. *)
Definition zero_total_pair : LinkedPair :=
  joined_row (invoice "INV0012" 50) (purchase_order "PO0012" 0).

(** A model that answers the same probability for every row. *)
Definition constant_model (p : Q) : Classifier :=
  {| features_used := Some FEATURE_COLS; predict_proba := fun _ => p |}.

(** The two invoices of the data directory: INV0012 of 100 and INV0013 of 80,
    each against a purchase order of 100. *)
Definition invoices2 : list AggregatedInvoice :=
  [invoice "INV0012" 100; invoice "INV0013" 80].

Definition orders2 : list PurchaseOrderRecord :=
  [purchase_order "PO0012" 100; purchase_order "PO0013" 100].

(** One data directory and one model file, whose model answers 1/5. *)
Definition environment : Environment :=
  {| models := fun path =>
       if bool_decide (path = "reports/matcher_model.pkl")
       then Some (constant_model (1 # 5)) else None;
     datasets := fun dir =>
       if bool_decide (dir = "data") then Some (invoices2, orders2) else None;
     format_2f := fun _ => "0.00";
     py_str := fun _ => "0.0";
     py_repr := fun _ => "None" |}.

Definition g0 : @rng_state mt19937_random := MT19937.seed 0.

(** The feature rows of the two pairs; no mask selects either of them. *)
Definition clean_row : FeatureRow :=
  engineer_row false false false
    (joined_row (invoice "INV0012" 100) (purchase_order "PO0012" 100)).

Definition short_row : FeatureRow :=
  engineer_row false false false
    (joined_row (invoice "INV0013" 80) (purchase_order "PO0013" 100)).

(** What [call_matcher] returns for the two pairs. *)
Definition clean_result : MatchResult :=
  {| status := "match"; confidence := (1 - (1 # 5))%Q;
     facts := facts_of_row clean_row;
     explanation := "Clean match with no material differences. Confidence: 0.00" |}.

Definition short_result : MatchResult :=
  {| status := "mismatch"; confidence := 1 # 5;
     facts := facts_of_row short_row;
     explanation := "Mismatch detected: Amount discrepancy of 0.00. Confidence: 0.00" |}.

Definition planned_task (invoice_id po_number : string) : Task.t :=
  {| Task.invoice_id := invoice_id; Task.po_number := po_number;
     Task.vendor_name := "Acme Supplies Ltd";
     Task.match_result := None; Task.email_reason := None;
     Task.needs_email := None; Task.email_draft := None |}.

Definition reconciled_task (invoice_id po_number : string) (mr : MatchResult)
    (needs_email : bool) (email_reason : string) : Task.t :=
  {| Task.invoice_id := invoice_id; Task.po_number := po_number;
     Task.vendor_name := "Acme Supplies Ltd";
     Task.match_result := Some mr; Task.email_reason := Some email_reason;
     Task.needs_email := Some needs_email; Task.email_draft := None |}.

Definition context (ts : list Task.t) : Ctx.t :=
  {| Ctx.data_dir := "data"; Ctx.model_path := "reports/matcher_model.pkl";
     Ctx.invoices := []; Ctx.min_conf := Some (75 # 100);
     Ctx.tasks := Some ts; Ctx.summary := None; Ctx.status := None |}.

Definition planned : list Task.t :=
  [planned_task "INV0012" "PO0012"; planned_task "INV0013" "PO0013"].

Definition reconciled : list Task.t :=
  [ reconciled_task "INV0012" "PO0012" clean_result false
      "Clean match - no action required";
    reconciled_task "INV0013" "PO0013" short_result true
      "Material discrepancies detected" ].

End Demo.

(** ** The vocabulary of the properties *)

Definition keys_equal (i : AggregatedInvoice) (p : PurchaseOrderRecord) : Prop :=
  invoice_to_po_key (Inv.invoice_id i) = PO.po_number p
  /\ Inv.vendor_id i = PO.vendor_id p
  /\ Inv.currency i = PO.currency p.

(** All the columns that come from the purchase order are null. *)
Definition po_fields_null (r : LinkedPair) : Prop :=
  Linked.po_number r = None /\ Linked.vendor_name_po r = None
  /\ Linked.po_total r = NaN /\ Linked.po_date r = None
  /\ Linked.grn_number r = None /\ Linked.grn_date r = None.

(** Some purchase order of the catalog has the candidate key, the vendor and
    the currency of the linked row. *)
Definition has_partner (po : list PurchaseOrderRecord) (r : LinkedPair) : Prop :=
  exists p, In p po /\ PO.po_number p = Linked.candidate_po r
            /\ PO.vendor_id p = Linked.vendor_id r
            /\ PO.currency p = Linked.currency r.

(** The linking the specification describes: a row has its purchase-order
    columns null only when no purchase order has its keys. *)
Definition exact_join (po : list PurchaseOrderRecord) (out : list LinkedPair) : Prop :=
  forall r, In r out -> po_fields_null r -> ~ has_partner po r.

(** The masks of the two stages, as functions of the number of rows. *)
Definition link_mask `{NpRandom} (n : nat) : list bool :=
  fst (random_mask (15 # 100) n (rng_seed 42)).

Definition grn_mask `{NpRandom} (n : nat) : list bool :=
  fst (random_mask (15 # 100) n (rng_seed 42)).

Definition additional_mask `{NpRandom} (n : nat) : list bool :=
  fst (random_mask (5 # 100) n (snd (random_mask (15 # 100) n (rng_seed 42)))).

Definition currency_mask `{NpRandom} (n : nat) : list bool :=
  fst (random_mask (5 # 100) n (rng_seed 42)).

(** The frame [score_invoice] selects from. *)
Definition feature_frame `{NpRandom} (inv_agg : list AggregatedInvoice)
    (po : list PurchaseOrderRecord) : list FeatureRow :=
  fst (engineer_features (fst (build_links inv_agg po (rng_seed 42))) (rng_seed 42)).

(** The feature list [score_invoice] hands to the model. *)
Definition feature_cols_of (clf : Classifier) (feats : list FeatureRow) : list string :=
  match features_used clf with
  | Some cols => cols
  | None => varying_feature_cols feats
  end.

Definition CANONICAL_KEYS : list string :=
  ["amount_delta"; "vendor_match"; "po_missing"; "has_grn"; "days_delta"].

(** Every canonical key has an entry in the dictionary. *)
Definition exposes_canonical_keys (f : gmap string pyval) : Prop :=
  forall k, In k CANONICAL_KEYS -> exists v, f !! k = Some v.

(** The material-issue condition on the four facts it reads. *)
Definition material_issue (po_missing vendor_match has_grn : bool) (amount_delta_abs : Q)
  : Prop :=
  po_missing = true \/ vendor_match = false
  \/ (1 # 100 < amount_delta_abs)%Q \/ has_grn = false.

(** The task holds a result with the given status. *)
Definition has_status (name : string) (t : Task.t) : bool :=
  match Task.match_result t with
  | Some mr => bool_decide (status mr = name)
  | None => false
  end.

(** The number of tasks that satisfy a test. *)
Definition count_tasks (test : Task.t -> bool) (ts : list Task.t) : nat :=
  length (List.filter test ts).

(** ** The vocabulary of the further properties *)

(** The columns a purchase order is joined on. *)
Definition po_key (p : PurchaseOrderRecord) : string * string * string :=
  (PO.po_number p, PO.vendor_id p, PO.currency p).

(** The context [agent_run] hands to [reconcile_node]. *)
Definition planned_context (data_dir model_path : string) (invoices : list Item.t)
  : Ctx.t :=
  {| Ctx.data_dir := data_dir; Ctx.model_path := model_path;
     Ctx.invoices := invoices; Ctx.min_conf := Some (75 # 100);
     Ctx.tasks :=
       Some (map (fun item =>
                    {| Task.invoice_id := Item.invoice_id item;
                       Task.po_number := Item.po_number item;
                       Task.vendor_name := Item.vendor_name item;
                       Task.match_result := None; Task.email_reason := None;
                       Task.needs_email := None; Task.email_draft := None |})
                 invoices);
     Ctx.summary := None; Ctx.status := None |}.

(** The task holds an email draft. *)
Definition has_draft (t : Task.t) : bool :=
  match Task.email_draft t with
  | Some (Some _) => true
  | _ => false
  end.

(** What a finished run records for an entry of the batch. *)
Definition run_task `{Environment} (item : Item.t) (t : Task.t) : Prop :=
  Task.invoice_id t = Item.invoice_id item
  /\ Task.po_number t = Item.po_number item
  /\ Task.vendor_name t = Item.vendor_name item
  /\ exists mr flag,
       Task.match_result t = Some mr
       /\ In (status mr) STATUSES
       /\ Task.needs_email t = Some flag
       /\ Task.email_reason t = Some (snd (email_decision mr (75 # 100)))
       /\ flag = fst (email_decision mr (75 # 100))
       /\ Task.email_draft t
          = Some (if flag
                  then Some (draft_dispute_email (Item.vendor_name item)
                               (Item.invoice_id item) (Item.po_number item)
                               (facts mr) (status mr))
                  else None).

(** The summary and the status [approval_gate] computes from the tasks. *)
Definition summary_of (ts : list Task.t) : Summary.t :=
  {| Summary.total_invoices := length ts;
     Summary.clean_matches := count_tasks (has_status "match") ts;
     Summary.partial_matches := count_tasks (has_status "partial") ts;
     Summary.mismatches := count_tasks (has_status "mismatch") ts;
     Summary.emails_to_send := count_tasks needs_email_flag ts;
     Summary.approval_required :=
       (0 <? count_tasks needs_email_flag ts)%nat
       || (0 <? count_tasks (has_status "mismatch") ts)%nat |}.

(** A reconciled task: a result with one of the three statuses, and the flag
    the email rule gives it under the threshold 0.75. *)
Definition reconciled_ok (t : Task.t) : Prop :=
  exists mr,
    Task.match_result t = Some mr /\ In (status mr) STATUSES
    /\ Task.needs_email t = Some (fst (email_decision mr (75 # 100))).

(** A comparison that is a strict total order whose [Eq] is equality. *)
Record order_laws {A : Type} (cmp : A -> A -> comparison) : Prop := {
  cmp_refl : forall x, cmp x x = Eq;
  cmp_eq : forall x y, cmp x y = Eq -> x = y;
  cmp_trans : forall x y z, cmp x y = Lt -> cmp y z = Lt -> cmp x z = Lt;
  cmp_flip : forall x y, cmp x y = Gt -> cmp y x = Lt
}.

(** The keys increase strictly from left to right. *)
Definition keys_increasing (ks : list group_key) : Prop :=
  StronglySorted (fun a b => key_compare a b = Lt) ks.

(** The lines that [groupby] keeps: those with no null in a key column. *)
Definition keyed_lines (lines : list RawInvoiceLine) : list RawInvoiceLine :=
  List.filter (fun l => match line_key l with Some _ => true | None => false end) lines.

(** The sum of a list of integers. *)
Fixpoint Zsum (xs : list Z) : Z :=
  match xs with
  | [] => 0
  | x :: rest => x + Zsum rest
  end.

(** The key columns of an aggregated invoice. *)
Definition inv_group_key (r : AggregatedInvoice) : group_key :=
  (Inv.invoice_id r, Inv.vendor_id r, default "" (Inv.vendor_name r), Inv.currency r).

(** 1 for a line with a line number, 0 for a line without. *)
Definition numbered (l : RawInvoiceLine) : Z :=
  match Line.line_item_number l with Some _ => 1 | None => 0 end.

(** ** Concrete inputs of the further properties *)

Module Sample.

(** A batch of three entries: the two pairs of the data directory and a pair
    the data do not hold. *)
Definition batch : list Item.t :=
  [ {| Item.invoice_id := "INV0012"; Item.po_number := "PO0012";
       Item.vendor_name := "Acme Supplies Ltd" |};
    {| Item.invoice_id := "INV0013"; Item.po_number := "PO0013";
       Item.vendor_name := "Acme Supplies Ltd" |};
    {| Item.invoice_id := "INV0099"; Item.po_number := "PO0099";
       Item.vendor_name := "Acme Supplies Ltd" |} ].

(** What [call_matcher] returns for a pair that is not found. *)
Definition unknown_result : MatchResult :=
  {| status := "partial"; confidence := 5 # 10; facts := ∅;
     explanation := "No features available for this pair." |}.

Definition finished_task (invoice_id po_number : string) (mr : MatchResult)
    (needs_email : bool) (email_reason : string) : Task.t :=
  {| Task.invoice_id := invoice_id; Task.po_number := po_number;
     Task.vendor_name := "Acme Supplies Ltd";
     Task.match_result := Some mr; Task.email_reason := Some email_reason;
     Task.needs_email := Some needs_email;
     Task.email_draft :=
       Some (if needs_email
             then Some (draft_dispute_email (E := Demo.environment) "Acme Supplies Ltd"
                          invoice_id po_number (facts mr) (status mr))
             else None) |}.

Definition finished_tasks : list Task.t :=
  [ finished_task "INV0012" "PO0012" Demo.clean_result false
      "Clean match - no action required";
    finished_task "INV0013" "PO0013" Demo.short_result true
      "Material discrepancies detected";
    finished_task "INV0099" "PO0099" unknown_result true
      "Uncertain match requires clarification" ].

(** The context the run of the batch returns. *)
Definition finished : Ctx.t :=
  {| Ctx.data_dir := "data"; Ctx.model_path := "reports/matcher_model.pkl";
     Ctx.invoices := batch; Ctx.min_conf := Some (75 # 100);
     Ctx.tasks := Some finished_tasks;
     Ctx.summary :=
       Some {| Summary.total_invoices := 3; Summary.clean_matches := 1;
               Summary.partial_matches := 1; Summary.mismatches := 1;
               Summary.emails_to_send := 2; Summary.approval_required := true |};
     Ctx.status := Some "APPROVAL_AWAITING" |}.

(** The context of the demonstration batch with a threshold of 0.9, and the
    tasks [reconcile_node] returns for it. *)
Definition strict_context : Ctx.t :=
  {| Ctx.data_dir := "data"; Ctx.model_path := "reports/matcher_model.pkl";
     Ctx.invoices := []; Ctx.min_conf := Some (9 # 10);
     Ctx.tasks := Some Demo.planned; Ctx.summary := None; Ctx.status := None |}.

Definition strict_reconciled : list Task.t :=
  [ Demo.reconciled_task "INV0012" "PO0012" Demo.clean_result true
      "Low confidence match requires review";
    Demo.reconciled_task "INV0013" "PO0013" Demo.short_result true
      "Material discrepancies detected" ].

(** What the two readers make of the date cells of the sample files:
    dateutil reads the year and the month in "March 2024", and day, month
    and year, the day first, in the two complete dates. *)
Definition library : DateLibrary :=
  {| dateutil_read := fun _ text =>
       if bool_decide (text = "March 2024") then
         Some {| Read.year := Some 2024; Read.month := Some 3; Read.day := None;
                 Read.weekday := None; Read.time := 0 |}
       else if bool_decide (text = "01/03/2024") then
         Some {| Read.year := Some 2024; Read.month := Some 3; Read.day := Some 1;
                 Read.weekday := None; Read.time := 0 |}
       else if bool_decide (text = "10/03/2024") then
         Some {| Read.year := Some 2024; Read.month := Some 3; Read.day := Some 10;
                 Read.weekday := None; Read.time := 0 |}
       else None;
     to_datetime := fun _ cell =>
       if bool_decide (cell = Some "2024-03-05")
       then Some (days_from_civil 2024 3 5 * ns_per_day) else None |}.

(** The files of a data directory with one invoice line, dated [date], and
    its purchase order of 1 March 2024. *)
Definition files (date : string) (dir : string) : option Files :=
  if bool_decide (dir = "data") then
    Some {| invoices_csv :=
              [ {| Line.invoice_id := Some "INV0012"; Line.vendor_id := Some "V001";
                   Line.vendor_name := Some "Acme Supplies Ltd";
                   Line.currency := Some "USD"; Line.line_item_number := Some 1;
                   Line.quantity := Fin 1; Line.unit_price := Fin 100;
                   Line.line_total := Fin 100; Line.invoice_date := Some date |} ];
            po_grn_csv :=
              [ {| RawPO.po_number := "PO0012"; RawPO.vendor_id := "V001";
                   RawPO.vendor_name := Some "acme supplies ltd";
                   RawPO.currency := "USD"; RawPO.po_total := Fin 100;
                   RawPO.po_date := Some "01/03/2024";
                   RawPO.grn_number := Some "GRN0001";
                   RawPO.grn_date := Some "2024-03-05" |} ] |}
  else None.

(** Two days of November 2024. *)
Definition november (day : Z) : Civil.t :=
  {| Civil.year := 2024; Civil.month := 11; Civil.day := day |}.

(** The result of scoring the pair of the files on a given day. *)
Definition score_on (date : string) (today : Civil.t) : result score_result :=
  fst (score_invoice (E := environment_at (H := library) Demo.environment (files date) today)
         "data" "reports/matcher_model.pkl" "INV0012" "PO0012" Demo.g0).

End Sample.

(** ** Properties of the specification, stated on the embedding *)

(** *** Arithmetic and generator lemmas *)

Lemma Qlt_bool_iff (x y : Q) : Qlt_bool x y = true <-> (x < y)%Q.
Proof.
  unfold Qlt_bool. rewrite negb_true_iff.
  split.
  - intros H. apply Qnot_le_lt. intros Hle.
    apply Qle_bool_iff in Hle. congruence.
  - intros H. destruct (Qle_bool y x) eqn:Hb; [|reflexivity].
    apply Qle_bool_iff in Hb. exfalso. exact (Qlt_not_le _ _ H Hb).
Qed.

Lemma Qlt_bool_false_iff (x y : Q) : Qlt_bool x y = false <-> (y <= x)%Q.
Proof.
  unfold Qlt_bool. rewrite negb_false_iff. apply Qle_bool_iff.
Qed.

Lemma rng_random_length `{NpRandom} (n : nat) (g : rng_state) :
  length (fst (rng_random n g)) = n.
Proof.
  revert g. induction n as [|n IH]; intros g; [reflexivity|].
  cbn [rng_random]. destruct (rng_next g) as [x g1].
  specialize (IH g1). destruct (rng_random n g1) as [xs g2].
  cbn in *. now rewrite IH.
Qed.

Lemma random_mask_length `{NpRandom} (p : Q) (n : nat) (g : rng_state) :
  length (fst (random_mask p n g)) = n.
Proof.
  unfold random_mask. pose proof (rng_random_length n g) as Hlen.
  destruct (rng_random n g) as [xs g']. cbn in *. now rewrite length_map.
Qed.

(** A sample of the generator is [k / 2^53]; comparing it with the decimal
    threshold or with the double closest to the threshold (0.15 is
    5404319552844595 / 2^55 and 0.05 is 3602879701896397 / 2^56) is the same. *)
Lemma sample_threshold_as_double (k : Z) :
  Qlt_bool (k # 9007199254740992) (15 # 100)
  = Qlt_bool (k # 9007199254740992) (5404319552844595 # 36028797018963968)
  /\ Qlt_bool (k # 9007199254740992) (5 # 100)
     = Qlt_bool (k # 9007199254740992) (3602879701896397 # 72057594037927936).
Proof.
  unfold Qlt_bool, Qle_bool. cbn [Qnum Qden].
  split; apply Bool.eq_true_iff_eq; rewrite !negb_true_iff, !Z.leb_gt; lia.
Qed.

(** The model of the generator reproduces the first samples NumPy draws after
    [np.random.seed(42)]: 0.3745401188473625, 0.9507143064099162,
    0.7319939418114051, 0.5986584841970366, 0.15601864044243652,
    0.15599452033620265, 0.05808361216819946 (here cut after 16 decimals). *)
Lemma mt19937_seed42_samples :
  map (fun q => (Qnum q * 10 ^ 16) / Zpos (Qden q))
      (fst (rng_random 7 (MT19937.seed 42)))
  = [3745401188473624; 9507143064099161; 7319939418114050; 5986584841970365;
     1560186404424365; 1559945203362026; 580836121681994].
Proof. vm_compute. reflexivity. Qed.

(** Hence, of seven rows, the link mask selects the last one only. *)
Lemma mt19937_link_mask_7 :
  link_mask 7 = [false; false; false; false; false; false; true].
Proof. vm_compute. reflexivity. Qed.

(** *** The linker *)

(** The examples of the specification for the candidate key. *)
Lemma invoice_to_po_key_examples :
  invoice_to_po_key "INV0012" = "PO0012" /\ invoice_to_po_key "XYZ99" = "XYZ99".
Proof. split; reflexivity. Qed.

Lemma join_keys_match_iff (i : AggregatedInvoice) (p : PurchaseOrderRecord) :
  join_keys_match i p = true <-> keys_equal i p.
Proof.
  unfold join_keys_match, keys_equal.
  rewrite !andb_true_iff, !bool_decide_eq_true. tauto.
Qed.

Lemma merge_one_spec (po : list PurchaseOrderRecord) (i : AggregatedInvoice) (r : LinkedPair) :
  In r (merge_one po i) ->
  (r = unmatched_row i /\ forall p, In p po -> ~ keys_equal i p)
  \/ (exists p, In p po /\ keys_equal i p /\ r = joined_row i p).
Proof.
  unfold merge_one. destruct (List.filter (join_keys_match i) po) as [|p0 ps] eqn:Hf.
  - intros [<- | []]. left. split; [reflexivity|].
    intros p Hp Hk. apply join_keys_match_iff in Hk.
    assert (Hin : In p (List.filter (join_keys_match i) po))
      by (apply filter_In; auto).
    rewrite Hf in Hin. exact Hin.
  - intros Hin. right. apply in_map_iff in Hin as (p & <- & Hp).
    rewrite <- Hf in Hp. apply filter_In in Hp as [Hp Hk].
    exists p. split; [assumption|]. split; [now apply join_keys_match_iff|reflexivity].
Qed.

Lemma merge_left_spec (inv_agg : list AggregatedInvoice) (po : list PurchaseOrderRecord)
    (r : LinkedPair) :
  In r (merge_left inv_agg po) ->
  exists i, In i inv_agg /\
    ((r = unmatched_row i /\ forall p, In p po -> ~ keys_equal i p)
     \/ (exists p, In p po /\ keys_equal i p /\ r = joined_row i p)).
Proof.
  unfold merge_left. intros Hin.
  apply in_concat in Hin as (rows & Hrows & Hr).
  apply in_map_iff in Hrows as (i & <- & Hi).
  exists i. split; [assumption|]. now apply merge_one_spec.
Qed.

Lemma build_links_eq `{NpRandom} inv_agg po g :
  fst (build_links inv_agg po g)
  = zip_with break_link (link_mask (length (merge_left inv_agg po)))
      (merge_left inv_agg po).
Proof.
  unfold build_links, link_mask.
  destruct (random_mask (15 # 100) (length (merge_left inv_agg po)) (rng_seed 42)).
  reflexivity.
Qed.

Lemma break_link_true_null (r : LinkedPair) : po_fields_null (break_link true r).
Proof. repeat split. Qed.

Lemma unmatched_row_null (i : AggregatedInvoice) : po_fields_null (unmatched_row i).
Proof. repeat split. Qed.

Lemma joined_row_not_null (i : AggregatedInvoice) (p : PurchaseOrderRecord) :
  ~ po_fields_null (joined_row i p).
Proof. intros [Hn _]. discriminate Hn. Qed.

(** C1, as stated, fails: among seven invoices that each have a purchase
    order with equal candidate key, vendor and currency, [build_links] returns
    the seventh with every purchase-order column null. *)
Lemma build_links_breaks_exact_join :
  ~ exact_join Demo.orders7 (fst (build_links Demo.invoices7 Demo.orders7 Demo.g0)).
Proof.
  intros Hclaim.
  apply (Hclaim (unmatched_row (Demo.invoice "INV0007" 100))).
  - vm_compute. do 6 right. left. reflexivity.
  - apply unmatched_row_null.
  - exists (Demo.purchase_order "PO0007" 100).
    split; [|repeat split].
    vm_compute. do 6 right. left. reflexivity.
Qed.

(** C1, amended: [build_links] is a function of the two catalogs alone (the
    state of the generator it is entered with has no influence).  It returns
    the left join on exact equality of candidate key, vendor and currency,
    with the rows selected by the mask [random(n) < 0.15] drawn after seeding
    with 42 stripped of their purchase-order columns: a returned row has these
    columns null exactly when its position is in the mask or no purchase order
    has the keys of its invoice, and otherwise it is the row joined with a
    purchase order of equal keys. *)
Theorem build_links_masked_exact_join `{NpRandom}
    (inv_agg : list AggregatedInvoice) (po : list PurchaseOrderRecord) (g : rng_state) :
  let df := merge_left inv_agg po in
  let out := fst (build_links inv_agg po g) in
  (forall g', build_links inv_agg po g' = build_links inv_agg po g)
  /\ length out = length df
  /\ forall k r, out !! k = Some r ->
       exists i b,
         In i inv_agg
         /\ link_mask (length df) !! k = Some b
         /\ Linked.invoice_id r = Inv.invoice_id i
         /\ Linked.candidate_po r = invoice_to_po_key (Inv.invoice_id i)
         /\ (po_fields_null r <-> b = true \/ forall p, In p po -> ~ keys_equal i p)
         /\ (~ po_fields_null r ->
             exists p, In p po /\ keys_equal i p /\ r = joined_row i p).
Proof.
  intros df out. subst out. rewrite build_links_eq. fold df.
  split; [reflexivity|]. split.
  { rewrite length_zip_with. unfold link_mask.
    rewrite random_mask_length. lia. }
  intros k r Hk.
  apply lookup_zip_with_Some in Hk as (b & j & -> & Hb & Hj).
  assert (Hin : In j df) by (apply list_elem_of_In; eapply list_elem_of_lookup_2; eauto).
  apply merge_left_spec in Hin as (i & Hi & Hcase).
  exists i, b. split; [assumption|]. split; [assumption|].
  destruct Hcase as [[-> Hnone] | (p & Hp & Hkeys & ->)].
  - split; [destruct b; reflexivity|]. split; [destruct b; reflexivity|].
    split.
    + split; [intros _; right; assumption|].
      intros _. destruct b; [apply break_link_true_null | apply unmatched_row_null].
    + intros Hnn. exfalso. apply Hnn.
      destruct b; [apply break_link_true_null | apply unmatched_row_null].
  - split; [destruct b; reflexivity|]. split; [destruct b; reflexivity|].
    destruct b.
    + split.
      * split; [intros _; left; reflexivity | intros _; apply break_link_true_null].
      * intros Hnn. exfalso. apply Hnn, break_link_true_null.
    + split.
      * split.
        -- intros Hnull. exfalso. exact (joined_row_not_null _ _ Hnull).
        -- intros [Hb' | Hnone]; [discriminate|]. exfalso. exact (Hnone p Hp Hkeys).
      * intros _. exists p. auto.
Qed.

(** *** The feature engine *)

(** The examples of the specification for the vendor similarity. *)
Lemma vendor_similarity_examples :
  (vendor_similarity (Some "Acme Supplies Ltd") (Some "acme supplies ltd") == 1)%Q
  /\ (vendor_similarity (Some "Acme Co") (Some "Globex Inc") == 0)%Q
  /\ (vendor_similarity (Some "Acme Co") (Some "Acme Inc") == 1 # 3)%Q
  /\ (vendor_similarity None (Some "Acme Co") == 0)%Q.
Proof. repeat split; vm_compute; reflexivity. Qed.

Lemma engineer_features_eq `{NpRandom} (df : list LinkedPair) (g : rng_state) :
  fst (engineer_features df g)
  = engineer_rows (grn_mask (length df)) (additional_mask (length df))
      (currency_mask (length df)) df.
Proof.
  unfold engineer_features, grn_mask, additional_mask, currency_mask.
  destruct (random_mask (15 # 100) (length df) (rng_seed 42)) as [m1 g1]. cbn [fst snd].
  destruct (random_mask (5 # 100) (length df) g1) as [m2 g2]. cbn [fst snd].
  destruct (random_mask (5 # 100) (length df) (rng_seed 42)) as [m3 g3].
  reflexivity.
Qed.

Lemma engineer_rows_length (m1 m2 m3 : list bool) (df : list LinkedPair) :
  length m1 = length df -> length m2 = length df -> length m3 = length df ->
  length (engineer_rows m1 m2 m3 df) = length df.
Proof.
  revert m1 m2 m3. induction df as [|r df IH]; intros [|b1 m1] [|b2 m2] [|b3 m3];
    cbn; try discriminate; try reflexivity.
  intros H1 H2 H3. f_equal. apply IH; congruence.
Qed.

Lemma engineer_rows_In (m1 m2 m3 : list bool) (df : list LinkedPair) (fr : FeatureRow) :
  In fr (engineer_rows m1 m2 m3 df) ->
  exists b1 b2 b3 r, In r df /\ fr = engineer_row b1 b2 b3 r.
Proof.
  revert m1 m2 m3. induction df as [|r df IH]; intros [|b1 m1] [|b2 m2] [|b3 m3];
    cbn; try contradiction.
  intros [<- | Hin].
  - exists b1, b2, b3, r. auto.
  - destruct (IH _ _ _ Hin) as (c1 & c2 & c3 & r' & Hr' & ->).
    exists c1, c2, c3, r'. auto.
Qed.

Lemma engineer_features_length `{NpRandom} (df : list LinkedPair) (g : rng_state) :
  length (fst (engineer_features df g)) = length df.
Proof.
  rewrite engineer_features_eq. apply engineer_rows_length;
    unfold grn_mask, additional_mask, currency_mask; apply random_mask_length.
Qed.

Lemma fillna_sub_cases (a b : npfloat) :
  NpFloat.fillna 0 (NpFloat.sub a b) = PosInf
  \/ NpFloat.fillna 0 (NpFloat.sub a b) = NegInf
  \/ exists d, NpFloat.fillna 0 (NpFloat.sub a b) = Fin d.
Proof. destruct a, b; cbn; eauto. Qed.

(** The signed difference and its absolute value, as the function returns
    them. *)
Lemma engineer_row_amount_delta_abs (b1 b2 b3 : bool) (r : LinkedPair) :
  exists d, Feat.amount_delta (engineer_row b1 b2 b3 r) = Fin d
            /\ Feat.amount_delta_abs (engineer_row b1 b2 b3 r) = Fin (Qabs d).
Proof.
  cbn [engineer_row Feat.amount_delta Feat.amount_delta_abs].
  destruct (fillna_sub_cases (Linked.invoice_total r) (Linked.po_total r))
    as [-> | [-> | [d ->]]].
  - exists 0%Q. split; reflexivity.
  - exists 0%Q. split; reflexivity.
  - exists d. split; reflexivity.
Qed.

Lemma replace_inf_nan_finite (a : npfloat) : NpFloat.is_finite (replace_inf_nan a) = true.
Proof. destruct a; reflexivity. Qed.

(** Every numeric column the function cleans is finite in every row it
    returns, and it returns one row for each row it is given. *)
Lemma engineer_features_total `{NpRandom} (df : list LinkedPair) (g : rng_state) :
  length (fst (engineer_features df g)) = length df
  /\ forall fr, In fr (fst (engineer_features df g)) ->
       NpFloat.is_finite (Feat.amount_delta fr) = true
       /\ NpFloat.is_finite (Feat.amount_delta_abs fr) = true
       /\ NpFloat.is_finite (Feat.amount_delta_pct fr) = true
       /\ NpFloat.is_finite (Feat.days_delta fr) = true
       /\ NpFloat.is_finite (Feat.days_since_grn fr) = true
       /\ NpFloat.is_finite (Feat.vendor_similarity fr) = true.
Proof.
  split; [apply engineer_features_length|].
  intros fr Hin. rewrite engineer_features_eq in Hin.
  apply engineer_rows_In in Hin as (b1 & b2 & b3 & r & _ & ->).
  cbn [engineer_row Feat.amount_delta Feat.amount_delta_abs Feat.amount_delta_pct
       Feat.days_delta Feat.days_since_grn Feat.vendor_similarity].
  repeat split; apply replace_inf_nan_finite.
Qed.

(** With a null [po_total] the difference, its ratio and both tolerance flags
    are zero. *)
Lemma engineer_row_null_po_total (b1 b2 b3 : bool) (r : LinkedPair) :
  Linked.po_total r = NaN ->
  let fr := engineer_row b1 b2 b3 r in
  Feat.amount_delta fr = Fin 0 /\ Feat.amount_delta_abs fr = Fin 0
  /\ Feat.amount_delta_pct fr = Fin 0
  /\ Feat.amount_over_tolerance fr = 0 /\ Feat.amount_pct_over_tolerance fr = 0.
Proof.
  intros Hnull.
  cbn [engineer_row Feat.amount_delta Feat.amount_delta_abs Feat.amount_delta_pct
       Feat.amount_over_tolerance Feat.amount_pct_over_tolerance].
  rewrite Hnull. destruct (Linked.invoice_total r); repeat split; reflexivity.
Qed.

(** With finite totals and a [po_total] that is not zero, the ratio is the
    quotient, brought into [-1, 1]. *)
Lemma engineer_row_pct_quotient (b1 b2 b3 : bool) (r : LinkedPair) (x y : Q) :
  Linked.invoice_total r = Fin x -> Linked.po_total r = Fin y -> ~ (y == 0)%Q ->
  exists c, Feat.amount_delta_pct (engineer_row b1 b2 b3 r) = Fin c
    /\ (- (1) <= c <= 1)%Q
    /\ ((- (1) <= (x - y) / y <= 1)%Q -> c = ((x - y) / y)%Q)
    /\ ((1 < (x - y) / y)%Q -> c = 1%Q)
    /\ (((x - y) / y < - (1))%Q -> c = (- (1))%Q).
Proof.
  intros Hx Hy Hnz.
  cbn [engineer_row Feat.amount_delta_pct]. rewrite Hx, Hy.
  cbn [NpFloat.sub NpFloat.fillna NpFloat.div].
  destruct (Qeq_bool y 0) eqn:Hz; [apply Qeq_bool_iff in Hz; contradiction|].
  cbn [NpFloat.fillna NpFloat.clip replace_inf_nan NpFloat.replace_inf].
  set (q := ((x - y) / y)%Q).
  destruct (Qlt_bool q (- (1))) eqn:Hlo.
  - apply Qlt_bool_iff in Hlo. eexists. split; [reflexivity|].
    split; [split; [apply Qle_refl | discriminate]|].
    split; [intros [Hge _]; exfalso; exact (Qlt_not_le _ _ Hlo Hge)|].
    split; [|reflexivity].
    intros Hgt. exfalso. apply (Qlt_irrefl q).
    eapply Qlt_trans; [exact Hlo|]. eapply Qlt_trans; [|exact Hgt]. reflexivity.
  - apply Qlt_bool_false_iff in Hlo.
    destruct (Qlt_bool 1 q) eqn:Hhi.
    + apply Qlt_bool_iff in Hhi. eexists. split; [reflexivity|].
      split; [split; [discriminate | apply Qle_refl]|].
      split; [intros [_ Hle]; exfalso; exact (Qlt_not_le _ _ Hhi Hle)|].
      split; [reflexivity|].
      intros Hlt. exfalso. exact (Qlt_not_le _ _ Hlt Hlo).
    + apply Qlt_bool_false_iff in Hhi. exists q. split; [reflexivity|].
      split; [split; assumption|].
      split; [reflexivity|].
      split.
      * intros Hgt. exfalso. exact (Qlt_not_le _ _ Hgt Hhi).
      * intros Hlt. exfalso. exact (Qlt_not_le _ _ Hlt Hlo).
Qed.

(** C4: the code at the failing input.  For an invoice of 50 linked to a
    purchase order whose total is zero, [engineer_features] returns the ratio
    1.0 and raises the percentage flag, where the claim has 0.0 and no flag. *)
Theorem engineer_features_zero_po_total_ratio :
  map (fun fr => (Linked.po_total (Feat.linked fr), Feat.amount_delta fr,
                  Feat.amount_delta_pct fr, Feat.amount_pct_over_tolerance fr))
      (fst (engineer_features [Demo.zero_total_pair] Demo.g0))
  = [(Fin 0, Fin 50, Fin 1, 1)].
Proof. vm_compute. reflexivity. Qed.

(** C8: the code at the failing input.  The quotient computed for the ratio is
    infinite, and the function returns 1.0 in its place, not 0.0: the column
    is clipped before the closing loop looks for infinities. *)
Theorem engineer_features_infinite_ratio_kept :
  let r := Demo.zero_total_pair in
  NpFloat.div (NpFloat.fillna 0 (NpFloat.sub (Linked.invoice_total r) (Linked.po_total r)))
              (Linked.po_total r) = PosInf
  /\ map Feat.amount_delta_pct (fst (engineer_features [r] Demo.g0)) = [Fin 1]
  /\ replace_inf_nan PosInf = Fin 0.
Proof. vm_compute. repeat split. Qed.

(** *** The scorer *)

Lemma feature_frame_row_origin `{NpRandom} inv_agg po fr :
  In fr (feature_frame inv_agg po) ->
  exists b b1 b2 b3 j,
    In j (merge_left inv_agg po) /\ fr = engineer_row b1 b2 b3 (break_link b j).
Proof.
  unfold feature_frame. rewrite engineer_features_eq. intros Hin.
  apply engineer_rows_In in Hin as (b1 & b2 & b3 & r & Hr & ->).
  rewrite build_links_eq in Hr.
  apply list_elem_of_In, list_elem_of_lookup in Hr as [k Hk].
  apply lookup_zip_with_Some in Hk as (b & j & -> & _ & Hj).
  exists b, b1, b2, b3, j. split; [|reflexivity].
  apply list_elem_of_In. eapply list_elem_of_lookup_2; eauto.
Qed.

Section ScorerFacts.

Context {R : NpRandom} {E : Environment}.

Lemma score_invoice_frame inv_agg po g linked g1 feats g2 :
  build_links inv_agg po g = (linked, g1) ->
  engineer_features linked g1 = (feats, g2) ->
  feats = feature_frame inv_agg po.
Proof.
  intros Hbl Hef. unfold feature_frame.
  change (build_links inv_agg po (rng_seed 42)) with (build_links inv_agg po g).
  rewrite Hbl. cbn [fst].
  change (engineer_features linked (rng_seed 42)) with (engineer_features linked g1).
  now rewrite Hef.
Qed.

Lemma score_invoice_found_inv d m i po g st p f :
  fst (score_invoice d m i po g) = Ok (Found st p f) ->
  exists clf inv_agg pos row rest X,
    models m = Some clf
    /\ datasets d = Some (inv_agg, pos)
    /\ List.filter (is_pair i po) (feature_frame inv_agg pos) = row :: rest
    /\ feature_values (feature_cols_of clf (feature_frame inv_agg pos)) row = Ok X
    /\ p = predict_proba clf X
    /\ f = facts_of_row row
    /\ st = (if Qle_bool (1 # 2) p then "mismatch" else "match").
Proof.
  unfold score_invoice.
  destruct (models m) as [clf|] eqn:Hm; [|discriminate].
  destruct (datasets d) as [[inv_agg pos]|] eqn:Hd; [|discriminate].
  unfold py_bind, py_lift.
  destruct (build_links inv_agg pos g) as [linked g1] eqn:Hbl.
  destruct (engineer_features linked g1) as [feats g2] eqn:Hef.
  pose proof (score_invoice_frame _ _ _ _ _ _ _ Hbl Hef) as ->.
  destruct (List.filter (is_pair i po) (feature_frame inv_agg pos))
    as [|row rest] eqn:Hsel; [discriminate|].
  fold (feature_cols_of clf (feature_frame inv_agg pos)).
  destruct (feature_values (feature_cols_of clf (feature_frame inv_agg pos)) row)
    as [X|e] eqn:HX; [|discriminate].
  cbn. intros [= <- <- <-].
  exists clf, inv_agg, pos, row, rest, X. repeat split; assumption || reflexivity.
Qed.

Lemma score_invoice_not_found_inv d m i po g msg :
  fst (score_invoice d m i po g) = Ok (NotFound msg) ->
  exists inv_agg pos,
    datasets d = Some (inv_agg, pos)
    /\ List.filter (is_pair i po) (feature_frame inv_agg pos) = [].
Proof.
  unfold score_invoice.
  destruct (models m) as [clf|] eqn:Hm; [|discriminate].
  destruct (datasets d) as [[inv_agg pos]|] eqn:Hd; [|discriminate].
  unfold py_bind, py_lift.
  destruct (build_links inv_agg pos g) as [linked g1] eqn:Hbl.
  destruct (engineer_features linked g1) as [feats g2] eqn:Hef.
  pose proof (score_invoice_frame _ _ _ _ _ _ _ Hbl Hef) as ->.
  destruct (List.filter (is_pair i po) (feature_frame inv_agg pos))
    as [|row rest] eqn:Hsel.
  - intros _. exists inv_agg, pos. auto.
  - destruct (feature_values _ row); discriminate.
Qed.

Lemma feature_frame_row inv_agg po fr :
  In fr (feature_frame inv_agg po) ->
  exists b1 b2 b3 r, fr = engineer_row b1 b2 b3 r.
Proof.
  unfold feature_frame. rewrite engineer_features_eq. intros Hin.
  apply engineer_rows_In in Hin as (b1 & b2 & b3 & r & _ & ->). eauto.
Qed.

Lemma facts_of_row_lookup (r : FeatureRow) :
  facts_of_row r !! "amount_delta" = Some (PFloat (Feat.amount_delta_abs r))
  /\ facts_of_row r !! "vendor_match" = Some (PBool (negb (Feat.vendor_match r =? 0)%Z))
  /\ facts_of_row r !! "po_missing" = Some (PBool (negb (Feat.po_missing r =? 0)%Z))
  /\ facts_of_row r !! "has_grn" = Some (PBool (negb (Feat.has_grn r =? 0)%Z))
  /\ facts_of_row r !! "days_delta" = Some (PFloat (Feat.days_delta r)).
Proof. unfold facts_of_row. repeat split; by simplify_map_eq. Qed.

(** The row [score_invoice] selects is the feature row of an invoice joined
    with a purchase order of equal keys, hit by neither the link mask nor the
    additional missing-PO mask. *)
Lemma score_invoice_found_origin d m i po g st p f :
  fst (score_invoice d m i po g) = Ok (Found st p f) ->
  exists inv_agg pos a q b1 b3,
    datasets d = Some (inv_agg, pos)
    /\ In a inv_agg /\ In q pos
    /\ Inv.invoice_id a = i /\ PO.po_number q = po
    /\ keys_equal a q
    /\ head (List.filter (is_pair i po) (feature_frame inv_agg pos))
       = Some (engineer_row b1 false b3 (joined_row a q))
    /\ f = facts_of_row (engineer_row b1 false b3 (joined_row a q)).
Proof.
  intros Hfound.
  apply score_invoice_found_inv in Hfound
    as (clf & inv_agg & pos & row & rest & X & _ & Hd & Hsel & _ & _ & -> & _).
  assert (Hrow : In row (List.filter (is_pair i po) (feature_frame inv_agg pos)))
    by (rewrite Hsel; left; reflexivity).
  apply filter_In in Hrow as [Hin Hpair].
  apply feature_frame_row_origin in Hin as (b & b1 & b2 & b3 & j & Hj & ->).
  unfold is_pair in Hpair. apply andb_true_iff in Hpair as [Hid Hpo].
  apply bool_decide_eq_true in Hid, Hpo.
  cbn [engineer_row Feat.linked Linked.invoice_id Linked.po_number] in Hid, Hpo.
  destruct b2; [discriminate|]. destruct b; [discriminate|].
  cbn [break_link] in Hid, Hpo, Hsel. cbn [break_link].
  apply merge_left_spec in Hj as (a & Ha & [[-> _] | (q & Hq & Hkeys & ->)]);
    [discriminate|].
  cbn in Hid, Hpo. injection Hpo as Hpo.
  exists inv_agg, pos, a, q, b1, b3. repeat (split; [assumption|]).
  split; [now rewrite Hsel | reflexivity].
Qed.

(** C9: whenever [score_invoice] finds the pair, the selected feature row
    joins an invoice of the data with a purchase order of equal keys, its
    signed column [amount_delta] is the invoice total minus the purchase-order
    total (0 when a total is missing), and the entry [amount_delta] of the
    facts is the column [amount_delta_abs], the absolute value of that
    difference: never negative, and the amount by which the invoice falls
    short when the invoice total is below the purchase-order total. *)
Theorem score_invoice_amount_delta_is_absolute d m i po g st p f :
  fst (score_invoice d m i po g) = Ok (Found st p f) ->
  exists inv_agg pos a q row delta,
    datasets d = Some (inv_agg, pos)
    /\ In a inv_agg /\ In q pos
    /\ Inv.invoice_id a = i /\ PO.po_number q = po /\ keys_equal a q
    /\ head (List.filter (is_pair i po) (feature_frame inv_agg pos)) = Some row
    /\ Feat.amount_delta row = Fin delta
    /\ Feat.amount_delta_abs row = Fin (Qabs delta)
    /\ (forall x y, Inv.invoice_total a = Fin x -> PO.po_total q = Fin y ->
          delta = (x - y)%Q)
    /\ (Inv.invoice_total a = NaN \/ PO.po_total q = NaN -> delta = 0%Q)
    /\ f !! "amount_delta" = Some (PFloat (Feat.amount_delta_abs row))
    /\ f !! "amount_delta" = Some (PFloat (Fin (Qabs delta)))
    /\ (0 <= Qabs delta)%Q
    /\ (forall x y, Inv.invoice_total a = Fin x -> PO.po_total q = Fin y ->
          (x < y)%Q -> (delta < 0)%Q /\ (Qabs delta == y - x)%Q).
Proof.
  intros Hfound.
  apply score_invoice_found_origin in Hfound
    as (inv_agg & pos & a & q & b1 & b3 & Hd & Ha & Hq & Hi & Hpo & Hkeys & Hsel & ->).
  set (row := engineer_row b1 false b3 (joined_row a q)) in *.
  destruct (engineer_row_amount_delta_abs b1 false b3 (joined_row a q))
    as (delta & Hdelta & Habs).
  fold row in Hdelta, Habs.
  assert (Hfin : forall x y, Inv.invoice_total a = Fin x -> PO.po_total q = Fin y ->
                             delta = (x - y)%Q).
  { intros x y Hx Hy. unfold row in Hdelta.
    cbn [engineer_row Feat.amount_delta joined_row Linked.invoice_total Linked.po_total]
      in Hdelta.
    rewrite Hx, Hy in Hdelta. cbn in Hdelta. now injection Hdelta as <-. }
  exists inv_agg, pos, a, q, row, delta.
  repeat (split; [assumption|]).
  split.
  { intros Hnan. unfold row in Hdelta.
    cbn [engineer_row Feat.amount_delta joined_row Linked.invoice_total Linked.po_total]
      in Hdelta.
    destruct Hnan as [Hn | Hn]; rewrite Hn in Hdelta.
    - cbn in Hdelta. now injection Hdelta as <-.
    - destruct (Inv.invoice_total a); cbn in Hdelta; now injection Hdelta as <-. }
  split; [apply facts_of_row_lookup|].
  split; [rewrite <- Habs; apply facts_of_row_lookup|].
  split; [apply Qabs_nonneg|].
  intros x y Hx Hy Hlt. rewrite (Hfin x y Hx Hy).
  assert (Hneg : (x - y < 0)%Q) by lra.
  split; [exact Hneg|].
  rewrite Qabs_neg by lra. ring.
Qed.

(** The result of [score_invoice] does not depend on the state the generator
    is in when the call starts, so two calls in the same environment and on
    the same pair return the same result; and the masks of the two stages are
    functions of the number of rows alone, each drawn from the stream of
    seed 42. *)
Lemma score_invoice_any_generator d m i po :
  (forall g1 g2, fst (score_invoice d m i po g1) = fst (score_invoice d m i po g2))
  /\ (forall inv_agg pos g,
        fst (build_links inv_agg pos g)
        = zip_with break_link (link_mask (length (merge_left inv_agg pos)))
            (merge_left inv_agg pos))
  /\ (forall df g,
        fst (engineer_features df g)
        = engineer_rows (grn_mask (length df)) (additional_mask (length df))
            (currency_mask (length df)) df).
Proof.
  split; [|split].
  - intros g1 g2. unfold score_invoice.
    destruct (models m) as [clf|]; [|reflexivity].
    destruct (datasets d) as [[inv_agg pos]|]; [|reflexivity].
    unfold py_bind, py_lift.
    change (build_links inv_agg pos g2) with (build_links inv_agg pos g1).
    destruct (build_links inv_agg pos g1) as [linked g'].
    destruct (engineer_features linked g') as [feats g''].
    destruct (List.filter (is_pair i po) feats) as [|row rest]; [reflexivity|].
    destruct (feature_values _ row); reflexivity.
  - intros. apply build_links_eq.
  - intros. apply engineer_features_eq.
Qed.

End ScorerFacts.

Section ClockFacts.

Context {R : NpRandom} {D : DateLibrary}.

Lemma normalize_types_inv_agg_ext (parse1 parse2 : option string -> timestamp)
    (lines : list RawInvoiceLine) :
  (forall l, In l lines -> parse1 (Line.invoice_date l) = parse2 (Line.invoice_date l)) ->
  normalize_types_inv_agg parse1 lines = normalize_types_inv_agg parse2 lines.
Proof.
  intros Hagree. unfold normalize_types_inv_agg.
  apply map_ext. intros [[[i v] n] c]. f_equal. f_equal.
  apply map_ext_in. intros l Hl. apply Hagree.
  unfold group_lines in Hl. apply filter_In in Hl. tauto.
Qed.

Lemma normalize_types_agree (today1 today2 : Civil.t) (f : Files) :
  dates_agree today1 today2 f ->
  normalize_types today1 (invoices_csv f) (po_grn_csv f)
  = normalize_types today2 (invoices_csv f) (po_grn_csv f).
Proof.
  intros [Hinv Hpo]. unfold normalize_types. f_equal.
  - now apply normalize_types_inv_agg_ext.
  - apply map_ext_in. intros r Hr. destruct (Hpo r Hr) as [H1 H2].
    unfold po_record. now rewrite H1, H2.
Qed.

(** C10: [score_invoice] returns the same result in two calls on the same
    files, model and pair whenever every date cell of the files reads the
    same on the days of the two calls, whatever state the generator is in
    when either call starts; in particular in two calls on the same day.  The
    masks of the two stages are functions of the number of rows alone, each
    drawn from the stream of seed 42.  A date cell that gives year, month and
    day reads the same on every day; a cell that leaves one out is completed
    from the current date. *)
Theorem score_invoice_deterministic (E0 : Environment) (files : string -> option Files)
    (today1 today2 : Civil.t) d m i po :
  ((forall f, files d = Some f -> dates_agree today1 today2 f) ->
   forall g1 g2,
     fst (score_invoice (E := environment_at E0 files today1) d m i po g1)
     = fst (score_invoice (E := environment_at E0 files today2) d m i po g2))
  /\ (forall g1 g2,
        fst (score_invoice (E := environment_at E0 files today1) d m i po g1)
        = fst (score_invoice (E := environment_at E0 files today1) d m i po g2))
  /\ (forall inv_agg pos g,
        fst (build_links inv_agg pos g)
        = zip_with break_link (link_mask (length (merge_left inv_agg pos)))
            (merge_left inv_agg pos))
  /\ (forall df g,
        fst (engineer_features df g)
        = engineer_rows (grn_mask (length df)) (additional_mask (length df))
            (currency_mask (length df)) df)
  /\ (forall res y mo dy,
        Read.year res = Some y -> Read.month res = Some mo -> Read.day res = Some dy ->
        build_naive res today1 = build_naive res today2)
  /\ (forall res,
        Read.day res = None -> Read.weekday res = None ->
        Read.year res <> None -> Read.month res <> None ->
        forall t,
          build_naive res today1 = Some t ->
          exists y mo,
            Read.year res = Some y /\ Read.month res = Some mo
            /\ t = days_from_civil y mo (Z.min (Civil.day today1) (days_in_month y mo))
                   * ns_per_day + Read.time res).
Proof.
  split; [|split; [|split; [|split; [|split]]]].
  - intros Hdates g1 g2.
    rewrite (proj1 (score_invoice_any_generator
                      (E := environment_at E0 files today1) d m i po) g1 g2).
    unfold score_invoice. cbn [models datasets environment_at].
    destruct (files d) as [f|] eqn:Hf; [|reflexivity].
    now rewrite (normalize_types_agree today1 today2 f (Hdates f eq_refl)).
  - apply (score_invoice_any_generator (E := environment_at E0 files today1)).
  - intros. apply build_links_eq.
  - intros. apply engineer_features_eq.
  - intros res y mo dy Hy Hm Hd. unfold build_naive. now rewrite Hy, Hm, Hd.
  - intros res Hd Hw Hy Hm t. unfold build_naive. rewrite Hd, Hw.
    destruct (Read.year res) as [y|]; [|contradiction].
    destruct (Read.month res) as [mo|]; [|contradiction].
    destruct (_ && _); [|discriminate].
    intros [= <-]. exists y, mo. repeat split; reflexivity.
Qed.

End ClockFacts.

(** *** The decision policy *)

Lemma has_material_issues_typed (f : gmap string pyval) (pm vm hg : bool) (a : Q) :
  f !! "po_missing" = Some (PBool pm) ->
  f !! "vendor_match" = Some (PBool vm) ->
  f !! "amount_delta" = Some (PFloat (Fin a)) ->
  f !! "has_grn" = Some (PBool hg) ->
  has_material_issues f = true <-> material_issue pm vm hg a.
Proof.
  intros Hpm Hvm Ha Hhg. unfold has_material_issues, dict_get, material_issue.
  rewrite Hpm, Hvm, Ha, Hhg. cbn [truthy to_float NpFloat.gt].
  rewrite !orb_true_iff, !negb_true_iff, Qlt_bool_iff. tauto.
Qed.

(** The four rules, on a dictionary that holds the four facts. *)
Lemma decide_status_rules (f : gmap string pyval) (pm vm hg : bool) (a p : Q) :
  f !! "po_missing" = Some (PBool pm) ->
  f !! "vendor_match" = Some (PBool vm) ->
  f !! "amount_delta" = Some (PFloat (Fin a)) ->
  f !! "has_grn" = Some (PBool hg) ->
  (material_issue pm vm hg a -> decide_status f p = ("mismatch", p))
  /\ (~ material_issue pm vm hg a -> (8 # 10 <= p)%Q ->
      decide_status f p = ("mismatch", p))
  /\ (~ material_issue pm vm hg a -> (p < 8 # 10)%Q -> (6 # 10 <= p)%Q ->
      decide_status f p = ("partial", p))
  /\ (~ material_issue pm vm hg a -> (p < 6 # 10)%Q ->
      decide_status f p = ("match", (1 - p)%Q)).
Proof.
  intros Hpm Hvm Ha Hhg.
  pose proof (has_material_issues_typed f pm vm hg a Hpm Hvm Ha Hhg) as Hiff.
  unfold decide_status.
  destruct (has_material_issues f) eqn:Hm.
  - assert (Hmat : material_issue pm vm hg a) by (apply Hiff; reflexivity).
    repeat split; intros; try reflexivity; contradiction.
  - assert (Hno : ~ material_issue pm vm hg a)
      by (intros Hmat; apply Hiff in Hmat; discriminate).
    split; [intros; contradiction|].
    split; [|split].
    + intros _ Hp. apply Qle_bool_iff in Hp. now rewrite Hp.
    + intros _ Hlt Hp.
      destruct (Qle_bool (8 # 10) p) eqn:H8.
      * apply Qle_bool_iff in H8. exfalso. exact (Qlt_not_le _ _ Hlt H8).
      * apply Qle_bool_iff in Hp. now rewrite Hp.
    + intros _ Hlt.
      destruct (Qle_bool (8 # 10) p) eqn:H8.
      * apply Qle_bool_iff in H8. exfalso. lra.
      * destruct (Qle_bool (6 # 10) p) eqn:H6; [|reflexivity].
        apply Qle_bool_iff in H6. exfalso. exact (Qlt_not_le _ _ Hlt H6).
Qed.

Lemma decide_status_po_missing (f : gmap string pyval) (p : Q) :
  f !! "po_missing" = Some (PBool true) -> decide_status f p = ("mismatch", p).
Proof.
  intros Hpm. unfold decide_status, has_material_issues, dict_get.
  rewrite Hpm. reflexivity.
Qed.

Lemma decide_status_in_statuses (f : gmap string pyval) (p : Q) :
  In (fst (decide_status f p)) STATUSES.
Proof.
  unfold decide_status, STATUSES.
  destruct (has_material_issues f); [cbn; tauto|].
  destruct (Qle_bool (8 # 10) p); [cbn; tauto|].
  destruct (Qle_bool (6 # 10) p); cbn; tauto.
Qed.

Lemma decide_status_confidence_range (f : gmap string pyval) (p : Q) :
  (0 <= p <= 1)%Q -> (0 <= snd (decide_status f p) <= 1)%Q.
Proof.
  intros Hp. unfold decide_status.
  destruct (has_material_issues f); [exact Hp|].
  destruct (Qle_bool (8 # 10) p); [exact Hp|].
  destruct (Qle_bool (6 # 10) p); [exact Hp|].
  cbn [snd]. lra.
Qed.

Section MatcherFacts.

Context {R : NpRandom} {E : Environment}.

Lemma call_matcher_found d m i po g st p f :
  fst (score_invoice d m i po g) = Ok (Found st p f) ->
  fst (call_matcher i po d m g)
  = Ok {| status := fst (decide_status f p);
          confidence := snd (decide_status f p);
          facts := f;
          explanation :=
            build_explanation f (fst (decide_status f p)) (snd (decide_status f p)) |}.
Proof.
  unfold call_matcher, py_bind.
  destruct (score_invoice d m i po g) as [res g']. cbn [fst]. intros ->.
  destruct (decide_status f p). reflexivity.
Qed.

Lemma call_matcher_not_found d m i po g msg :
  fst (score_invoice d m i po g) = Ok (NotFound msg) ->
  fst (call_matcher i po d m g)
  = Ok {| status := "partial"; confidence := 5 # 10; facts := ∅;
          explanation := "No features available for this pair." |}.
Proof.
  unfold call_matcher, py_bind.
  destruct (score_invoice d m i po g) as [res g']. cbn [fst]. intros ->.
  reflexivity.
Qed.

Lemma call_matcher_inv d m i po g mr :
  fst (call_matcher i po d m g) = Ok mr ->
  (exists st p f, fst (score_invoice d m i po g) = Ok (Found st p f))
  \/ (exists msg, fst (score_invoice d m i po g) = Ok (NotFound msg)).
Proof.
  unfold call_matcher, py_bind.
  destruct (score_invoice d m i po g) as [[[msg|st p f]|e] g']; cbn [fst].
  - intros _. right. eauto.
  - intros _. left. eauto.
  - discriminate.
Qed.

(** The facts of a found pair hold the five canonical keys, with a boolean
    for each flag and a finite number for the amount. *)
Lemma score_invoice_facts_typed d m i po g st p f :
  fst (score_invoice d m i po g) = Ok (Found st p f) ->
  exists row a,
    f = facts_of_row row
    /\ Feat.amount_delta_abs row = Fin a
    /\ f !! "po_missing" = Some (PBool (negb (Feat.po_missing row =? 0)%Z))
    /\ f !! "vendor_match" = Some (PBool (negb (Feat.vendor_match row =? 0)%Z))
    /\ f !! "amount_delta" = Some (PFloat (Fin a))
    /\ f !! "has_grn" = Some (PBool (negb (Feat.has_grn row =? 0)%Z))
    /\ f !! "days_delta" = Some (PFloat (Feat.days_delta row)).
Proof.
  intros Hfound.
  apply score_invoice_found_inv in Hfound
    as (clf & inv_agg & pos & row & rest & X & _ & _ & Hsel & _ & _ & -> & _).
  assert (Hin : In row (feature_frame inv_agg pos)).
  { assert (Hrow : In row (List.filter (is_pair i po) (feature_frame inv_agg pos)))
      by (rewrite Hsel; left; reflexivity).
    apply filter_In in Hrow. tauto. }
  apply feature_frame_row in Hin as (b1 & b2 & b3 & r & ->).
  destruct (engineer_row_amount_delta_abs b1 b2 b3 r) as (delta & _ & Habs).
  exists (engineer_row b1 b2 b3 r), (Qabs delta).
  destruct (facts_of_row_lookup (engineer_row b1 b2 b3 r)) as (Ha & Hvm & Hpm & Hhg & Hdd).
  rewrite Habs in Ha.
  repeat split; assumption.
Qed.

End MatcherFacts.

Section MatcherClaims.

Context {R : NpRandom} {E : Environment}.

(** C2: on a found pair, [call_matcher] returns the status and the
    confidence of the ordered rule list, read on the facts of the scorer
    (booleans [po_missing], [vendor_match], [has_grn] and the absolute amount
    difference) and the model's probability [p]: a material issue gives
    mismatch with confidence [p]; otherwise [p >= 0.8] gives mismatch with
    [p], otherwise [p >= 0.6] gives partial with [p], otherwise match with
    [1 - p].  Whatever the other facts, [po_missing] true with [p = 0.1]
    gives mismatch. *)
Theorem call_matcher_decision_policy d m i po g st p f :
  fst (score_invoice d m i po g) = Ok (Found st p f) ->
  (exists mr row pm vm hg a,
     fst (call_matcher i po d m g) = Ok mr
     /\ facts mr = f
     /\ (status mr, confidence mr) = decide_status f p
     /\ f = facts_of_row row
     /\ Feat.amount_delta_abs row = Fin a
     /\ f !! "po_missing" = Some (PBool pm)
     /\ f !! "vendor_match" = Some (PBool vm)
     /\ f !! "amount_delta" = Some (PFloat (Fin a))
     /\ f !! "has_grn" = Some (PBool hg)
     /\ (material_issue pm vm hg a -> status mr = "mismatch" /\ confidence mr = p)
     /\ (~ material_issue pm vm hg a -> (8 # 10 <= p)%Q ->
         status mr = "mismatch" /\ confidence mr = p)
     /\ (~ material_issue pm vm hg a -> (p < 8 # 10)%Q -> (6 # 10 <= p)%Q ->
         status mr = "partial" /\ confidence mr = p)
     /\ (~ material_issue pm vm hg a -> (p < 6 # 10)%Q ->
         status mr = "match" /\ confidence mr = (1 - p)%Q))
  /\ (forall f' : gmap string pyval,
        f' !! "po_missing" = Some (PBool true) ->
        decide_status f' (1 # 10) = ("mismatch", 1 # 10)).
Proof.
  intros Hfound. split; [|intros f' Hpm; now apply decide_status_po_missing].
  destruct (score_invoice_facts_typed _ _ _ _ _ _ _ _ Hfound)
    as (row & a & Hrow & Habs & Hpm & Hvm & Ha & Hhg & _).
  destruct (decide_status_rules f _ _ _ a p Hpm Hvm Ha Hhg) as (R1 & R2 & R3 & R4).
  eexists _, row, _, _, _, a.
  split; [exact (call_matcher_found _ _ _ _ _ _ _ _ Hfound)|].
  cbn [facts status confidence].
  split; [reflexivity|]. split; [now destruct (decide_status f p)|].
  split; [exact Hrow|]. split; [assumption|]. split; [exact Hpm|]. split; [exact Hvm|].
  split; [exact Ha|]. split; [exact Hhg|].
  split; [|split; [|split]].
  - intros H. rewrite (R1 H). auto.
  - intros H1 H2. rewrite (R2 H1 H2). auto.
  - intros H1 H2 H3. rewrite (R3 H1 H2 H3). auto.
  - intros H1 H2. rewrite (R4 H1 H2). auto.
Qed.

(** C3, amended: when the model's probabilities lie in [0, 1], every
    [MatchResult] that [call_matcher] returns has one of the three statuses
    and a confidence in [0, 1]; for a found pair its facts are the five
    canonical keys and nothing else; for a pair without feature row the
    status is partial, the confidence 0.5 and the facts dictionary is empty
    (its readers supply the defaults). *)
Theorem call_matcher_result_shape d m i po g mr :
  (forall path clf X, models path = Some clf -> (0 <= predict_proba clf X <= 1)%Q) ->
  fst (call_matcher i po d m g) = Ok mr ->
  In (status mr) STATUSES
  /\ (0 <= confidence mr <= 1)%Q
  /\ ((exists st p f,
         fst (score_invoice d m i po g) = Ok (Found st p f)
         /\ exposes_canonical_keys (facts mr)
         /\ dom (facts mr) = list_to_set CANONICAL_KEYS)
      \/ (exists msg,
            fst (score_invoice d m i po g) = Ok (NotFound msg)
            /\ status mr = "partial" /\ confidence mr = 5 # 10
            /\ facts mr = ∅)).
Proof.
  intros Hproba Hcall.
  destruct (call_matcher_inv _ _ _ _ _ _ Hcall) as [(st & p & f & Hs) | (msg & Hs)].
  - rewrite (call_matcher_found _ _ _ _ _ _ _ _ Hs) in Hcall.
    injection Hcall as <-. cbn [status confidence facts].
    split; [apply decide_status_in_statuses|].
    assert (Hp : (0 <= p <= 1)%Q).
    { pose proof Hs as Hs'.
      apply score_invoice_found_inv in Hs'
        as (clf & _ & _ & _ & _ & X & Hm & _ & _ & _ & -> & _).
      eapply Hproba; eauto. }
    split; [now apply decide_status_confidence_range|].
    left. exists st, p, f. split; [assumption|].
    destruct (score_invoice_facts_typed _ _ _ _ _ _ _ _ Hs)
      as (row & a & -> & _ & Hpm & Hvm & Ha & Hhg & Hdd).
    split.
    + intros k Hk. cbn in Hk.
      destruct Hk as [<- | [<- | [<- | [<- | [<- | []]]]]]; eauto.
    + unfold facts_of_row. rewrite !dom_insert_L, dom_empty_L.
      cbn [CANONICAL_KEYS list_to_set foldr]. set_solver.
  - rewrite (call_matcher_not_found _ _ _ _ _ _ Hs) in Hcall.
    injection Hcall as <-. cbn [status confidence facts].
    split; [cbn; tauto|]. split; [split; discriminate|].
    right. exists msg. auto.
Qed.

End MatcherClaims.

(** C3, as stated, fails: for a pair that has no feature row, the result of
    [call_matcher] has an empty facts dictionary, which exposes none of the
    canonical keys. *)
Lemma call_matcher_not_found_has_no_facts :
  ~ (forall mr,
       fst (call_matcher (E := Demo.environment) "INV9999" "PO9999" "data"
              "reports/matcher_model.pkl" Demo.g0) = Ok mr ->
       exposes_canonical_keys (facts mr)).
Proof.
  intros Hclaim.
  destruct (Hclaim {| status := "partial"; confidence := 5 # 10; facts := ∅;
                      explanation := "No features available for this pair." |})
    with (k := "po_missing") as [v Hv].
  - vm_compute. reflexivity.
  - cbn. tauto.
  - cbn in Hv. rewrite lookup_empty in Hv. discriminate.
Qed.

(** *** The guardrail *)

Section GuardrailFacts.

Context {R : NpRandom} {E : Environment}.

Lemma py_assert_cases (c : bool) (msg : string) (g : rng_state) :
  py_assert c msg g = (Ok tt, g) \/ py_assert c msg g = (Raise (AssertionError msg), g).
Proof. destruct c; [left | right]; reflexivity. Qed.

(** A name outside the table is refused before anything else happens. *)
Lemma guardrail_unknown_tool tools name args g :
  tool_lookup tools name = None ->
  guardrail_tool_call_in tools name args g
  = (Raise (AssertionError
              ("Tool '" ++ name ++ "' not permitted. Allowed: " ++ keys_repr tools)), g).
Proof. intros H. unfold guardrail_tool_call_in. now rewrite H. Qed.

Lemma allowed_tools_lookup name :
  tool_lookup ALLOWED_TOOLS name
  = if bool_decide ("matcher" = name) then Some matcher_tool
    else if bool_decide ("email_drafter" = name) then Some email_drafter_tool
    else None.
Proof. reflexivity. Qed.

(** The matcher called with two arguments: the arity assertion fails, for
    every function the table binds to the name. *)
Lemma guardrail_matcher_two_args tools f a b g :
  tool_lookup tools "matcher" = Some f ->
  guardrail_tool_call_in tools "matcher" [a; b] g
  = (Raise (AssertionError
              "Matcher requires: invoice_id, po_number, data_dir, model_path"), g).
Proof. intros H. unfold guardrail_tool_call_in. now rewrite H. Qed.

(** The outcome of a call the table knows: a failed assertion of the
    guardrail itself, or the outcome of the tool, an exception being
    wrapped. *)
Lemma guardrail_outcome tools name f args g :
  tool_lookup tools name = Some f ->
  (exists msg, guardrail_tool_call_in tools name args g = (Raise (AssertionError msg), g))
  \/ guardrail_tool_call_in tools name args g
     = match f args g with
       | (Ok v, g') => (Ok v, g')
       | (Raise e, g') =>
           (Raise (RuntimeError
                     ("Tool '" ++ name ++ "' execution failed: " ++ exn_str e)), g')
       end.
Proof.
  intros H. unfold guardrail_tool_call_in. rewrite H.
  unfold py_bind, py_try, py_raise, py_ret.
  destruct (bool_decide (name = "matcher")).
  - destruct (py_assert_cases (4 <=? length args)%nat
                "Matcher requires: invoice_id, po_number, data_dir, model_path" g)
      as [-> | ->]; [|left; eauto].
    destruct (py_assert_cases (forallb is_str (firstn 4 args))
                "All matcher args must be strings" g) as [-> | ->]; [|left; eauto].
    right. destruct (f args g) as [[v|e] g']; reflexivity.
  - destruct (bool_decide (name = "email_drafter")).
    + destruct (py_assert_cases (5 <=? length args)%nat
                  "Email drafter requires: vendor_name, invoice_id, po_number, facts, status"
                  g) as [-> | ->]; [|left; eauto].
      destruct (py_assert_cases (is_dict (nth 3 args ANone))
                  "Facts must be a dictionary" g) as [-> | ->]; [|left; eauto].
      destruct (py_assert_cases (is_status (nth 4 args ANone))
                  ("Invalid status: " ++ arg_str (nth 4 args ANone)) g)
        as [-> | ->]; [|left; eauto].
      right. destruct (f args g) as [[v|e] g']; reflexivity.
    + right. destruct (f args g) as [[v|e] g']; reflexivity.
Qed.

(** The matcher called with four strings runs [call_matcher]. *)
Lemma guardrail_matcher_four_strings a b c d g :
  guardrail_tool_call "matcher" [AStr a; AStr b; AStr c; AStr d] g
  = match call_matcher a b c d g with
    | (Ok mr, g') => (Ok (OMatch mr), g')
    | (Raise e, g') =>
        (Raise (RuntimeError ("Tool 'matcher' execution failed: " ++ exn_str e)), g')
    end.
Proof.
  unfold guardrail_tool_call, guardrail_tool_call_in.
  rewrite allowed_tools_lookup.
  rewrite (bool_decide_eq_true_2 ("matcher" = "matcher")) by reflexivity.
  cbn [length Nat.leb firstn forallb is_str andb py_assert].
  unfold py_bind, py_try, py_raise, py_ret, matcher_tool, py_bind, py_ret.
  destruct (call_matcher a b c d g) as [[mr|e] g']; reflexivity.
Qed.

(** C7: the table holds the two names [matcher] and [email_drafter], and a
    call under any other name is refused with an assertion error; the matcher
    called with two positional arguments raises the arity assertion, whatever
    function the table binds to the name and without a change of state, so
    before the tool is entered; and when the dispatched tool raises, the call
    raises the error "Tool '<name>' execution failed: <message>", unless an
    assertion of the guardrail refused the call before. *)
Theorem guardrail_tool_call_gate :
  map fst ALLOWED_TOOLS = ["matcher"; "email_drafter"]
  /\ (forall name args g,
        name <> "matcher" -> name <> "email_drafter" ->
        guardrail_tool_call name args g
        = (Raise (AssertionError
                    ("Tool '" ++ name
                     ++ "' not permitted. Allowed: ['matcher', 'email_drafter']")), g))
  /\ (forall tools f a b g,
        tool_lookup tools "matcher" = Some f ->
        guardrail_tool_call_in tools "matcher" [a; b] g
        = (Raise (AssertionError
                    "Matcher requires: invoice_id, po_number, data_dir, model_path"), g))
  /\ (forall a b g,
        guardrail_tool_call "matcher" [a; b] g
        = (Raise (AssertionError
                    "Matcher requires: invoice_id, po_number, data_dir, model_path"), g))
  /\ (forall tools name f args g e g',
        tool_lookup tools name = Some f ->
        f args g = (Raise e, g') ->
        (exists msg,
           guardrail_tool_call_in tools name args g = (Raise (AssertionError msg), g))
        \/ guardrail_tool_call_in tools name args g
           = (Raise (RuntimeError
                       ("Tool '" ++ name ++ "' execution failed: " ++ exn_str e)), g'))
  /\ (forall a b c d g e g',
        call_matcher a b c d g = (Raise e, g') ->
        guardrail_tool_call "matcher" [AStr a; AStr b; AStr c; AStr d] g
        = (Raise (RuntimeError ("Tool 'matcher' execution failed: " ++ exn_str e)), g')).
Proof.
  split; [reflexivity|]. split; [|split; [|split; [|split]]].
  - intros name args g Hm He. unfold guardrail_tool_call.
    rewrite guardrail_unknown_tool; [reflexivity|].
    rewrite allowed_tools_lookup.
    rewrite !bool_decide_eq_false_2 by congruence. reflexivity.
  - intros. eapply guardrail_matcher_two_args; eauto.
  - intros. eapply guardrail_matcher_two_args. reflexivity.
  - intros tools name f args g e g' Hf Hraise.
    destruct (guardrail_outcome tools name f args g Hf) as [Hassert | Hrun];
      [left; assumption|].
    right. rewrite Hrun, Hraise. reflexivity.
  - intros a b c d g e g' Hraise.
    rewrite guardrail_matcher_four_strings, Hraise. reflexivity.
Qed.

End GuardrailFacts.

(** *** The workflow *)

Lemma filter_length_pos {A} (test : A -> bool) (xs : list A) :
  (0 < length (List.filter test xs))%nat <-> Exists (fun x => test x = true) xs.
Proof.
  induction xs as [|x xs IH]; cbn.
  - split; [lia | intros H; inversion H].
  - destruct (test x) eqn:Hx; cbn.
    + split; [intros _; now constructor | lia].
    + rewrite IH. split; [now constructor 2|].
      intros H. inversion H; subst; [congruence | assumption].
Qed.

Lemma task_statuses_count (name : string) (ts : list Task.t) (statuses : list string) :
  task_statuses ts = Ok statuses ->
  count_status name statuses = count_tasks (has_status name) ts.
Proof.
  revert statuses. induction ts as [|t ts IH]; intros statuses; cbn.
  - intros [= <-]. reflexivity.
  - unfold has_status at 1. destruct (Task.match_result t) as [mr|]; [|discriminate].
    destruct (task_statuses ts) as [ss|e]; [|discriminate].
    intros [= <-]. specialize (IH ss eq_refl).
    unfold count_status, count_tasks in *. cbn.
    destruct (bool_decide (status mr = name)); cbn; now rewrite IH.
Qed.

Lemma task_statuses_total (ts : list Task.t) :
  Forall (fun t => exists mr, Task.match_result t = Some mr) ts ->
  exists statuses, task_statuses ts = Ok statuses.
Proof.
  induction 1 as [|t ts [mr Hmr] _ [ss IH]]; cbn.
  - eauto.
  - rewrite Hmr, IH. eauto.
Qed.

(** C6, as stated, fails: with a task whose status is mismatch, the terminal
    status that [approval_gate] sets is not the string AWAITING_APPROVAL. *)
Lemma approval_gate_status_literal :
  ~ (forall context',
       approval_gate (Demo.context Demo.reconciled) = Ok context' ->
       Ctx.status context' = Some "AWAITING_APPROVAL").
Proof.
  intros Hclaim. specialize (Hclaim _ eq_refl). discriminate Hclaim.
Qed.

(** C6, amended: for tasks that all hold a match result, [approval_gate]
    returns; the summary holds the number of tasks, the numbers of tasks with
    status match, partial and mismatch and the number of tasks that need an
    email; [approval_required] is true exactly when the number of emails or of
    mismatches is positive; and the terminal status is the string
    APPROVAL_AWAITING if some task needs an email or has status mismatch, and
    COMPLETED otherwise. *)
Theorem approval_gate_summary (context : Ctx.t) (ts : list Task.t) :
  Ctx.tasks context = Some ts ->
  Forall (fun t => exists mr, Task.match_result t = Some mr) ts ->
  exists context' s,
    approval_gate context = Ok context'
    /\ Ctx.tasks context' = Some ts
    /\ Ctx.summary context' = Some s
    /\ Summary.total_invoices s = length ts
    /\ Summary.clean_matches s = count_tasks (has_status "match") ts
    /\ Summary.partial_matches s = count_tasks (has_status "partial") ts
    /\ Summary.mismatches s = count_tasks (has_status "mismatch") ts
    /\ Summary.emails_to_send s = count_tasks needs_email_flag ts
    /\ (Summary.approval_required s = true
        <-> (0 < Summary.emails_to_send s)%nat \/ (0 < Summary.mismatches s)%nat)
    /\ (Exists (fun t => needs_email_flag t = true) ts
        \/ Exists (fun t => has_status "mismatch" t = true) ts ->
        Ctx.status context' = Some "APPROVAL_AWAITING")
    /\ (~ (Exists (fun t => needs_email_flag t = true) ts
           \/ Exists (fun t => has_status "mismatch" t = true) ts) ->
        Ctx.status context' = Some "COMPLETED").
Proof.
  intros Hts Hall. unfold approval_gate. rewrite Hts.
  destruct (task_statuses_total ts Hall) as [statuses Hst]. rewrite Hst.
  eexists _, _. split; [reflexivity|].
  split; [reflexivity|]. split; [reflexivity|].
  cbn [Ctx.tasks Ctx.summary Ctx.status Summary.total_invoices Summary.clean_matches
       Summary.partial_matches Summary.mismatches Summary.emails_to_send
       Summary.approval_required].
  rewrite !(task_statuses_count _ _ _ Hst).
  fold (count_tasks needs_email_flag ts).
  assert (Hreq : (0 <? count_tasks needs_email_flag ts)%nat
                 || (0 <? count_tasks (has_status "mismatch") ts)%nat = true
                 <-> (Exists (fun t => needs_email_flag t = true) ts
                      \/ Exists (fun t => has_status "mismatch" t = true) ts)).
  { rewrite orb_true_iff, !Nat.ltb_lt. unfold count_tasks.
    now rewrite !filter_length_pos. }
  repeat (split; [reflexivity|]).
  split; [now rewrite orb_true_iff, !Nat.ltb_lt|].
  split.
  - intros H. apply Hreq in H. now rewrite H.
  - intros H.
    destruct ((0 <? count_tasks needs_email_flag ts)%nat
              || (0 <? count_tasks (has_status "mismatch") ts)%nat) eqn:Hb;
      [|reflexivity].
    exfalso. apply H, Hreq. reflexivity.
Qed.

Section ReconcileFacts.

Context {R : NpRandom} {E : Environment}.

Lemma py_map_inv {A B} (f : A -> Py B) (xs : list A) (g : rng_state) (ys : list B) :
  fst (py_map f xs g) = Ok ys ->
  Forall2 (fun x y => exists g1, fst (f x g1) = Ok y) xs ys.
Proof.
  revert g ys. induction xs as [|x xs IH]; intros g ys; cbn.
  - intros [= <-]. constructor.
  - unfold py_bind at 1. destruct (f x g) as [[y|e] g1] eqn:Hf; [|discriminate].
    unfold py_bind at 1. destruct (py_map f xs g1) as [[ys'|e] g2] eqn:Hm;
      [|discriminate].
    cbn. intros [= <-]. constructor.
    + exists g. now rewrite Hf.
    + apply (IH g1). now rewrite Hm.
Qed.

Lemma call_matcher_status d m i po g mr :
  fst (call_matcher i po d m g) = Ok mr -> In (status mr) STATUSES.
Proof.
  intros Hcall.
  destruct (call_matcher_inv _ _ _ _ _ _ Hcall) as [(st & p & f & Hs) | (msg & Hs)].
  - rewrite (call_matcher_found _ _ _ _ _ _ _ _ Hs) in Hcall.
    injection Hcall as <-. apply decide_status_in_statuses.
  - rewrite (call_matcher_not_found _ _ _ _ _ _ Hs) in Hcall.
    injection Hcall as <-. cbn. tauto.
Qed.

Lemma email_decision_flag (mr : MatchResult) (min_conf : Q) :
  In (status mr) STATUSES ->
  fst (email_decision mr min_conf) = true
  <-> (status mr = "mismatch" \/ status mr = "partial"
       \/ (status mr = "match" /\ (confidence mr < min_conf)%Q)).
Proof.
  intros Hst. unfold email_decision.
  case_bool_decide as Hmis; [cbn; tauto|].
  case_bool_decide as Hpar; [cbn; tauto|].
  assert (Hmatch : status mr = "match").
  { destruct Hst as [H1 | [H1 | [H1 | []]]];
      [now symmetry | exfalso; apply Hpar; now symmetry
      | exfalso; apply Hmis; now symmetry]. }
  destruct (Qlt_bool (confidence mr) min_conf) eqn:Hlt; cbn.
  - apply Qlt_bool_iff in Hlt. tauto.
  - apply Qlt_bool_false_iff in Hlt.
    split; [discriminate|].
    intros [? | [? | [_ Hc]]]; try contradiction.
    exfalso. exact (Qlt_not_le _ _ Hc Hlt).
Qed.

Lemma reconcile_task_inv (context : Ctx.t) (t t' : Task.t) (g : rng_state) :
  fst (reconcile_task context t g) = Ok t' ->
  exists mr,
    fst (call_matcher (Task.invoice_id t) (Task.po_number t)
           (Ctx.data_dir context) (Ctx.model_path context) g) = Ok mr
    /\ Task.invoice_id t' = Task.invoice_id t
    /\ Task.po_number t' = Task.po_number t
    /\ Task.match_result t' = Some mr
    /\ Task.needs_email t' = Some (fst (email_decision mr (min_conf_of context)))
    /\ Task.email_reason t' = Some (snd (email_decision mr (min_conf_of context))).
Proof.
  unfold reconcile_task. unfold py_bind at 1.
  rewrite guardrail_matcher_four_strings.
  destruct (call_matcher _ _ _ _ g) as [[mr|e] g1]; [|discriminate].
  destruct (email_decision mr (min_conf_of context)) as [flag reason] eqn:Hd.
  cbn. intros [= <-]. exists mr. cbn. rewrite Hd. repeat split; reflexivity.
Qed.

Lemma email_decision_reason (mr : MatchResult) (min_conf : Q) :
  (status mr = "mismatch" ->
   snd (email_decision mr min_conf) = "Material discrepancies detected")
  /\ (status mr = "partial" ->
      snd (email_decision mr min_conf) = "Uncertain match requires clarification")
  /\ (status mr = "match" -> (confidence mr < min_conf)%Q ->
      snd (email_decision mr min_conf) = "Low confidence match requires review")
  /\ (status mr = "match" -> (min_conf <= confidence mr)%Q ->
      email_decision mr min_conf = (false, "Clean match - no action required")).
Proof.
  unfold email_decision.
  case_bool_decide as Hmis.
  { rewrite Hmis. cbn. repeat split; intros; try reflexivity; discriminate. }
  case_bool_decide as Hpar.
  { rewrite Hpar. cbn. repeat split; intros; try reflexivity; discriminate. }
  split; [intros; contradiction|]. split; [intros; contradiction|].
  destruct (Qlt_bool (confidence mr) min_conf) eqn:Hlt; cbn.
  - apply Qlt_bool_iff in Hlt. split; [reflexivity|].
    intros _ Hge. exfalso. exact (Qlt_not_le _ _ Hlt Hge).
  - apply Qlt_bool_false_iff in Hlt. split; [|reflexivity].
    intros _ Hc. exfalso. exact (Qlt_not_le _ _ Hc Hlt).
Qed.

(** C5: every task that [reconcile_node] returns holds a match result with
    one of the three statuses, a flag [needs_email] and a reason.  The
    threshold is the number the context holds under [min_conf], and 0.75 when
    it holds none.  The flag is true exactly when the status is mismatch or
    partial, or the status is match and the confidence is below the
    threshold.  The reason is the text of the branch taken: "Material
    discrepancies detected" for a mismatch, "Uncertain match requires
    clarification" for a partial, "Low confidence match requires review" for a
    match below the threshold, and "Clean match - no action required", with
    the flag false, for a match at or above it.  A match of confidence 0.9
    under [min_conf] 0.75 needs no email. *)
Theorem reconcile_node_needs_email (context : Ctx.t) (g : rng_state) (ts' : list Task.t) :
  fst (reconcile_node context g) = Ok ts' ->
  let threshold := match Ctx.min_conf context with
                   | Some c => c
                   | None => 75 # 100
                   end in
  Forall (fun t =>
            exists mr flag reason,
              Task.match_result t = Some mr
              /\ In (status mr) STATUSES
              /\ Task.needs_email t = Some flag
              /\ Task.email_reason t = Some reason
              /\ (flag = true
                  <-> (status mr = "mismatch" \/ status mr = "partial"
                       \/ (status mr = "match" /\ (confidence mr < threshold)%Q)))
              /\ (status mr = "mismatch" -> reason = "Material discrepancies detected")
              /\ (status mr = "partial" ->
                  reason = "Uncertain match requires clarification")
              /\ (status mr = "match" -> (confidence mr < threshold)%Q ->
                  reason = "Low confidence match requires review")
              /\ (status mr = "match" -> (threshold <= confidence mr)%Q ->
                  flag = false /\ reason = "Clean match - no action required")
              /\ (status mr = "match" -> (confidence mr == 9 # 10)%Q ->
                  (threshold == 75 # 100)%Q -> flag = false)) ts'.
Proof.
  intros Hrun threshold.
  unfold reconcile_node in Hrun.
  destruct (tasks_of context) as [ts|e]; [|discriminate].
  apply py_map_inv in Hrun.
  induction Hrun as [|t t' ts ts' [g1 Ht] _ IH]; constructor; [|exact IH].
  apply reconcile_task_inv in Ht
    as (mr & Hcall & _ & _ & Hmr & Hflag & Hreason).
  change (min_conf_of context) with threshold in Hflag, Hreason.
  pose proof (call_matcher_status _ _ _ _ _ _ Hcall) as Hst.
  destruct (email_decision_reason mr threshold) as (R1 & R2 & R3 & R4).
  exists mr, (fst (email_decision mr threshold)), (snd (email_decision mr threshold)).
  repeat (split; [assumption|]).
  split; [now apply email_decision_flag|].
  split; [exact R1|]. split; [exact R2|]. split; [exact R3|].
  split.
  - intros Hm Hge. now rewrite (R4 Hm Hge).
  - intros Hm Hc Ht. rewrite (R4 Hm); [reflexivity|].
    rewrite Hc, Ht. discriminate.
Qed.

End ReconcileFacts.

(** ** Runs on the concrete inputs *)

(** The scorer finds both pairs of the demonstration directory. *)
Lemma demo_score_clean :
  fst (score_invoice (E := Demo.environment) "data" "reports/matcher_model.pkl"
         "INV0012" "PO0012" Demo.g0)
  = Ok (Found "match" (1 # 5) (facts_of_row Demo.clean_row)).
Proof. vm_compute. reflexivity. Qed.

Lemma demo_score_short :
  fst (score_invoice (E := Demo.environment) "data" "reports/matcher_model.pkl"
         "INV0013" "PO0013" Demo.g0)
  = Ok (Found "match" (1 # 5) (facts_of_row Demo.short_row)).
Proof. vm_compute. reflexivity. Qed.

Lemma demo_model_probabilities (path : string) (clf : Classifier) (X : list npfloat) :
  @models Demo.environment path = Some clf -> (0 <= predict_proba clf X <= 1)%Q.
Proof.
  cbn. destruct (bool_decide (path = "reports/matcher_model.pkl")); [|discriminate].
  intros [= <-]. cbn. split; discriminate.
Qed.

Lemma demo_reconcile :
  fst (reconcile_node (E := Demo.environment) (Demo.context Demo.planned) Demo.g0)
  = Ok Demo.reconciled.
Proof. vm_compute. reflexivity. Qed.

(** C2 at the clean pair: no material issue and a probability of 0.2 below
    0.6, hence a match of confidence 0.8. *)
Lemma call_matcher_decision_policy_run :
  fst (score_invoice (E := Demo.environment) "data" "reports/matcher_model.pkl"
         "INV0012" "PO0012" Demo.g0)
  = Ok (Found "match" (1 # 5) (facts_of_row Demo.clean_row))
  /\ exists mr,
       fst (call_matcher (E := Demo.environment) "INV0012" "PO0012" "data"
              "reports/matcher_model.pkl" Demo.g0) = Ok mr
       /\ (status mr, confidence mr)
          = decide_status (facts_of_row Demo.clean_row) (1 # 5)
       /\ decide_status (facts_of_row Demo.clean_row) (1 # 5)
          = ("match", (1 - (1 # 5))%Q).
Proof.
  split; [exact demo_score_clean|].
  destruct (call_matcher_decision_policy (E := Demo.environment)
              "data" "reports/matcher_model.pkl" "INV0012" "PO0012" Demo.g0
              "match" (1 # 5) (facts_of_row Demo.clean_row) demo_score_clean)
    as [(mr & row & pm & vm & hg & a & Hcall & _ & Hdec & _) _].
  exists mr. split; [exact Hcall|]. split; [exact Hdec|].
  vm_compute. reflexivity.
Defined.

(** C3 at the short pair. *)
Lemma call_matcher_result_shape_run :
  (forall path clf X,
     @models Demo.environment path = Some clf -> (0 <= predict_proba clf X <= 1)%Q)
  /\ fst (call_matcher (E := Demo.environment) "INV0013" "PO0013" "data"
            "reports/matcher_model.pkl" Demo.g0) = Ok Demo.short_result
  /\ In (status Demo.short_result) STATUSES
  /\ (0 <= confidence Demo.short_result <= 1)%Q
  /\ exposes_canonical_keys (facts Demo.short_result).
Proof.
  assert (Hcall : fst (call_matcher (E := Demo.environment) "INV0013" "PO0013" "data"
                         "reports/matcher_model.pkl" Demo.g0) = Ok Demo.short_result)
    by (vm_compute; reflexivity).
  split; [exact demo_model_probabilities|]. split; [exact Hcall|].
  destruct (call_matcher_result_shape (E := Demo.environment)
              "data" "reports/matcher_model.pkl" "INV0013" "PO0013" Demo.g0
              Demo.short_result demo_model_probabilities Hcall)
    as (Hst & Hconf & [(st & p & f & _ & Hkeys & _) | (msg & Hnf & _)]).
  - split; [exact Hst|]. split; [exact Hconf|]. exact Hkeys.
  - exfalso. rewrite demo_score_short in Hnf. discriminate Hnf.
Defined.

Lemma sample_reconcile_strict :
  fst (reconcile_node (E := Demo.environment) Sample.strict_context Demo.g0)
  = Ok Sample.strict_reconciled.
Proof. vm_compute. reflexivity. Qed.

(** C5 at the two tasks of the demonstration batch, under a threshold of 0.9:
    the clean pair, a match of confidence 0.8, is below it and gets the
    low-confidence email. *)
Lemma reconcile_node_needs_email_run :
  fst (reconcile_node (E := Demo.environment) Sample.strict_context Demo.g0)
  = Ok Sample.strict_reconciled
  /\ Forall (fun t =>
               exists mr flag reason,
                 Task.match_result t = Some mr
                 /\ Task.needs_email t = Some flag
                 /\ Task.email_reason t = Some reason
                 /\ (flag = true
                     <-> (status mr = "mismatch" \/ status mr = "partial"
                          \/ (status mr = "match"
                              /\ (confidence mr < 9 # 10)%Q)))
                 /\ (status mr = "match" -> (confidence mr < 9 # 10)%Q ->
                     reason = "Low confidence match requires review"))
            Sample.strict_reconciled.
Proof.
  split; [exact sample_reconcile_strict|].
  pose proof (reconcile_node_needs_email (E := Demo.environment)
                Sample.strict_context Demo.g0 Sample.strict_reconciled
                sample_reconcile_strict) as Hall.
  eapply Forall_impl; [exact Hall|].
  intros t (mr & flag & reason & Hmr & _ & Hflag & Hreason & Hiff & _ & _ & Hlow & _).
  exists mr, flag, reason. repeat (split; [assumption|]). exact Hlow.
Defined.

(** C6 at the reconciled demonstration batch: one task needs an email. *)
Lemma approval_gate_summary_run :
  Ctx.tasks (Demo.context Demo.reconciled) = Some Demo.reconciled
  /\ Forall (fun t => exists mr, Task.match_result t = Some mr) Demo.reconciled
  /\ exists context' s,
       approval_gate (Demo.context Demo.reconciled) = Ok context'
       /\ Ctx.summary context' = Some s
       /\ Summary.total_invoices s = 2%nat
       /\ Ctx.status context' = Some "APPROVAL_AWAITING".
Proof.
  assert (Hall : Forall (fun t => exists mr, Task.match_result t = Some mr)
                   Demo.reconciled)
    by (repeat constructor; eexists; reflexivity).
  split; [reflexivity|]. split; [exact Hall|].
  destruct (approval_gate_summary (Demo.context Demo.reconciled) Demo.reconciled
              eq_refl Hall)
    as (context' & s & Hrun & _ & Hsum & Htotal & _ & _ & _ & _ & _ & Hawait & _).
  exists context', s. split; [exact Hrun|]. split; [exact Hsum|].
  split; [exact Htotal|].
  apply Hawait. left. apply Exists_cons_tl, Exists_cons_hd. reflexivity.
Defined.

(** C9 at the short pair: the invoice of 80 is 20 below the purchase order of
    100, the signed difference is 80 - 100 and the fact is its absolute
    value, 20. *)
Lemma score_invoice_amount_delta_run :
  fst (score_invoice (E := Demo.environment) "data" "reports/matcher_model.pkl"
         "INV0013" "PO0013" Demo.g0)
  = Ok (Found "match" (1 # 5) (facts_of_row Demo.short_row))
  /\ facts_of_row Demo.short_row !! "amount_delta"
     = Some (PFloat (Fin (Qabs (80 - 100))))
  /\ (Qabs (80 - 100) == 20)%Q.
Proof.
  split; [exact demo_score_short|].
  destruct (score_invoice_amount_delta_is_absolute (E := Demo.environment)
              "data" "reports/matcher_model.pkl" "INV0013" "PO0013" Demo.g0
              "match" (1 # 5) (facts_of_row Demo.short_row) demo_score_short)
    as (inv_agg & pos & a & q & row & delta & Hd & Ha & Hq & Hi & Hpo & _ & _ & _ & _
        & Hfin & _ & _ & Hf & _).
  injection Hd as <- <-.
  assert (Ha' : a = Demo.invoice "INV0013" 80).
  { destruct Ha as [<- | [<- | []]]; [discriminate Hi | reflexivity]. }
  assert (Hq' : q = Demo.purchase_order "PO0013" 100).
  { destruct Hq as [<- | [<- | []]]; [discriminate Hpo | reflexivity]. }
  subst a q. rewrite (Hfin 80%Q 100%Q eq_refl eq_refl) in Hf.
  split; [exact Hf | reflexivity].
Defined.

(** ** Further properties of the code *)

(** *** The candidate key *)

Lemma substring_all (s : string) : String.substring 0 (String.length s) s = s.
Proof. induction s as [|c s IH]; cbn; [reflexivity | now rewrite IH]. Qed.

Lemma prefix_INV_inv (s : string) :
  String.prefix "INV" s = true -> exists t, s = "INV" ++ t.
Proof.
  intros H. apply String.prefix_correct in H.
  destruct s as [|c1 [|c2 [|c3 t]]]; cbn in H; try discriminate.
  injection H as -> -> ->. exists t. reflexivity.
Qed.

Lemma invoice_to_po_key_INV (t : string) : invoice_to_po_key ("INV" ++ t) = "PO" ++ t.
Proof.
  unfold invoice_to_po_key, Str.drop3.
  replace (String.prefix "INV" ("INV" ++ t)) with true
    by (cbn; destruct t; reflexivity).
  change ("INV" ++ t) with (String "I" (String "N" (String "V" t))).
  cbn [String.length Nat.sub String.substring].
  now rewrite Nat.sub_0_r, substring_all.
Qed.

(** X1: [invoice_to_po_key] replaces a leading INV by PO and keeps the rest
    of the string, whatever it is; a string that does not start with INV is
    returned unchanged; applying the function twice is applying it once; and a
    string that already starts with PO shares its key with the INV string of
    the same rest. *)
Theorem invoice_to_po_key_prefix_rule :
  (forall t, invoice_to_po_key ("INV" ++ t) = "PO" ++ t)
  /\ (forall s, String.prefix "INV" s = false -> invoice_to_po_key s = s)
  /\ (forall s, invoice_to_po_key (invoice_to_po_key s) = invoice_to_po_key s)
  /\ (forall t, invoice_to_po_key ("PO" ++ t) = invoice_to_po_key ("INV" ++ t)).
Proof.
  split; [exact invoice_to_po_key_INV|].
  assert (Hno : forall s, String.prefix "INV" s = false -> invoice_to_po_key s = s).
  { intros s H. unfold invoice_to_po_key. now rewrite H. }
  assert (Hpo : forall t, invoice_to_po_key ("PO" ++ t) = "PO" ++ t).
  { intros t. apply Hno. reflexivity. }
  split; [exact Hno|]. split.
  - intros s. destruct (String.prefix "INV" s) eqn:Hp.
    + apply prefix_INV_inv in Hp as [t ->].
      now rewrite invoice_to_po_key_INV, Hpo.
    + now rewrite !(Hno s Hp).
  - intros t. now rewrite Hpo, invoice_to_po_key_INV.
Qed.

(** *** The vendor similarity *)

Lemma inject_nat_nonneg (n : nat) : (0 <= inject_Z (Z.of_nat n))%Q.
Proof. unfold Qle. cbn. lia. Qed.

Lemma ratio_in_unit_interval (a b : nat) :
  (a <= b)%nat -> (0 < b)%nat ->
  (0 <= inject_Z (Z.of_nat a) / inject_Z (Z.of_nat b) <= 1)%Q.
Proof.
  intros Hab Hb.
  assert (Hbpos : (0 < inject_Z (Z.of_nat b))%Q) by (unfold Qlt; cbn; lia).
  split.
  - apply Qle_shift_div_l; [assumption|]. rewrite Qmult_0_l. apply inject_nat_nonneg.
  - apply Qle_shift_div_r; [assumption|]. rewrite Qmult_1_l.
    unfold Qle. cbn. lia.
Qed.

(** X2: the vendor similarity lies in [0, 1], does not depend on the order of
    the two names, is 0 when a name is missing, and is 1 when the two names
    are equal once lower-cased and stripped. *)
Theorem vendor_similarity_bounds_symmetry (v1 v2 : option string) :
  (0 <= vendor_similarity v1 v2 <= 1)%Q
  /\ vendor_similarity v1 v2 = vendor_similarity v2 v1
  /\ vendor_similarity None v2 = 0%Q
  /\ vendor_similarity v1 None = 0%Q
  /\ (forall a b, v1 = Some a -> v2 = Some b ->
        Str.strip (Str.lower a) = Str.strip (Str.lower b) ->
        vendor_similarity v1 v2 = 1%Q).
Proof.
  split; [|split; [|split; [|split]]].
  - destruct v1 as [a|], v2 as [b|]; cbn; try (split; discriminate).
    destruct (bool_decide _); [split; discriminate|].
    case_bool_decide as He; [split; discriminate|].
    apply ratio_in_unit_interval.
    + apply subseteq_size.
      etrans; [apply intersection_subseteq_l | apply union_subseteq_l].
    + apply Nat.neq_0_lt_0. intros Hz. apply He.
      apply leibniz_equiv. now apply size_empty_iff.
  - destruct v1 as [a|], v2 as [b|]; cbn; try reflexivity.
    generalize (list_to_set (Str.split (Str.strip (Str.lower a))) : gset string).
    generalize (list_to_set (Str.split (Str.strip (Str.lower b))) : gset string).
    intros s2 s1.
    assert (Hi : s1 ∩ s2 = s2 ∩ s1) by apply (comm_L (∩)).
    assert (Hu : s1 ∪ s2 = s2 ∪ s1) by apply (comm_L (∪)).
    rewrite Hi, Hu.
    repeat case_bool_decide; congruence.
  - reflexivity.
  - destruct v1; reflexivity.
  - intros a b -> -> Heq. cbn. now rewrite bool_decide_eq_true_2.
Qed.

(** *** The columns and the flags of the feature frame *)

Lemma b2z_one (b : bool) : Z.b2z b = 1 <-> b = true.
Proof. destruct b; cbn; split; congruence. Qed.

Lemma b2z_bit (b : bool) : Z.b2z b = 0 \/ Z.b2z b = 1.
Proof. destruct b; auto. Qed.

Lemma days_between_cases (a b : timestamp) :
  days_between a b = NaN \/ exists d, days_between a b = NpFloat.of_Z d.
Proof. destruct a, b; cbn; eauto. Qed.

Lemma engineer_rows_ids (m1 m2 m3 : list bool) (df : list LinkedPair) :
  length m1 = length df -> length m2 = length df -> length m3 = length df ->
  map (fun fr => Linked.invoice_id (Feat.linked fr)) (engineer_rows m1 m2 m3 df)
  = map Linked.invoice_id df.
Proof.
  revert m1 m2 m3. induction df as [|r df IH]; intros [|b1 m1] [|b2 m2] [|b3 m3];
    cbn; try discriminate; try reflexivity.
  intros H1 H2 H3. f_equal. apply IH; congruence.
Qed.

(** X3: [engineer_features] returns the rows in the order it is given them,
    with their invoice identifiers.  In every returned row each flag is 0 or
    1, [po_missing] is 1 exactly when the returned [po_number] is null, and
    [has_grn] is 1 exactly when the returned [grn_number] is not null: the
    masks change a flag and its column together. *)
Theorem engineer_features_flags_match_columns `{NpRandom}
    (df : list LinkedPair) (g : rng_state) :
  map (fun fr => Linked.invoice_id (Feat.linked fr)) (fst (engineer_features df g))
  = map Linked.invoice_id df
  /\ forall fr, In fr (fst (engineer_features df g)) ->
       (Feat.po_missing fr = 1 <-> Linked.po_number (Feat.linked fr) = None)
       /\ (Feat.has_grn fr = 1 <-> Linked.grn_number (Feat.linked fr) <> None)
       /\ Forall (fun flag => flag = 0 \/ flag = 1)
            [ Feat.po_missing fr; Feat.has_grn fr; Feat.vendor_match fr;
              Feat.currency_match fr; Feat.amount_over_tolerance fr;
              Feat.amount_pct_over_tolerance fr; Feat.invoice_before_po fr;
              Feat.invoice_too_late fr; Feat.invoice_before_grn fr ].
Proof.
  rewrite engineer_features_eq. split.
  { apply engineer_rows_ids; unfold grn_mask, additional_mask, currency_mask;
      apply random_mask_length. }
  intros fr Hin. apply engineer_rows_In in Hin as (b1 & b2 & b3 & r & _ & ->).
  cbn [engineer_row Feat.po_missing Feat.has_grn Feat.vendor_match Feat.currency_match
       Feat.amount_over_tolerance Feat.amount_pct_over_tolerance
       Feat.invoice_before_po Feat.invoice_too_late Feat.invoice_before_grn
       Feat.linked Linked.po_number Linked.grn_number].
  split; [|split].
  - destruct b2; [tauto|]. rewrite b2z_one, bool_decide_eq_true. tauto.
  - destruct b1; [split; [discriminate | congruence]|].
    rewrite b2z_one, bool_decide_eq_true. tauto.
  - repeat apply List.Forall_cons; try apply List.Forall_nil; try apply b2z_bit.
    + destruct b2; [auto | apply b2z_bit].
    + destruct b1; [auto | apply b2z_bit].
    + destruct b3; auto.
Qed.

Lemma flag_lt_days (a b : timestamp) (c : Q) :
  (c <= 0)%Q ->
  Z.b2z (NpFloat.lt (days_between a b) c) = 1
  <-> exists d, replace_inf_nan (days_between a b) = Fin d /\ (d < c)%Q.
Proof.
  intros Hc. rewrite b2z_one.
  destruct (days_between_cases a b) as [-> | [d ->]]; cbn.
  - split; [discriminate|]. intros (d & [= <-] & Hd). exfalso.
    exact (Qlt_not_le _ _ Hd Hc).
  - rewrite Qlt_bool_iff. split; [eauto|]. now intros (d' & [= <-] & Hd).
Qed.

Lemma flag_gt_days (a b : timestamp) (c : Q) :
  (0 <= c)%Q ->
  Z.b2z (NpFloat.gt (days_between a b) c) = 1
  <-> exists d, replace_inf_nan (days_between a b) = Fin d /\ (c < d)%Q.
Proof.
  intros Hc. rewrite b2z_one.
  destruct (days_between_cases a b) as [-> | [d ->]]; cbn.
  - split; [discriminate|]. intros (d & [= <-] & Hd). exfalso.
    exact (Qlt_not_le _ _ Hd Hc).
  - rewrite Qlt_bool_iff. split; [eauto|]. now intros (d' & [= <-] & Hd).
Qed.

(** X4: in every row [engineer_features] returns, the threshold flags agree
    with the numeric columns of the same row: [invoice_before_po] is 1 exactly
    when [days_delta] is below -2, [invoice_too_late] exactly when it is above
    120, [invoice_before_grn] exactly when [days_since_grn] is below -3,
    [vendor_match] exactly when [vendor_similarity] is above 0.8 and
    [amount_pct_over_tolerance] exactly when the absolute value of
    [amount_delta_pct] is above 0.05; an [amount_delta_abs] above 100 has
    [amount_over_tolerance] 1.  No row is flagged both before its purchase
    order and too late. *)
Theorem engineer_features_threshold_flags `{NpRandom}
    (df : list LinkedPair) (g : rng_state) (fr : FeatureRow) :
  In fr (fst (engineer_features df g)) ->
  (Feat.invoice_before_po fr = 1
   <-> exists d, Feat.days_delta fr = Fin d /\ (d < - (2))%Q)
  /\ (Feat.invoice_too_late fr = 1
      <-> exists d, Feat.days_delta fr = Fin d /\ (120 < d)%Q)
  /\ (Feat.invoice_before_grn fr = 1
      <-> exists d, Feat.days_since_grn fr = Fin d /\ (d < - (3))%Q)
  /\ (Feat.vendor_match fr = 1
      <-> exists s, Feat.vendor_similarity fr = Fin s /\ (8 # 10 < s)%Q)
  /\ (Feat.amount_pct_over_tolerance fr = 1
      <-> exists c, Feat.amount_delta_pct fr = Fin c /\ (5 # 100 < Qabs c)%Q)
  /\ (forall a, Feat.amount_delta_abs fr = Fin a -> (100 < a)%Q ->
        Feat.amount_over_tolerance fr = 1)
  /\ ~ (Feat.invoice_before_po fr = 1 /\ Feat.invoice_too_late fr = 1).
Proof.
  rewrite engineer_features_eq. intros Hin.
  apply engineer_rows_In in Hin as (b1 & b2 & b3 & r & _ & ->).
  cbn [engineer_row Feat.invoice_before_po Feat.invoice_too_late
       Feat.invoice_before_grn Feat.vendor_match Feat.amount_pct_over_tolerance
       Feat.amount_over_tolerance Feat.days_delta Feat.days_since_grn
       Feat.vendor_similarity Feat.amount_delta_pct Feat.amount_delta_abs].
  assert (Hbefore := flag_lt_days (Linked.invoice_date r) (Linked.po_date r) (- (2))).
  assert (Hlate := flag_gt_days (Linked.invoice_date r) (Linked.po_date r) 120).
  split; [apply Hbefore; discriminate|].
  split; [apply Hlate; discriminate|].
  split; [apply flag_lt_days; discriminate|].
  split.
  { rewrite b2z_one. cbn. rewrite Qlt_bool_iff.
    split; [eauto | now intros (s & [= <-] & Hs)]. }
  split.
  { rewrite b2z_one.
    set (pct := NpFloat.clip (- (1)) 1
                  (NpFloat.fillna 0
                     (NpFloat.div
                        (NpFloat.fillna 0
                           (NpFloat.sub (Linked.invoice_total r) (Linked.po_total r)))
                        (Linked.po_total r)))).
    assert (Hfin : exists c, pct = Fin c).
    { subst pct. destruct (NpFloat.fillna 0 (NpFloat.div _ _)) eqn:Hq; cbn; eauto.
      destruct (NpFloat.div _ _); discriminate. }
    destruct Hfin as [c ->]. cbn. rewrite Qlt_bool_iff.
    split; [eauto | now intros (c' & [= <-] & Hc)]. }
  split.
  { intros a Ha Hgt. rewrite b2z_one.
    destruct (fillna_sub_cases (Linked.invoice_total r) (Linked.po_total r))
      as [-> | [-> | [d Hd]]]; try reflexivity.
    rewrite Hd in *. cbn in Ha. injection Ha as <-. cbn. now apply Qlt_bool_iff. }
  intros [H1 H2]. apply Hbefore in H1 as (d & Hd & Hlt); [|discriminate].
  apply Hlate in H2 as (d' & Hd' & Hgt); [|discriminate].
  rewrite Hd in Hd'. injection Hd' as <-. lra.
Qed.

(** *** What the scorer can find *)

Section ScorerReach.

Context {R : NpRandom} {E : Environment}.

(** X5: [score_invoice] finds a pair only if the data hold the invoice and a
    purchase order of that number whose number is the candidate key of the
    invoice and whose vendor and currency are the invoice's; so a request for
    another purchase order of the same vendor is never found.  In every
    found result the fact [po_missing] is False: a row whose link is absent
    or was broken by a mask has a null [po_number], which equals no requested
    number. *)
Theorem score_invoice_finds_exact_links_only d m i po g st p f :
  fst (score_invoice d m i po g) = Ok (Found st p f) ->
  exists inv_agg pos a q,
    datasets d = Some (inv_agg, pos)
    /\ In a inv_agg /\ In q pos
    /\ Inv.invoice_id a = i /\ PO.po_number q = po
    /\ keys_equal a q
    /\ po = invoice_to_po_key i
    /\ f !! "po_missing" = Some (PBool false).
Proof.
  intros Hfound.
  apply score_invoice_found_inv in Hfound
    as (clf & inv_agg & pos & row & rest & X & _ & Hd & Hsel & _ & _ & -> & _).
  assert (Hrow : In row (List.filter (is_pair i po) (feature_frame inv_agg pos)))
    by (rewrite Hsel; left; reflexivity).
  apply filter_In in Hrow as [Hin Hpair].
  apply feature_frame_row_origin in Hin as (b & b1 & b2 & b3 & j & Hj & ->).
  unfold is_pair in Hpair. apply andb_true_iff in Hpair as [Hid Hpo].
  apply bool_decide_eq_true in Hid, Hpo.
  cbn [engineer_row Feat.linked Linked.invoice_id Linked.po_number] in Hid, Hpo.
  destruct b2; [discriminate|]. destruct b; [discriminate|].
  cbn [break_link] in Hid, Hpo.
  apply merge_left_spec in Hj as (a & Ha & [[-> _] | (q & Hq & Hkeys & ->)]);
    [discriminate|].
  cbn in Hid, Hpo. injection Hpo as Hpo.
  exists inv_agg, pos, a, q. repeat (split; [assumption|]).
  split; [destruct Hkeys as [Hk _]; congruence|].
  destruct (facts_of_row_lookup
              (engineer_row b1 false b3 (break_link false (joined_row a q))))
    as (_ & _ & Hpm & _).
  exact Hpm.
Qed.

(** X6: for a found pair the status [call_matcher] returns bounds its
    confidence: a match has no material issue, [p < 0.6] and confidence
    [1 - p], above 0.4; a partial has no material issue, [0.6 <= p < 0.8] and
    confidence [p]; a mismatch has confidence [p] and a material issue or
    [p >= 0.8].  The status [score_invoice] itself returns is mismatch exactly
    when [p >= 0.5] and plays no part: for [0.5 <= p < 0.6] without material
    issue the scorer says mismatch and the matcher says match. *)
Theorem call_matcher_status_ranges d m i po g st p f :
  fst (score_invoice d m i po g) = Ok (Found st p f) ->
  exists mr,
    fst (call_matcher i po d m g) = Ok mr
    /\ (status mr = "match" ->
        has_material_issues f = false /\ (p < 6 # 10)%Q
        /\ confidence mr = (1 - p)%Q /\ (4 # 10 < confidence mr)%Q)
    /\ (status mr = "partial" ->
        has_material_issues f = false /\ (6 # 10 <= p < 8 # 10)%Q
        /\ confidence mr = p)
    /\ (status mr = "mismatch" ->
        confidence mr = p /\ (has_material_issues f = true \/ (8 # 10 <= p)%Q))
    /\ (st = "mismatch" <-> (1 # 2 <= p)%Q)
    /\ (has_material_issues f = false -> (1 # 2 <= p)%Q -> (p < 6 # 10)%Q ->
        st = "mismatch" /\ status mr = "match").
Proof.
  intros Hfound. eexists. split; [exact (call_matcher_found _ _ _ _ _ _ _ _ Hfound)|].
  apply score_invoice_found_inv in Hfound
    as (clf & _ & _ & _ & _ & X & _ & _ & _ & _ & _ & _ & ->).
  cbn [status confidence]. unfold decide_status.
  assert (Hst : (if Qle_bool (1 # 2) p then "mismatch" else "match") = "mismatch"
                <-> (1 # 2 <= p)%Q).
  { destruct (Qle_bool (1 # 2) p) eqn:H5.
    - apply Qle_bool_iff in H5. tauto.
    - split; [discriminate|]. intros H. apply Qle_bool_iff in H. congruence. }
  destruct (has_material_issues f).
  { cbn [fst snd].
    split; [intros Hs; discriminate Hs|]. split; [intros Hs; discriminate Hs|].
    split; [auto|]. split; [exact Hst|]. intros Hm; discriminate Hm. }
  destruct (Qle_bool (8 # 10) p) eqn:H8.
  { apply Qle_bool_iff in H8. cbn [fst snd].
    split; [intros Hs; discriminate Hs|]. split; [intros Hs; discriminate Hs|].
    split; [auto|]. split; [exact Hst|]. intros _ _ H6. exfalso. lra. }
  assert (H8' : (p < 8 # 10)%Q).
  { apply Qnot_le_lt. intros H. apply Qle_bool_iff in H. congruence. }
  destruct (Qle_bool (6 # 10) p) eqn:H6.
  { apply Qle_bool_iff in H6. cbn [fst snd].
    split; [intros Hs; discriminate Hs|]. split; [auto|].
    split; [intros Hs; discriminate Hs|]. split; [exact Hst|].
    intros _ _ H6'. exfalso. lra. }
  assert (H6' : (p < 6 # 10)%Q).
  { apply Qnot_le_lt. intros H. apply Qle_bool_iff in H. congruence. }
  cbn [fst snd].
  split; [intros _; repeat split; auto; lra|].
  split; [intros Hs; discriminate Hs|]. split; [intros Hs; discriminate Hs|].
  split; [exact Hst|]. intros _ H5 _. split; [now apply Hst | reflexivity].
Qed.

End ScorerReach.

(** X7: under the threshold 0.75 that [agent_run] sets, a result of the
    decision policy needs no email exactly when the facts show no material
    issue, the mismatch probability is below 0.6 and the confidence of the
    result is at least 0.75.  A material issue or a probability of 0.6 or more
    always brings an email; without material issue a probability of at most
    0.25 never does; and a match whose confidence is below 0.75 is mailed as a
    low-confidence match. *)
Theorem email_decision_after_policy (f : gmap string pyval) (p : Q) (e : string) :
  let mr := {| status := fst (decide_status f p);
               confidence := snd (decide_status f p);
               facts := f; explanation := e |} in
  (fst (email_decision mr (75 # 100)) = false
   <-> has_material_issues f = false /\ (p < 6 # 10)%Q
       /\ (75 # 100 <= confidence mr)%Q)
  /\ (has_material_issues f = true \/ (6 # 10 <= p)%Q ->
      fst (email_decision mr (75 # 100)) = true)
  /\ (has_material_issues f = false -> (p <= 1 # 4)%Q ->
      email_decision mr (75 # 100) = (false, "Clean match - no action required"))
  /\ (has_material_issues f = false -> (p < 6 # 10)%Q ->
      (confidence mr < 75 # 100)%Q ->
      status mr = "match"
      /\ email_decision mr (75 # 100) = (true, "Low confidence match requires review")).
Proof.
  cbn zeta. unfold decide_status, email_decision. cbn [status confidence].
  destruct (has_material_issues f).
  { cbn. split; [split; [discriminate | intros [? _]; discriminate]|].
    split; [reflexivity|]. split; intros; discriminate. }
  destruct (Qle_bool (8 # 10) p) eqn:H8.
  { apply Qle_bool_iff in H8. cbn.
    split; [split; [discriminate | intros (_ & ? & _); lra]|].
    split; [reflexivity|]. split; intros; lra. }
  assert (H8' : (p < 8 # 10)%Q).
  { apply Qnot_le_lt. intros H. apply Qle_bool_iff in H. congruence. }
  destruct (Qle_bool (6 # 10) p) eqn:H6.
  { apply Qle_bool_iff in H6. cbn.
    split; [split; [discriminate | intros (_ & ? & _); lra]|].
    split; [reflexivity|]. split; intros; lra. }
  assert (H6' : (p < 6 # 10)%Q).
  { apply Qnot_le_lt. intros H. apply Qle_bool_iff in H. congruence. }
  cbn [fst snd].
  rewrite (bool_decide_eq_false_2 ("match" = "mismatch")) by discriminate.
  rewrite (bool_decide_eq_false_2 ("match" = "partial")) by discriminate.
  destruct (Qlt_bool (1 - p) (75 # 100)) eqn:Hlt.
  - apply Qlt_bool_iff in Hlt. cbn.
    split; [split; [discriminate | intros (_ & _ & ?); lra]|].
    split; [intros [? | ?]; [discriminate | lra]|].
    split; [intros; lra | auto].
  - apply Qlt_bool_false_iff in Hlt. cbn.
    split; [split; [intros _; repeat split; [exact H6' | exact Hlt] | reflexivity]|].
    split; [intros [? | ?]; [discriminate | lra]|].
    split; [reflexivity | intros; lra].
Qed.

(** *** One linked row for each invoice *)

Lemma filter_unique_key {A K : Type} (key : A -> K) (c : K) (test : A -> bool)
    (l : list A) :
  (forall x, test x = true -> key x = c) ->
  NoDup (map key l) -> (length (List.filter test l) <= 1)%nat.
Proof.
  intros Hkey. induction l as [|x l IH]; cbn; [lia|].
  intros Hnd. apply NoDup_cons in Hnd as [Hx Hnd].
  destruct (test x) eqn:Hx'; [|now apply IH].
  assert (Hnone : List.filter test l = []).
  { destruct (List.filter test l) as [|y ys] eqn:Hf; [reflexivity|].
    assert (Hy : In y (List.filter test l)) by (rewrite Hf; left; reflexivity).
    apply filter_In in Hy as [Hy Hty]. exfalso. apply Hx.
    rewrite (Hkey x Hx'), <- (Hkey y Hty).
    apply list_elem_of_In, in_map. exact Hy. }
  rewrite Hnone. cbn. lia.
Qed.

Lemma merge_one_ids po (a : AggregatedInvoice) :
  Forall (fun r => Linked.invoice_id r = Inv.invoice_id a) (merge_one po a)
  /\ (1 <= length (merge_one po a))%nat.
Proof.
  unfold merge_one. destruct (List.filter (join_keys_match a) po) as [|q qs].
  - split; [repeat constructor | cbn; lia].
  - split; [|cbn; lia].
    apply Forall_forall. intros r Hr. apply list_elem_of_In in Hr.
    change (joined_row a q :: map (joined_row a) qs) with (map (joined_row a) (q :: qs)) in Hr.
    apply in_map_iff in Hr as (q' & <- & _). reflexivity.
Qed.

Lemma merge_one_single po (a : AggregatedInvoice) :
  NoDup (map po_key po) -> exists r, merge_one po a = [r] /\ Linked.invoice_id r = Inv.invoice_id a.
Proof.
  intros Hnd.
  assert (Hlen : (length (List.filter (join_keys_match a) po) <= 1)%nat).
  { apply (filter_unique_key po_key
             (invoice_to_po_key (Inv.invoice_id a), Inv.vendor_id a, Inv.currency a));
      [|assumption].
    intros q Hq. apply join_keys_match_iff in Hq as (H1 & H2 & H3).
    unfold po_key. congruence. }
  unfold merge_one. destruct (List.filter (join_keys_match a) po) as [|q [|q' qs]].
  - eexists. split; reflexivity.
  - eexists. split; reflexivity.
  - cbn in Hlen. lia.
Qed.

Lemma zip_break_link_ids (mask : list bool) (df : list LinkedPair) :
  length mask = length df ->
  map Linked.invoice_id (zip_with break_link mask df) = map Linked.invoice_id df.
Proof.
  revert mask. induction df as [|r df IH]; intros [|b mask]; cbn;
    try discriminate; try reflexivity.
  intros [= Hlen]. f_equal; [destruct b; reflexivity | now apply IH].
Qed.

Lemma merge_left_length_ge inv_agg po :
  (length inv_agg <= length (merge_left inv_agg po))%nat.
Proof.
  unfold merge_left. induction inv_agg as [|a l IH]; cbn; [lia|].
  rewrite length_app. destruct (merge_one_ids po a) as [_ H1]. lia.
Qed.

Lemma merge_left_ids_unique inv_agg po :
  NoDup (map po_key po) ->
  map Linked.invoice_id (merge_left inv_agg po) = map Inv.invoice_id inv_agg.
Proof.
  intros Hnd. unfold merge_left.
  induction inv_agg as [|a l IH]; cbn; [reflexivity|].
  destruct (merge_one_single po a Hnd) as (r & -> & Hr).
  cbn. now rewrite Hr, IH.
Qed.

(** X8: the left join of [build_links] keeps every invoice: the frame has at
    least one row for each invoice and no row for anything else.  When no two
    purchase orders share purchase-order number, vendor and currency, the
    frame has exactly one row for each invoice, in the order of the invoices
    (masked rows included: a broken link keeps its row). *)
Theorem build_links_rows_per_invoice `{NpRandom}
    (inv_agg : list AggregatedInvoice) (po : list PurchaseOrderRecord) (g : rng_state) :
  (length inv_agg <= length (fst (build_links inv_agg po g)))%nat
  /\ (forall a, In a inv_agg ->
        exists r, In r (fst (build_links inv_agg po g))
                  /\ Linked.invoice_id r = Inv.invoice_id a)
  /\ (forall r, In r (fst (build_links inv_agg po g)) ->
        exists a, In a inv_agg /\ Linked.invoice_id r = Inv.invoice_id a)
  /\ (NoDup (map po_key po) ->
      map Linked.invoice_id (fst (build_links inv_agg po g))
      = map Inv.invoice_id inv_agg).
Proof.
  rewrite build_links_eq.
  assert (Hmask : length (link_mask (length (merge_left inv_agg po)))
                  = length (merge_left inv_agg po))
    by (unfold link_mask; apply random_mask_length).
  pose proof (zip_break_link_ids _ _ Hmask) as Hids.
  assert (Hlen : length (zip_with break_link (link_mask (length (merge_left inv_agg po)))
                           (merge_left inv_agg po))
                 = length (merge_left inv_agg po)).
  { rewrite length_zip_with. lia. }
  split; [|split; [|split]].
  - rewrite Hlen. apply merge_left_length_ge.
  - intros a Ha.
    assert (Hid : In (Inv.invoice_id a) (map Linked.invoice_id (merge_left inv_agg po))).
    { unfold merge_left. apply in_map_iff.
      destruct (merge_one_ids po a) as [Hall H1].
      destruct (merge_one po a) as [|r rs] eqn:Hm; [cbn in H1; lia|].
      exists r. split.
      - apply Forall_cons in Hall as [Hr _]. exact Hr.
      - apply in_concat. exists (r :: rs). split; [|left; reflexivity].
        rewrite <- Hm. now apply in_map. }
    rewrite <- Hids in Hid. apply in_map_iff in Hid as (r & Hr & Hin). eauto.
  - intros r Hr.
    assert (Hid : In (Linked.invoice_id r) (map Linked.invoice_id (merge_left inv_agg po))).
    { rewrite <- Hids. now apply in_map. }
    apply in_map_iff in Hid as (j & Hj & Hin).
    apply merge_left_spec in Hin as (a & Ha & [[-> _] | (q & _ & _ & ->)]);
      exists a; split; auto.
  - intros Hnd. rewrite Hids. now apply merge_left_ids_unique.
Qed.

(** *** The guardrail, for the email drafter and for surplus arguments *)

Section GuardrailMore.

Context {R : NpRandom} {E : Environment}.

Lemma guardrail_email_drafter_unfold args g :
  guardrail_tool_call "email_drafter" args g
  = (py_assert (5 <=? length args)%nat
       "Email drafter requires: vendor_name, invoice_id, po_number, facts, status" ;;;
     py_assert (is_dict (nth 3 args ANone)) "Facts must be a dictionary" ;;;
     py_assert (is_status (nth 4 args ANone))
       ("Invalid status: " ++ arg_str (nth 4 args ANone)) ;;;
     py_try (email_drafter_tool args)
       (fun e => py_raise (RuntimeError
          ("Tool '" ++ "email_drafter" ++ "' execution failed: " ++ exn_str e)))) g.
Proof.
  unfold guardrail_tool_call, guardrail_tool_call_in.
  rewrite allowed_tools_lookup.
  rewrite (bool_decide_eq_false_2 ("matcher" = "email_drafter")) by discriminate.
  rewrite (bool_decide_eq_true_2 ("email_drafter" = "email_drafter")) by reflexivity.
  rewrite (bool_decide_eq_false_2 ("email_drafter" = "matcher")) by discriminate.
  unfold py_bind.
  destruct (py_assert (5 <=? length args)%nat _ g) as [[[]|e] g1]; [|reflexivity].
  destruct (py_assert (is_dict (nth 3 args ANone)) _ g1) as [[[]|e] g2]; reflexivity.
Qed.

Lemma is_status_iff (a : pyarg) : is_status a = true <-> exists s, a = AStr s /\ In s STATUSES.
Proof.
  destruct a as [s| | |]; cbn [is_status].
  - rewrite bool_decide_eq_true, list_elem_of_In. split; [eauto|].
    now intros (s' & [= <-] & Hs).
  - split; [discriminate | intros (s & Hs & _); discriminate].
  - split; [discriminate | intros (s & Hs & _); discriminate].
  - split; [discriminate | intros (s & Hs & _); discriminate].
Qed.

Lemma guardrail_email_drafter_ok vendor_name invoice_id po_number f s g :
  In s STATUSES ->
  guardrail_tool_call "email_drafter"
    [vendor_name; invoice_id; po_number; ADict f; AStr s] g
  = (Ok (OStr (draft_dispute_email (arg_str vendor_name) (arg_str invoice_id)
                 (arg_str po_number) f s)), g).
Proof.
  intros Hs. rewrite guardrail_email_drafter_unfold.
  assert (Hst : is_status (AStr s) = true) by (apply is_status_iff; eauto).
  unfold py_bind. cbn [length Nat.leb nth is_dict py_assert py_ret].
  rewrite Hst. reflexivity.
Qed.


(** X10: both arity checks of the guardrail are lower bounds.  A matcher call
    with more than four arguments, the first four strings, and an email-drafter
    call with more than five, the fourth a dictionary and the fifth a status,
    pass the checks and fail in the call itself; the guardrail reports them as
    a failed execution of the tool.  A matcher call with four arguments of
    which one is not a string is refused by the type check. *)
Theorem guardrail_surplus_arguments :
  (forall a b c d x rest g,
     exists msg,
       guardrail_tool_call "matcher" (AStr a :: AStr b :: AStr c :: AStr d :: x :: rest) g
       = (Raise (RuntimeError ("Tool 'matcher' execution failed: " ++ msg)), g))
  /\ (forall v i p f s x rest g,
        In s STATUSES ->
        exists msg,
          guardrail_tool_call "email_drafter"
            (v :: i :: p :: ADict f :: AStr s :: x :: rest) g
          = (Raise (RuntimeError ("Tool 'email_drafter' execution failed: " ++ msg)), g))
  /\ (forall a b c d g,
        forallb is_str [a; b; c; d] = false ->
        guardrail_tool_call "matcher" [a; b; c; d] g
        = (Raise (AssertionError "All matcher args must be strings"), g)).
Proof.
  split; [|split].
  - intros. eexists. unfold guardrail_tool_call, guardrail_tool_call_in.
    rewrite allowed_tools_lookup.
    rewrite (bool_decide_eq_true_2 ("matcher" = "matcher")) by reflexivity.
    reflexivity.
  - intros v i p f s x rest g Hs. eexists. rewrite guardrail_email_drafter_unfold.
    assert (Hst : is_status (AStr s) = true) by (apply is_status_iff; eauto).
    unfold py_bind. cbn [length Nat.leb nth is_dict py_assert py_ret].
    rewrite Hst. reflexivity.
  - intros a b c d g Hstr. unfold guardrail_tool_call, guardrail_tool_call_in.
    rewrite allowed_tools_lookup.
    rewrite (bool_decide_eq_true_2 ("matcher" = "matcher")) by reflexivity.
    unfold py_bind. cbn [length Nat.leb firstn py_assert py_ret].
    now rewrite Hstr.
Qed.

End GuardrailMore.

(** *** A whole run of the workflow *)

Section Run.

Context {R : NpRandom} {E : Environment}.

Lemma py_map_run {A B} (f : A -> Py B) (xs : list A) (g : rng_state) ys g' :
  py_map f xs g = (Ok ys, g') ->
  Forall2 (fun x y => exists g1 g2, f x g1 = (Ok y, g2)) xs ys.
Proof.
  revert g ys. induction xs as [|x xs IH]; intros g ys; cbn.
  - intros [= <- _]. constructor.
  - unfold py_bind at 1. destruct (f x g) as [[y|e] g1] eqn:Hf; [|discriminate].
    unfold py_bind at 1. destruct (py_map f xs g1) as [[ys'|e] g2] eqn:Hm;
      [|discriminate].
    cbn. intros [= <- <-]. constructor; [exists g, g1; exact Hf | exact (IH _ _ Hm)].
Qed.

Lemma py_map_total {A B} (f : A -> Py B) (xs : list A) :
  Forall (fun x => forall g, exists y g', f x g = (Ok y, g')) xs ->
  forall g, exists ys g', py_map f xs g = (Ok ys, g').
Proof.
  induction 1 as [|x xs Hx _ IH]; intros g; cbn; [eexists _, _; reflexivity|].
  destruct (Hx g) as (y & g1 & Hy). destruct (IH g1) as (ys & g2 & Hys).
  unfold py_bind. rewrite Hy, Hys. eexists _, _. reflexivity.
Qed.

Lemma reconcile_task_run (context : Ctx.t) (t t' : Task.t) g g' :
  reconcile_task context t g = (Ok t', g') ->
  exists mr,
    fst (call_matcher (Task.invoice_id t) (Task.po_number t)
           (Ctx.data_dir context) (Ctx.model_path context) g) = Ok mr
    /\ t' = {| Task.invoice_id := Task.invoice_id t;
               Task.po_number := Task.po_number t;
               Task.vendor_name := Task.vendor_name t;
               Task.match_result := Some mr;
               Task.email_reason := Some (snd (email_decision mr (min_conf_of context)));
               Task.needs_email := Some (fst (email_decision mr (min_conf_of context)));
               Task.email_draft := Task.email_draft t |}.
Proof.
  unfold reconcile_task. unfold py_bind at 1.
  rewrite guardrail_matcher_four_strings.
  destruct (call_matcher _ _ _ _ g) as [[mr|e] g1]; [|discriminate].
  destruct (email_decision mr (min_conf_of context)) as [flag reason] eqn:Hd.
  cbn. intros [= <- _]. exists mr. split; [reflexivity|]. now rewrite Hd.
Qed.

Lemma email_task_run (t : Task.t) (mr : MatchResult) (flag : bool) g :
  Task.match_result t = Some mr -> In (status mr) STATUSES ->
  Task.needs_email t = Some flag ->
  email_task t g
  = (Ok {| Task.invoice_id := Task.invoice_id t;
           Task.po_number := Task.po_number t;
           Task.vendor_name := Task.vendor_name t;
           Task.match_result := Task.match_result t;
           Task.email_reason := Task.email_reason t;
           Task.needs_email := Task.needs_email t;
           Task.email_draft :=
             Some (if flag
                   then Some (draft_dispute_email (Task.vendor_name t)
                                (Task.invoice_id t) (Task.po_number t)
                                (facts mr) (status mr))
                   else None) |}, g).
Proof.
  intros Hmr Hst Hflag. unfold email_task. rewrite Hflag, Hmr.
  destruct flag; [|reflexivity].
  unfold py_bind.
  rewrite (guardrail_email_drafter_ok _ _ _ _ _ g Hst). reflexivity.
Qed.

End Run.

Lemma approval_gate_run (context : Ctx.t) (ts : list Task.t) :
  Ctx.tasks context = Some ts ->
  Forall (fun t => exists mr, Task.match_result t = Some mr) ts ->
  approval_gate context
  = Ok {| Ctx.data_dir := Ctx.data_dir context;
          Ctx.model_path := Ctx.model_path context;
          Ctx.invoices := Ctx.invoices context;
          Ctx.min_conf := Ctx.min_conf context;
          Ctx.tasks := Some ts;
          Ctx.summary := Some (summary_of ts);
          Ctx.status :=
            Some (if Summary.approval_required (summary_of ts)
                  then "APPROVAL_AWAITING" else "COMPLETED") |}.
Proof.
  intros Hts Hall. unfold approval_gate. rewrite Hts.
  destruct (task_statuses_total ts Hall) as [statuses Hst]. rewrite Hst.
  cbn [Summary.approval_required].
  rewrite !(task_statuses_count _ _ _ Hst). reflexivity.
Qed.

Lemma reconciled_ok_flags (t : Task.t) :
  reconciled_ok t ->
  (has_status "match" t = true /\ has_status "partial" t = false
   /\ has_status "mismatch" t = false)
  \/ (has_status "match" t = false /\ has_status "partial" t = true
      /\ has_status "mismatch" t = false /\ needs_email_flag t = true)
  \/ (has_status "match" t = false /\ has_status "partial" t = false
      /\ has_status "mismatch" t = true /\ needs_email_flag t = true).
Proof.
  intros (mr & Hmr & Hst & Hflag). unfold has_status, needs_email_flag.
  rewrite Hmr, Hflag. unfold email_decision.
  destruct Hst as [Hs | [Hs | [Hs | []]]]; rewrite <- Hs.
  - left. repeat split; reflexivity.
  - right. left. repeat split; reflexivity.
  - right. right. repeat split; reflexivity.
Qed.

Lemma reconciled_ok_counts (ts : list Task.t) :
  Forall reconciled_ok ts ->
  (count_tasks (has_status "match") ts + count_tasks (has_status "partial") ts
   + count_tasks (has_status "mismatch") ts = length ts)%nat
  /\ (count_tasks (has_status "partial") ts + count_tasks (has_status "mismatch") ts
      <= count_tasks needs_email_flag ts)%nat.
Proof.
  unfold count_tasks.
  induction 1 as [|t ts Ht _ [IH1 IH2]]; cbn [List.filter length]; [lia|].
  destruct (reconciled_ok_flags t Ht)
    as [(-> & -> & ->) | [(-> & -> & -> & ->) | (-> & -> & -> & ->)]];
    [destruct (needs_email_flag t)| |]; cbn [length]; lia.
Qed.

Section RunFacts.

Context {R : NpRandom} {E : Environment}.

Lemma run_tasks_chain (context : Ctx.t) (invoices : list Item.t) (ts1 ts2 : list Task.t) :
  min_conf_of context = 75 # 100 ->
  Forall2 (fun t t1 => exists g1 g2, reconcile_task context t g1 = (Ok t1, g2))
    (map (fun item =>
            {| Task.invoice_id := Item.invoice_id item;
               Task.po_number := Item.po_number item;
               Task.vendor_name := Item.vendor_name item;
               Task.match_result := None; Task.email_reason := None;
               Task.needs_email := None; Task.email_draft := None |}) invoices) ts1 ->
  Forall2 (fun t1 t2 => exists g1 g2, email_task t1 g1 = (Ok t2, g2)) ts1 ts2 ->
  Forall2 run_task invoices ts2.
Proof.
  intros Hmin. revert ts1 ts2.
  induction invoices as [|item invoices IH]; intros ts1 ts2 H1 H2; cbn in H1.
  - inversion H1; subst. inversion H2; subst. constructor.
  - inversion H1 as [|t t1 l ts1' (ga & gb & Hrec) Hrest1]; subst.
    inversion H2 as [|t1' t2 l' ts2' (gc & gd & Hmail) Hrest2]; subst.
    constructor; [|eapply IH; eauto].
    apply reconcile_task_run in Hrec as (mr & Hcall & ->).
    pose proof (call_matcher_status _ _ _ _ _ _ Hcall) as Hst.
    rewrite Hmin in Hmail.
    match type of Hmail with
    | email_task ?t1 _ = _ =>
        rewrite (email_task_run t1 mr (fst (email_decision mr (75 # 100))) gc
                   eq_refl Hst eq_refl) in Hmail
    end.
    injection Hmail as <- _. cbn.
    repeat (split; [reflexivity|]).
    exists mr, (fst (email_decision mr (75 # 100))).
    repeat (split; [reflexivity || assumption|]). reflexivity.
Qed.

Lemma run_task_reconciled (item : Item.t) (t : Task.t) :
  run_task item t -> reconciled_ok t.
Proof.
  intros (_ & _ & _ & mr & flag & Hmr & Hst & Hflag & _ & -> & _).
  exists mr. auto.
Qed.

(** The outcome of a run that returns. *)
Lemma agent_run_inv data_dir model_path invoices g context :
  fst (agent_run data_dir model_path invoices g) = Ok context ->
  exists ts,
    Forall2 run_task invoices ts
    /\ context
       = {| Ctx.data_dir := data_dir; Ctx.model_path := model_path;
            Ctx.invoices := invoices; Ctx.min_conf := Some (75 # 100);
            Ctx.tasks := Some ts; Ctx.summary := Some (summary_of ts);
            Ctx.status :=
              Some (if Summary.approval_required (summary_of ts)
                    then "APPROVAL_AWAITING" else "COMPLETED") |}.
Proof.
  unfold agent_run, planner_node, update_tasks. cbn [Ctx.data_dir Ctx.model_path
    Ctx.invoices Ctx.min_conf Ctx.tasks Ctx.summary Ctx.status].
  fold (planned_context data_dir model_path invoices).
  set (c1 := planned_context data_dir model_path invoices).
  unfold py_bind at 1. unfold reconcile_node at 1. cbn [tasks_of c1 planned_context Ctx.tasks].
  destruct (py_map (reconcile_task c1) _ g) as [[ts1|e] g1] eqn:Hrec; [|discriminate].
  unfold py_bind at 1. unfold email_node at 1. cbn [tasks_of Ctx.tasks].
  destruct (py_map email_task ts1 g1) as [[ts2|e] g2] eqn:Hmail; [|discriminate].
  apply py_map_run in Hrec, Hmail.
  pose proof (run_tasks_chain c1 invoices ts1 ts2 eq_refl Hrec Hmail) as Hrun.
  assert (Hall : Forall (fun t => exists mr, Task.match_result t = Some mr) ts2).
  { clear -Hrun. induction Hrun as [|item t l l' Ht _ IH]; constructor; [|exact IH].
    destruct Ht as (_ & _ & _ & mr & flag & Hmr & _). eauto. }
  erewrite approval_gate_run; [|reflexivity|exact Hall].
  cbn. intros [= <-]. exists ts2. split; [exact Hrun | reflexivity].
Qed.

End RunFacts.

Section RunClaims.

Context {R : NpRandom} {E : Environment}.

Lemma run_tasks_fields (invoices : list Item.t) (ts : list Task.t) :
  Forall2 run_task invoices ts ->
  map Task.invoice_id ts = map Item.invoice_id invoices
  /\ map Task.po_number ts = map Item.po_number invoices
  /\ map Task.vendor_name ts = map Item.vendor_name invoices
  /\ length ts = length invoices
  /\ Forall reconciled_ok ts.
Proof.
  induction 1 as [|item t l l' Ht _ (I1 & I2 & I3 & I4 & I5)]; cbn.
  - repeat split; constructor.
  - pose proof (run_task_reconciled _ _ Ht) as Hok.
    destruct Ht as (H1 & H2 & H3 & _).
    rewrite H1, H2, H3, I1, I2, I3, I4. repeat split. now constructor.
Qed.

(** X11: a run that returns has one task for each entry of the batch, in the
    order of the batch and with its invoice number, purchase-order number and
    vendor name; the context still holds the two paths and the batch, the
    threshold is 0.75, and the summary counts as many invoices as the batch
    has entries. *)
Theorem agent_run_keeps_batch data_dir model_path invoices g context :
  fst (agent_run data_dir model_path invoices g) = Ok context ->
  Ctx.data_dir context = data_dir /\ Ctx.model_path context = model_path
  /\ Ctx.invoices context = invoices /\ Ctx.min_conf context = Some (75 # 100)
  /\ exists ts s,
       Ctx.tasks context = Some ts /\ Ctx.summary context = Some s
       /\ map Task.invoice_id ts = map Item.invoice_id invoices
       /\ map Task.po_number ts = map Item.po_number invoices
       /\ map Task.vendor_name ts = map Item.vendor_name invoices
       /\ Summary.total_invoices s = length invoices.
Proof.
  intros Hrun. apply agent_run_inv in Hrun as (ts & Hts & ->).
  destruct (run_tasks_fields _ _ Hts) as (H1 & H2 & H3 & H4 & _).
  cbn. repeat (split; [reflexivity|]).
  exists ts, (summary_of ts). repeat (split; [reflexivity || assumption|]).
  exact H4.
Qed.

(** X12: in a run that returns, a task carries an email draft exactly when
    its flag [needs_email] is true; the draft is the text of
    [draft_dispute_email] for the task's vendor, invoice, purchase order,
    facts and status, and a task without flag carries the empty draft.  The
    summary's [emails_to_send] is the number of tasks that carry a draft. *)
Theorem agent_run_drafts_follow_flags data_dir model_path invoices g context :
  fst (agent_run data_dir model_path invoices g) = Ok context ->
  exists ts s,
    Ctx.tasks context = Some ts /\ Ctx.summary context = Some s
    /\ Forall (fun t =>
                 exists mr flag,
                   Task.match_result t = Some mr
                   /\ Task.needs_email t = Some flag
                   /\ (flag = true ->
                       Task.email_draft t
                       = Some (Some (draft_dispute_email (Task.vendor_name t)
                                       (Task.invoice_id t) (Task.po_number t)
                                       (facts mr) (status mr))))
                   /\ (flag = false -> Task.email_draft t = Some None)
                   /\ has_draft t = flag) ts
    /\ Summary.emails_to_send s = count_tasks has_draft ts.
Proof.
  intros Hrun. apply agent_run_inv in Hrun as (ts & Hts & ->).
  exists ts, (summary_of ts). split; [reflexivity|]. split; [reflexivity|].
  assert (Hall : Forall (fun t =>
                           exists mr flag,
                             Task.match_result t = Some mr
                             /\ Task.needs_email t = Some flag
                             /\ (flag = true ->
                                 Task.email_draft t
                                 = Some (Some (draft_dispute_email (Task.vendor_name t)
                                                 (Task.invoice_id t) (Task.po_number t)
                                                 (facts mr) (status mr))))
                             /\ (flag = false -> Task.email_draft t = Some None)
                             /\ has_draft t = flag) ts).
  { clear -Hts. induction Hts as [|item t l l' Ht _ IH]; constructor; [|exact IH].
    destruct Ht as (H1 & H2 & H3 & mr & flag & Hmr & _ & Hflag & _ & _ & Hdraft).
    exists mr, flag. split; [exact Hmr|]. split; [exact Hflag|].
    unfold has_draft. rewrite Hdraft, H1, H2, H3.
    destruct flag; repeat split; congruence. }
  split; [exact Hall|].
  cbn [summary_of Summary.emails_to_send]. unfold count_tasks.
  clear -Hall. induction Hall as [|t ts (mr & flag & _ & Hflag & _ & _ & Hd) _ IH];
    [reflexivity|].
  cbn [List.filter]. unfold needs_email_flag at 1. rewrite Hflag, Hd.
  destruct flag; cbn [length]; now rewrite IH.
Qed.

(** X13: in a run that returns, the three status counts of the summary add
    up to the number of invoices, every partial and every mismatch is among
    the emails to send, and the final status is COMPLETED exactly when no
    email is to be sent, that is when every task is a match with a confidence
    of at least 0.75; otherwise it is APPROVAL_AWAITING. *)
Theorem agent_run_summary_partition data_dir model_path invoices g context :
  fst (agent_run data_dir model_path invoices g) = Ok context ->
  exists ts s,
    Ctx.tasks context = Some ts /\ Ctx.summary context = Some s
    /\ (Summary.clean_matches s + Summary.partial_matches s + Summary.mismatches s
        = Summary.total_invoices s)%nat
    /\ (Summary.partial_matches s + Summary.mismatches s
        <= Summary.emails_to_send s)%nat
    /\ (Ctx.status context = Some "COMPLETED"
        \/ Ctx.status context = Some "APPROVAL_AWAITING")
    /\ (Ctx.status context = Some "COMPLETED" <-> Summary.emails_to_send s = 0%nat)
    /\ (Ctx.status context = Some "COMPLETED"
        <-> Forall (fun t =>
                      exists mr,
                        Task.match_result t = Some mr /\ status mr = "match"
                        /\ (75 # 100 <= confidence mr)%Q) ts).
Proof.
  intros Hrun. apply agent_run_inv in Hrun as (ts & Hts & ->).
  destruct (run_tasks_fields _ _ Hts) as (_ & _ & _ & _ & Hok).
  destruct (reconciled_ok_counts ts Hok) as [Hsum Hle].
  exists ts, (summary_of ts). split; [reflexivity|]. split; [reflexivity|].
  cbn [summary_of Summary.clean_matches Summary.partial_matches Summary.mismatches
       Summary.total_invoices Summary.emails_to_send Summary.approval_required
       Ctx.status].
  split; [exact Hsum|]. split; [exact Hle|].
  assert (Hreq : (0 <? count_tasks needs_email_flag ts)%nat
                 || (0 <? count_tasks (has_status "mismatch") ts)%nat = false
                 <-> count_tasks needs_email_flag ts = 0%nat).
  { rewrite orb_false_iff, !Nat.ltb_ge. lia. }
  assert (Hstatus : Some (if (0 <? count_tasks needs_email_flag ts)%nat
                             || (0 <? count_tasks (has_status "mismatch") ts)%nat
                          then "APPROVAL_AWAITING" else "COMPLETED")
                    = Some "COMPLETED"
                    <-> count_tasks needs_email_flag ts = 0%nat).
  { rewrite <- Hreq. destruct (_ || _); split; congruence. }
  split; [destruct (_ || _); auto|]. split; [exact Hstatus|].
  rewrite Hstatus. unfold count_tasks. clear -Hok.
  induction Hok as [|t ts (mr & Hmr & Hst & Hflag) _ IH]; cbn [List.filter].
  - split; [constructor | reflexivity].
  - unfold needs_email_flag at 1. rewrite Hflag.
    pose proof (email_decision_flag mr (75 # 100) Hst) as Hdec.
    destruct (fst (email_decision mr (75 # 100))) eqn:Hd; cbn [length].
    + split; [discriminate|]. intros Hall. exfalso.
      apply Forall_cons in Hall as [(mr' & Hmr' & Hm & Hc) _].
      rewrite Hmr in Hmr'. injection Hmr' as <-.
      destruct Hdec as [Hdec _]. specialize (Hdec eq_refl).
      destruct Hdec as [Hx | [Hx | [_ Hlt]]]; try congruence.
      exact (Qlt_not_le _ _ Hlt Hc).
    + rewrite IH. split.
      * intros Hall. constructor; [|exact Hall].
        exists mr. split; [exact Hmr|].
        assert (Hm : status mr = "match").
        { destruct Hst as [Hs | [Hs | [Hs | []]]]; [now symmetry| |];
            exfalso; assert (false = true) by (apply Hdec; auto); discriminate. }
        split; [exact Hm|].
        apply Qnot_lt_le. intros Hlt.
        assert (false = true) by (apply Hdec; auto). discriminate.
      * intros Hall. now apply Forall_cons in Hall as [_ Hall].
Qed.

(** The empty batch: whatever the data directory and the model path,
    [agent_run] on no invoice returns at once with no task and a summary of
    zeros, and it leaves the generator as it was. *)
Lemma agent_run_empty_batch data_dir model_path g :
  agent_run data_dir model_path [] g
  = (Ok {| Ctx.data_dir := data_dir; Ctx.model_path := model_path;
           Ctx.invoices := []; Ctx.min_conf := Some (75 # 100);
           Ctx.tasks := Some [];
           Ctx.summary :=
             Some {| Summary.total_invoices := 0; Summary.clean_matches := 0;
                     Summary.partial_matches := 0; Summary.mismatches := 0;
                     Summary.emails_to_send := 0;
                     Summary.approval_required := false |};
           Ctx.status := Some "COMPLETED" |}, g).
Proof. reflexivity. Qed.

(** X14: with no model file at the model path, [agent_run] fails exactly
    on the batches that are not empty.  The empty batch completes, with no
    task, no approval required and the status COMPLETED: the model is loaded
    for each task, not for the run.  On any other batch the run raises at the
    first task: the [FileNotFoundError] of [score_invoice] comes back wrapped
    by the guardrail, naming the matcher and the path, nothing of the batch is
    returned, and the generator is left as it was (no data were read). *)
Theorem agent_run_missing_model data_dir model_path invoices g :
  models model_path = None ->
  (invoices = [] ->
   exists context,
     agent_run data_dir model_path invoices g = (Ok context, g)
     /\ Ctx.tasks context = Some []
     /\ Ctx.status context = Some "COMPLETED"
     /\ exists s, Ctx.summary context = Some s
                  /\ Summary.total_invoices s = 0%nat
                  /\ Summary.approval_required s = false)
  /\ (invoices <> [] ->
      agent_run data_dir model_path invoices g
      = (Raise (RuntimeError
                  ("Tool 'matcher' execution failed: Model not found at " ++ model_path
                   ++ ". Train D2 first to create matcher_model.pkl.")), g)).
Proof.
  intros Hm. split.
  { intros ->. rewrite agent_run_empty_batch. eexists. split; [reflexivity|].
    split; [reflexivity|]. split; [reflexivity|].
    eexists. split; [reflexivity|]. split; reflexivity. }
  intros Hne. destruct invoices as [|item rest]; [contradiction|].
  unfold agent_run, planner_node, update_tasks, py_bind at 1, reconcile_node.
  cbn [tasks_of Ctx.tasks Ctx.invoices map py_map].
  unfold py_bind at 1. unfold reconcile_task at 1. unfold py_bind at 1.
  rewrite guardrail_matcher_four_strings.
  unfold call_matcher, py_bind at 1, score_invoice.
  cbn [Ctx.model_path Ctx.data_dir]. rewrite Hm. reflexivity.
Qed.

End RunClaims.

Section RunReturns.

Context {R : NpRandom} {E : Environment}.

Lemma py_map_raise {A B} (f : A -> Py B) (xs : list A) (g : rng_state) (e : exn) :
  fst (py_map f xs g) = Raise e ->
  exists x g0, In x xs /\ fst (f x g0) = Raise e.
Proof.
  revert g. induction xs as [|x xs IH]; intros g; cbn; [discriminate|].
  unfold py_bind at 1. destruct (f x g) as [[y|e'] g1] eqn:Hf.
  - unfold py_bind at 1. destruct (py_map f xs g1) as [[ys|e'] g2] eqn:Hm;
      [discriminate|].
    cbn. intros [= <-].
    destruct (IH g1) as (x' & g0 & Hin & Hx); [now rewrite Hm|].
    exists x', g0. split; [now right | exact Hx].
  - cbn. intros [= <-]. exists x, g. split; [now left | now rewrite Hf].
Qed.

Lemma reconcile_task_raise (context : Ctx.t) (t : Task.t) g e :
  fst (reconcile_task context t g) = Raise e ->
  exists msg, e = RuntimeError ("Tool 'matcher' execution failed: " ++ msg).
Proof.
  unfold reconcile_task. unfold py_bind at 1.
  rewrite guardrail_matcher_four_strings.
  destruct (call_matcher _ _ _ _ g) as [[mr|e'] g1].
  - destruct (email_decision mr (min_conf_of context)). discriminate.
  - cbn. intros [= <-]. eexists. reflexivity.
Qed.

Lemma email_task_keeps (t1 t2 : Task.t) g g' :
  email_task t1 g = (Ok t2, g') ->
  Task.match_result t2 = Task.match_result t1
  /\ Task.needs_email t2 = Task.needs_email t1
  /\ Task.email_reason t2 = Task.email_reason t1.
Proof.
  unfold email_task.
  destruct (Task.needs_email t1) as [[|]|] eqn:Hn;
    try (intros [= <- _]; cbn; now auto).
  destruct (Task.match_result t1) as [mr|] eqn:Hm; [|discriminate].
  unfold py_bind.
  destruct (guardrail_tool_call _ _ g) as [[[s|mr']|e] g1]; try discriminate.
  intros [= <- _]. cbn. auto.
Qed.

(** X15: the matcher stage is the only stage of [agent_run] that can fail.
    When [reconcile_node] returns for the planned tasks, the run returns: the
    email stage and the approval gate cannot fail on tasks the matcher stage
    has written, and they leave the match result, the flag and the reason of
    every task as that stage wrote them.  When [reconcile_node] raises, the
    run raises the same exception, and it is the runtime error with which
    the guardrail reports a failed call of the matcher. *)
Theorem agent_run_fails_only_at_the_matcher data_dir model_path invoices g :
  (forall ts1,
     fst (reconcile_node (planned_context data_dir model_path invoices) g) = Ok ts1 ->
     exists context ts2,
       fst (agent_run data_dir model_path invoices g) = Ok context
       /\ Ctx.tasks context = Some ts2
       /\ Forall2 (fun t1 t2 =>
                     Task.match_result t2 = Task.match_result t1
                     /\ Task.needs_email t2 = Task.needs_email t1
                     /\ Task.email_reason t2 = Task.email_reason t1) ts1 ts2)
  /\ (forall e,
        fst (reconcile_node (planned_context data_dir model_path invoices) g) = Raise e ->
        fst (agent_run data_dir model_path invoices g) = Raise e
        /\ exists msg, e = RuntimeError ("Tool 'matcher' execution failed: " ++ msg)).
Proof.
  assert (Hshape :
            forall ts0, Ctx.tasks (planned_context data_dir model_path invoices) = Some ts0 ->
            agent_run data_dir model_path invoices g
            = match py_map (reconcile_task (planned_context data_dir model_path invoices))
                      ts0 g with
              | (Ok ts, g1) =>
                  match py_map email_task ts g1 with
                  | (Ok ts2, g2) =>
                      (match approval_gate
                               (update_tasks
                                  (update_tasks
                                     (planned_context data_dir model_path invoices) ts)
                                  ts2) with
                       | Ok context => py_ret context
                       | Raise e => py_raise e
                       end) g2
                  | (Raise e, g2) => (Raise e, g2)
                  end
              | (Raise e, g1) => (Raise e, g1)
              end).
  { intros ts0 [= <-]. reflexivity. }
  specialize (Hshape _ eq_refl). rewrite Hshape. clear Hshape.
  set (c1 := planned_context data_dir model_path invoices).
  unfold reconcile_node. cbn [tasks_of c1 planned_context Ctx.tasks].
  fold (planned_context data_dir model_path invoices). fold c1.
  destruct (py_map (reconcile_task c1) _ g) as [[ts|e0] g1] eqn:Hrec; cbn [fst].
  - split; [|intros e He; discriminate He].
    intros ts1 [= <-].
    pose proof (py_map_run _ _ _ _ _ Hrec) as Hrun1.
    assert (Hmail : forall g0, exists ts2 g2, py_map email_task ts g0 = (Ok ts2, g2)).
    { apply py_map_total. clear Hrec.
      induction Hrun1 as [|t t1 l l' (ga & gb & Ht) _ IH]; constructor; [|exact IH].
      intros g0. apply reconcile_task_run in Ht as (mr & Hcall & ->).
      pose proof (call_matcher_status _ _ _ _ _ _ Hcall) as Hst.
      eexists _, _.
      apply (email_task_run _ mr (fst (email_decision mr (min_conf_of c1))) g0);
        [reflexivity|exact Hst|reflexivity]. }
    destruct (Hmail g1) as (ts2 & g2 & Hm2). rewrite Hm2.
    pose proof (py_map_run _ _ _ _ _ Hm2) as Hrun2.
    pose proof (run_tasks_chain c1 invoices ts ts2 eq_refl Hrun1 Hrun2) as Hrun.
    assert (Hall : Forall (fun t => exists mr, Task.match_result t = Some mr) ts2).
    { clear -Hrun. induction Hrun as [|item t l l' Ht _ IH]; constructor; [|exact IH].
      destruct Ht as (_ & _ & _ & mr & flag & Hmr & _). eauto. }
    erewrite approval_gate_run; [|reflexivity|exact Hall].
    eexists _, ts2. split; [reflexivity|]. split; [reflexivity|].
    clear -Hrun2. induction Hrun2 as [|t1 t2 l l' (ga & gb & Ht) _ IH];
      constructor; [|exact IH].
    exact (email_task_keeps _ _ _ _ Ht).
  - split; [intros ts1 Hts; discriminate Hts|].
    intros e [= <-]. split; [reflexivity|].
    match type of Hrec with
    | py_map _ ?xs _ = _ =>
        destruct (py_map_raise (reconcile_task c1) xs g e0) as (t & g0 & _ & Ht);
          [now rewrite Hrec|]
    end.
    exact (reconcile_task_raise _ _ _ _ Ht).
Qed.

End RunReturns.

(** *** The email for a pair that is not found *)

Section NotFoundEmail.

Context {R : NpRandom} {E : Environment}.

(** X22: a pair [score_invoice] does not find is reconciled as a partial
    result without facts, always flagged for an email, and the email drafted
    for it is the "Review Required" text with the general compliance line in
    place of the issues; as the facts are empty, its details read from the
    defaults: amount delta 0, "Vendor Match: Yes", "GRN Available: Yes" and
    "PO Status: Found", although no purchase order was found. *)
Theorem reconcile_not_found_email (context : Ctx.t) (t : Task.t) g msg :
  fst (score_invoice (Ctx.data_dir context) (Ctx.model_path context)
         (Task.invoice_id t) (Task.po_number t) g) = Ok (NotFound msg) ->
  exists t1 g1 t2,
    reconcile_task context t g = (Ok t1, g1)
    /\ Task.needs_email t1 = Some true
    /\ Task.email_reason t1 = Some "Uncertain match requires clarification"
    /\ email_task t1 g1 = (Ok t2, g1)
    /\ Task.email_draft t2
       = Some (Some
           ("Subject: Review Required - Invoice " ++ Task.invoice_id t
            ++ " / PO " ++ Task.po_number t ++ nl
            ++ nl
            ++ "Dear " ++ Task.vendor_name t ++ "," ++ nl
            ++ nl
            ++ "We are reviewing your invoice and need clarification on the following items:" ++ nl
            ++ nl
            ++ "• General compliance review as part of our standard process" ++ nl
            ++ nl
            ++ "Invoice Details:" ++ nl
            ++ "- Invoice ID: " ++ Task.invoice_id t ++ nl
            ++ "- PO Number: " ++ Task.po_number t ++ nl
            ++ "- Amount Delta: $" ++ format_2f (Fin 0) ++ nl
            ++ "- Vendor Match: Yes" ++ nl
            ++ "- GRN Available: Yes" ++ nl
            ++ "- PO Status: Found" ++ nl
            ++ nl
            ++ "Please review and provide supporting documentation or confirmation within 7 business days." ++ nl
            ++ nl
            ++ "If you have any questions, please contact our Accounts Payable team at ap@acme-manufacturing.com or call (555) 123-4567." ++ nl
            ++ nl
            ++ "Best regards," ++ nl
            ++ "Accounts Payable Department" ++ nl
            ++ "Acme Manufacturing" ++ nl)).
Proof.
  intros Hnf. pose proof (call_matcher_not_found _ _ _ _ _ _ Hnf) as Hcall.
  unfold reconcile_task. unfold py_bind at 1.
  rewrite guardrail_matcher_four_strings.
  destruct (call_matcher _ _ _ _ g) as [r g1]. cbn [fst] in Hcall. subst r.
  cbn [email_decision status bool_decide decide_rel py_ret].
  eexists _, g1, _. split; [reflexivity|].
  split; [reflexivity|]. split; [reflexivity|]. split.
  - match goal with
    | |- email_task ?t1 _ = _ =>
        apply (email_task_run t1
                 {| status := "partial"; confidence := 5 # 10; facts := ∅;
                    explanation := "No features available for this pair." |}
                 true g1); [reflexivity | cbn; tauto | reflexivity]
    end.
  - cbn [Task.email_draft Task.vendor_name Task.invoice_id Task.po_number facts status].
    unfold draft_dispute_email, dict_get. rewrite !lookup_empty. reflexivity.
Qed.

End NotFoundEmail.

(** *** The explanation *)

(** X16: the explanation of a mismatch that rests on a material issue names
    at least one issue: it is the text "Mismatch detected: " followed by the
    issues joined with "; " and by the confidence, never the text kept for a
    mismatch the model alone suggests.  The tests of [build_explanation] and
    of [call_matcher] agree on what a material issue is. *)
Theorem build_explanation_names_material_issue `{Environment}
    (f : gmap string pyval) (c : Q) :
  has_material_issues f = true ->
  exists issue rest,
    build_explanation f "mismatch" c
    = "Mismatch detected: " ++ join "; " (issue :: rest)
      ++ ". Confidence: " ++ format_2f (Fin c).
Proof.
  unfold has_material_issues, build_explanation.
  rewrite (bool_decide_eq_true_2 ("mismatch" = "mismatch")) by reflexivity.
  destruct (truthy (dict_get f "po_missing" (PBool false)));
    destruct (truthy (dict_get f "vendor_match" (PBool true)));
    destruct (NpFloat.gt (to_float (dict_get f "amount_delta" (PFloat (Fin 0)))) (1 # 100));
    destruct (truthy (dict_get f "has_grn" (PBool true)));
    cbn [negb orb]; intros Hm; try discriminate Hm;
    cbn [concat app]; eexists _, _; reflexivity.
Qed.

(** *** The approval gate on any context *)

(** X17: [approval_gate] fails with a [KeyError] exactly when the context
    has no tasks or some task has no match result.  When it returns it
    changes only the summary and the status, so a second pass returns the
    same context. *)
Theorem approval_gate_keys_and_idempotence (context : Ctx.t) :
  (Ctx.tasks context = None <-> approval_gate context = Raise (KeyError "tasks"))
  /\ (forall ts, Ctx.tasks context = Some ts ->
        (Exists (fun t => Task.match_result t = None) ts
         <-> approval_gate context = Raise (KeyError "match_result")))
  /\ (forall context',
        approval_gate context = Ok context' ->
        Ctx.tasks context' = Ctx.tasks context
        /\ Ctx.data_dir context' = Ctx.data_dir context
        /\ Ctx.model_path context' = Ctx.model_path context
        /\ Ctx.invoices context' = Ctx.invoices context
        /\ Ctx.min_conf context' = Ctx.min_conf context
        /\ approval_gate context' = Ok context').
Proof.
  assert (Hst : forall ts,
            (exists ss, task_statuses ts = Ok ss
                        /\ Forall (fun t => exists mr, Task.match_result t = Some mr) ts)
            \/ (task_statuses ts = Raise (KeyError "match_result")
                /\ Exists (fun t => Task.match_result t = None) ts)).
  { induction ts as [|t ts IH]; cbn; [left; eauto|].
    destruct (Task.match_result t) as [mr|] eqn:Hmr.
    - destruct IH as [(ss & -> & Hall) | [-> Hex]].
      + left. eexists. split; [reflexivity|]. constructor; eauto.
      + right. split; [reflexivity | now constructor 2].
    - right. split; [reflexivity | now constructor]. }
  split; [|split].
  - unfold approval_gate. destruct (Ctx.tasks context) as [ts|].
    + split; [discriminate|].
      destruct (Hst ts) as [(ss & -> & _) | [-> _]]; discriminate.
    + tauto.
  - intros ts Hts. unfold approval_gate. rewrite Hts.
    destruct (Hst ts) as [(ss & -> & Hall) | [-> Hex]]; [|tauto].
    split; [|discriminate]. intros Hex. exfalso.
    apply Exists_exists in Hex as (t & Ht & Hnone).
    rewrite Forall_forall in Hall. destruct (Hall t Ht) as [mr Hmr]. congruence.
  - intros context' Hrun. unfold approval_gate in Hrun.
    destruct (Ctx.tasks context) as [ts|] eqn:Hts; [|discriminate].
    destruct (Hst ts) as [(ss & Hss & Hall) | [Hr _]];
      rewrite ?Hss, ?Hr in Hrun; [|discriminate].
    injection Hrun as <-. cbn [Ctx.tasks Ctx.data_dir Ctx.model_path Ctx.invoices
                                Ctx.min_conf].
    repeat (split; [reflexivity|]).
    unfold approval_gate. cbn [Ctx.tasks Ctx.data_dir Ctx.model_path Ctx.invoices
                                Ctx.min_conf]. now rewrite Hss.
Qed.

(** *** The model artifact *)

(** X19: a model saved with [save_model] and read back with [load_model] is
    the same predictor, and its feature list is the one it was saved with, or
    [FEATURE_COLS] if it had none; other paths are untouched.  Whatever
    [load_model] returns has a feature list, so that saving and reloading it
    changes nothing.  A bare model read from a file always gets
    [FEATURE_COLS], whatever list it carried. *)
Theorem save_model_load_model_round_trip
    (clf : Classifier) (path : string) (files : gmap string artifact) :
  load_model path (save_model clf path files)
  = Ok (with_features clf (default FEATURE_COLS (features_used clf)))
  /\ (forall path', path' <> path ->
        load_model path' (save_model clf path files) = load_model path' files)
  /\ (forall m, load_model path files = Ok m ->
        (exists cols, features_used m = Some cols)
        /\ load_model path (save_model m path files) = Ok m)
  /\ load_model path (<[ path := BareModel clf ]> files)
     = Ok (with_features clf FEATURE_COLS)
  /\ (files !! path = None -> load_model path files = Raise (FileNotFoundError path)).
Proof.
  split; [|split; [|split; [|split]]].
  - unfold load_model, save_model. now rewrite lookup_insert_eq.
  - intros path' Hne. unfold load_model, save_model.
    now rewrite lookup_insert_ne by congruence.
  - intros m Hload.
    assert (Hm : exists x cols, m = with_features x cols).
    { unfold load_model in Hload.
      destruct (files !! path) as [[[x|] fs | x]|]; try discriminate;
        injection Hload as <-; eauto. }
    destruct Hm as (x & cols & ->). split; [cbn; eauto|].
    unfold load_model, save_model. now rewrite lookup_insert_eq.
  - unfold load_model. now rewrite lookup_insert_eq.
  - intros Hnone. unfold load_model. now rewrite Hnone.
Qed.

(** *** The aggregation of the invoice lines *)

Lemma ascii_order_laws : order_laws Ascii.compare.
Proof.
  split; unfold Ascii.compare.
  - intros x. apply N.compare_refl.
  - intros x y H. apply N.compare_eq_iff in H.
    rewrite <- (ascii_N_embedding x), <- (ascii_N_embedding y). now rewrite H.
  - intros x y z. rewrite !N.compare_lt_iff. apply N.lt_trans.
  - intros x y. rewrite N.compare_gt_iff, N.compare_lt_iff. tauto.
Qed.

Lemma string_order_laws : order_laws String.compare.
Proof.
  destruct ascii_order_laws as [Ar Ae At Af].
  split.
  - induction x as [|c s IH]; cbn; [reflexivity|]. now rewrite Ar.
  - induction x as [|c s IH]; intros [|c' s']; cbn; try discriminate; [reflexivity|].
    destruct (Ascii.compare c c') eqn:Hc; try discriminate.
    intros H. apply Ae in Hc as ->. now rewrite (IH _ H).
  - induction x as [|c s IH]; intros [|c' s'] [|c'' s'']; cbn;
      try discriminate; try reflexivity.
    destruct (Ascii.compare c c') eqn:H1; try discriminate;
      destruct (Ascii.compare c' c'') eqn:H2; try discriminate.
    + apply Ae in H1 as ->. rewrite H2. apply IH.
    + apply Ae in H1 as ->. now rewrite H2.
    + apply Ae in H2 as <-. now rewrite H1.
    + now rewrite (At _ _ _ H1 H2).
  - induction x as [|c s IH]; intros [|c' s']; cbn; try discriminate; [reflexivity|].
    destruct (Ascii.compare c c') eqn:Hc; try discriminate.
    + apply Ae in Hc as ->. rewrite Ar. apply IH.
    + intros _. now rewrite (Af _ _ Hc).
Qed.

Lemma pair_order_laws {A B : Type} (ca : A -> A -> comparison)
    (cb : B -> B -> comparison) :
  order_laws ca -> order_laws cb -> order_laws (pair_compare ca cb).
Proof.
  intros [Ar Ae At Af] [Br Be Bt Bf]. split; unfold pair_compare.
  - intros [a b]. cbn. now rewrite Ar.
  - intros [a b] [a' b']. cbn. destruct (ca a a') eqn:Ha; try discriminate.
    intros Hb. apply Ae in Ha. apply Be in Hb. congruence.
  - intros [a b] [a' b'] [a'' b'']. cbn.
    destruct (ca a a') eqn:H1; try discriminate;
      destruct (ca a' a'') eqn:H2; try discriminate.
    + apply Ae in H1 as ->. rewrite H2. apply Bt.
    + apply Ae in H1 as ->. now rewrite H2.
    + apply Ae in H2 as <-. now rewrite H1.
    + now rewrite (At _ _ _ H1 H2).
  - intros [a b] [a' b']. cbn. destruct (ca a a') eqn:Ha; try discriminate.
    + apply Ae in Ha as ->. rewrite Ar. apply Bf.
    + intros _. now rewrite (Af _ _ Ha).
Qed.

Lemma key_order_laws : order_laws key_compare.
Proof.
  unfold key_compare.
  repeat apply pair_order_laws; apply string_order_laws.
Qed.

Lemma insert_key_In (k k' : group_key) (ks : list group_key) :
  In k' (insert_key k ks) <-> k' = k \/ In k' ks.
Proof.
  destruct key_order_laws as [Kr Ke Kt Kf].
  induction ks as [|x ks IH]; cbn; [intuition congruence|].
  destruct (key_compare k x) eqn:Hc; cbn.
  - apply Ke in Hc as ->. intuition congruence.
  - intuition congruence.
  - rewrite IH. intuition congruence.
Qed.

Lemma insert_key_increasing (k : group_key) (ks : list group_key) :
  keys_increasing ks -> keys_increasing (insert_key k ks).
Proof.
  destruct key_order_laws as [Kr Ke Kt Kf]. unfold keys_increasing.
  induction ks as [|x ks IH]; cbn; intros Hs.
  - repeat constructor.
  - apply StronglySorted_inv in Hs as [Hs Hx].
    destruct (key_compare k x) eqn:Hc.
    + now constructor.
    + constructor; [now constructor|].
      constructor; [exact Hc|].
      rewrite List.Forall_forall in *. intros y Hy. eapply Kt; eauto.
    + constructor; [now apply IH|].
      rewrite List.Forall_forall in *. intros y Hy.
      apply insert_key_In in Hy as [-> | Hy]; [now apply Kf | now apply Hx].
Qed.

Lemma group_keys_spec (lines : list RawInvoiceLine) :
  keys_increasing (group_keys lines)
  /\ forall k, In k (group_keys lines) <-> exists l, In l lines /\ line_key l = Some k.
Proof.
  unfold group_keys.
  assert (Hgen : forall acc,
            keys_increasing acc ->
            keys_increasing
              (fold_left (fun ks l => match line_key l with
                                      | Some k => insert_key k ks
                                      | None => ks
                                      end) lines acc)
            /\ forall k,
                 In k (fold_left (fun ks l => match line_key l with
                                              | Some k => insert_key k ks
                                              | None => ks
                                              end) lines acc)
                 <-> In k acc \/ exists l, In l lines /\ line_key l = Some k).
  { induction lines as [|l lines IH]; intros acc Hacc; cbn [fold_left].
    - split; [exact Hacc|]. intros k. split; [auto|].
      intros [H | (l & [] & _)]. exact H.
    - destruct (line_key l) as [k0|] eqn:Hk.
      + destruct (IH (insert_key k0 acc) (insert_key_increasing _ _ Hacc)) as [Hs Hin].
        split; [exact Hs|]. intros k. rewrite Hin, insert_key_In. split.
        * intros [[-> | H] | (l' & Hl' & Hk')]; eauto.
          -- right. exists l. split; [now left | exact Hk].
          -- right. exists l'. split; [now right | exact Hk'].
        * intros [H | (l' & [<- | Hl'] & Hk')]; eauto.
          rewrite Hk in Hk'. injection Hk' as ->. auto.
      + destruct (IH acc Hacc) as [Hs Hin].
        split; [exact Hs|]. intros k. rewrite Hin. split.
        * intros [H | (l' & Hl' & Hk')]; eauto.
          right. exists l'. split; [now right | exact Hk'].
        * intros [H | (l' & [<- | Hl'] & Hk')]; eauto. congruence. }
  destruct (Hgen [] (SSorted_nil _)) as [Hs Hin].
  split; [exact Hs|]. intros k. rewrite Hin. cbn. tauto.
Qed.

Lemma keys_increasing_NoDup (ks : list group_key) : keys_increasing ks -> List.NoDup ks.
Proof.
  destruct key_order_laws as [Kr Ke Kt Kf]. unfold keys_increasing.
  induction 1 as [|k ks Hs IH Hk]; constructor; [|exact IH].
  intros Hin. rewrite List.Forall_forall in Hk. specialize (Hk k Hin).
  rewrite Kr in Hk. discriminate.
Qed.

Lemma group_lines_cons (k : group_key) (l : RawInvoiceLine) (ls : list RawInvoiceLine) :
  group_lines k (l :: ls)
  = if bool_decide (line_key l = Some k) then l :: group_lines k ls else group_lines k ls.
Proof. reflexivity. Qed.

Lemma Zsum_groups_cons (mu : RawInvoiceLine -> Z) (l : RawInvoiceLine) (k0 : group_key)
    (ls : list RawInvoiceLine) (ks : list group_key) :
  line_key l = Some k0 -> List.NoDup ks ->
  Zsum (map (fun k => Zsum (map mu (group_lines k (l :: ls)))) ks)
  = (if bool_decide (k0 ∈ ks) then mu l else 0)
    + Zsum (map (fun k => Zsum (map mu (group_lines k ls))) ks).
Proof.
  intros Hk. induction 1 as [|k ks Hnin Hnd IH]; cbn [map Zsum].
  - rewrite bool_decide_eq_false_2 by (rewrite list_elem_of_In; intros []). reflexivity.
  - fold (Zsum (map (fun k => Zsum (map mu (group_lines k (l :: ls)))) ks)).
    fold (Zsum (map (fun k => Zsum (map mu (group_lines k ls))) ks)).
    rewrite IH, group_lines_cons, Hk.
    destruct (decide (k0 = k)) as [->|Hne].
    + rewrite (bool_decide_eq_true_2 (Some k = Some k)) by reflexivity.
      rewrite (bool_decide_eq_true_2 (k ∈ k :: ks)) by (apply list_elem_of_In; now left).
      rewrite (bool_decide_eq_false_2 (k ∈ ks)) by (now rewrite list_elem_of_In).
      cbn [map Zsum]. fold (Zsum (map mu (group_lines k ls))). lia.
    + rewrite (bool_decide_eq_false_2 (Some k0 = Some k)) by congruence.
      assert (Hiff : k0 ∈ k :: ks <-> k0 ∈ ks)
        by (rewrite !list_elem_of_In; cbn; intuition congruence).
      rewrite (bool_decide_ext _ _ Hiff). lia.
Qed.

Lemma Zsum_groups_skip (mu : RawInvoiceLine -> Z) (l : RawInvoiceLine)
    (ls : list RawInvoiceLine) (ks : list group_key) :
  line_key l = None ->
  map (fun k => Zsum (map mu (group_lines k (l :: ls)))) ks
  = map (fun k => Zsum (map mu (group_lines k ls))) ks.
Proof.
  intros Hk. apply map_ext. intros k. rewrite group_lines_cons, Hk.
  now rewrite bool_decide_eq_false_2 by discriminate.
Qed.

(** Summing a measure group by group is summing it over the kept lines. *)
Lemma Zsum_by_group (mu : RawInvoiceLine -> Z) (lines : list RawInvoiceLine)
    (ks : list group_key) :
  List.NoDup ks ->
  (forall l k, In l lines -> line_key l = Some k -> In k ks) ->
  Zsum (map (fun k => Zsum (map mu (group_lines k lines))) ks)
  = Zsum (map mu (keyed_lines lines)).
Proof.
  intros Hnd. induction lines as [|l ls IH]; intros Hcover.
  - clear. induction ks as [|k ks IH]; [reflexivity|].
    cbn [map Zsum group_lines List.filter] in *. now rewrite IH.
  - unfold keyed_lines. cbn [List.filter].
    destruct (line_key l) as [k0|] eqn:Hk.
    + rewrite (Zsum_groups_cons mu l k0 ls ks Hk Hnd).
      rewrite bool_decide_eq_true_2
        by (apply list_elem_of_In; eapply Hcover; [now left | exact Hk]).
      cbn [map Zsum]. f_equal. apply IH.
      intros l' k Hl'. apply Hcover. now right.
    + rewrite (Zsum_groups_skip mu l ls ks Hk). apply IH.
      intros l' k Hl'. apply Hcover. now right.
Qed.

Lemma normalize_types_keys parse_date_safe (lines : list RawInvoiceLine) :
  map inv_group_key (normalize_types_inv_agg parse_date_safe lines) = group_keys lines.
Proof.
  unfold normalize_types_inv_agg. rewrite map_map.
  rewrite <- (map_id (group_keys lines)) at 2.
  apply map_ext. now intros [[[i v] n] c].
Qed.

Lemma normalize_types_column {B : Type} (col : AggregatedInvoice -> B)
    (agg : list RawInvoiceLine -> B) parse_date_safe (lines : list RawInvoiceLine) :
  (forall i v n c grp,
      col {| Inv.invoice_id := i; Inv.vendor_id := v; Inv.vendor_name := Some n;
             Inv.currency := c;
             Inv.invoice_total := Agg.sum (map Line.line_total grp);
             Inv.line_count := Agg.count (map Line.line_item_number grp);
             Inv.max_qty := Agg.maximum (map Line.quantity grp);
             Inv.avg_unit_price := Agg.mean (map Line.unit_price grp);
             Inv.invoice_date :=
               Agg.first (map (fun l => parse_date_safe (Line.invoice_date l)) grp) |}
      = agg grp) ->
  map col (normalize_types_inv_agg parse_date_safe lines)
  = map (fun k => agg (group_lines k lines)) (group_keys lines).
Proof.
  intros Hcol. unfold normalize_types_inv_agg. rewrite map_map.
  apply map_ext. intros [[[i v] n] c]. apply Hcol.
Qed.

Lemma StronglySorted_map_inv {A B : Type} (R : B -> B -> Prop) (f : A -> B) (xs : list A) :
  StronglySorted R (map f xs) -> StronglySorted (fun a b => R (f a) (f b)) xs.
Proof.
  induction xs as [|x xs IH]; cbn; intros Hs; [constructor|].
  apply StronglySorted_inv in Hs as [Hs Hx].
  constructor; [now apply IH|].
  rewrite List.Forall_forall in *. intros y Hy. apply Hx. now apply in_map.
Qed.

Lemma count_as_Zsum (ls : list RawInvoiceLine) :
  Agg.count (map Line.line_item_number ls) = Zsum (map numbered ls).
Proof.
  unfold Agg.count.
  induction ls as [|l ls IH]; [reflexivity|].
  cbn [map List.filter Zsum]. unfold numbered at 1.
  destruct (Line.line_item_number l); cbn [length]; lia.
Qed.

Lemma group_keys_cover (lines : list RawInvoiceLine) l k :
  In l lines -> line_key l = Some k -> In k (group_keys lines).
Proof.
  intros Hl Hk. apply (proj2 (group_keys_spec lines)). eauto.
Qed.

(** X20 (src/data.py, normalize_types): the aggregated frame has one row for
    each key (invoice, vendor, vendor name, currency) that some line carries
    with no null cell, and no other row; the rows come in the strictly
    increasing order of their keys, so no key occurs twice, and the vendor name
    of a row is never null; the line counts of the rows add up to the number
    of lines with a complete key and a line number, so a line with a null key
    cell is counted nowhere and every other line exactly once. *)
Theorem normalize_types_groups parse_date_safe (lines : list RawInvoiceLine) :
  let inv_agg := normalize_types_inv_agg parse_date_safe lines in
  StronglySorted (fun r r' => key_compare (inv_group_key r) (inv_group_key r') = Lt) inv_agg
  /\ List.NoDup (map inv_group_key inv_agg)
  /\ (forall r, In r inv_agg -> Inv.vendor_name r <> None)
  /\ (forall k, (exists r, In r inv_agg /\ inv_group_key r = k)
                <-> (exists l, In l lines /\ line_key l = Some k))
  /\ Zsum (map Inv.line_count inv_agg)
     = Agg.count (map Line.line_item_number (keyed_lines lines)).
Proof.
  intros inv_agg.
  pose proof (normalize_types_keys parse_date_safe lines) as Hkeys. fold inv_agg in Hkeys.
  destruct (group_keys_spec lines) as [Hs Hin].
  split; [|split; [|split; [|split]]].
  - apply (StronglySorted_map_inv (fun a b => key_compare a b = Lt) inv_group_key).
    rewrite Hkeys. exact Hs.
  - rewrite Hkeys. now apply keys_increasing_NoDup.
  - intros r Hr. unfold inv_agg, normalize_types_inv_agg in Hr.
    apply in_map_iff in Hr as ([[[i v] n] c] & <- & _). discriminate.
  - intros k. rewrite <- Hin, <- Hkeys, in_map_iff.
    split; intros (r & H1 & H2); exists r; tauto.
  - unfold inv_agg.
    rewrite (normalize_types_column Inv.line_count
               (fun grp => Agg.count (map Line.line_item_number grp)))
      by reflexivity.
    rewrite count_as_Zsum.
    rewrite <- (Zsum_by_group numbered lines (group_keys lines)).
    + f_equal. apply map_ext. intros k. apply count_as_Zsum.
    + now apply keys_increasing_NoDup.
    + apply group_keys_cover.
Qed.

(** ** Runs of the further properties *)

Lemma sample_run :
  fst (agent_run (H0 := Demo.environment) "data" "reports/matcher_model.pkl"
         Sample.batch Demo.g0)
  = Ok Sample.finished.
Proof. vm_compute. reflexivity. Qed.

Lemma sample_row :
  In Demo.short_row
     (fst (engineer_features
             [joined_row (Demo.invoice "INV0013" 80) (Demo.purchase_order "PO0013" 100)]
             Demo.g0)).
Proof. vm_compute. left. reflexivity. Qed.

(** X4 at the short pair: the invoice is 20 percent below the purchase order,
    so the percentage flag is set. *)
Lemma engineer_features_threshold_flags_run :
  In Demo.short_row
     (fst (engineer_features
             [joined_row (Demo.invoice "INV0013" 80) (Demo.purchase_order "PO0013" 100)]
             Demo.g0))
  /\ (exists c, Feat.amount_delta_pct Demo.short_row = Fin c /\ (5 # 100 < Qabs c)%Q)
  /\ ~ (Feat.invoice_before_po Demo.short_row = 1
        /\ Feat.invoice_too_late Demo.short_row = 1).
Proof.
  split; [exact sample_row|].
  destruct (engineer_features_threshold_flags _ Demo.g0 Demo.short_row sample_row)
    as (_ & _ & _ & _ & Hpct & _ & Hnot).
  split; [|exact Hnot]. apply Hpct. vm_compute. reflexivity.
Defined.

(** X5 at the clean pair. *)
Lemma score_invoice_finds_exact_links_only_run :
  fst (score_invoice (E := Demo.environment) "data" "reports/matcher_model.pkl"
         "INV0012" "PO0012" Demo.g0)
  = Ok (Found "match" (1 # 5) (facts_of_row Demo.clean_row))
  /\ "PO0012" = invoice_to_po_key "INV0012"
  /\ facts_of_row Demo.clean_row !! "po_missing" = Some (PBool false).
Proof.
  split; [exact demo_score_clean|].
  destruct (score_invoice_finds_exact_links_only (E := Demo.environment)
              "data" "reports/matcher_model.pkl" "INV0012" "PO0012" Demo.g0
              "match" (1 # 5) (facts_of_row Demo.clean_row) demo_score_clean)
    as (inv_agg & pos & a & q & _ & _ & _ & _ & _ & _ & Hkey & Hmissing).
  split; [exact Hkey | exact Hmissing].
Defined.

(** X6 at the short pair: the scorer says match, at a probability of 0.2, and
    the matcher says mismatch, for the amount. *)
Lemma call_matcher_status_ranges_run :
  fst (score_invoice (E := Demo.environment) "data" "reports/matcher_model.pkl"
         "INV0013" "PO0013" Demo.g0)
  = Ok (Found "match" (1 # 5) (facts_of_row Demo.short_row))
  /\ exists mr,
       fst (call_matcher (E := Demo.environment) "INV0013" "PO0013" "data"
              "reports/matcher_model.pkl" Demo.g0) = Ok mr
       /\ (status mr = "mismatch" ->
           confidence mr = 1 # 5
           /\ (has_material_issues (facts_of_row Demo.short_row) = true
               \/ (8 # 10 <= 1 # 5)%Q)).
Proof.
  split; [exact demo_score_short|].
  destruct (call_matcher_status_ranges (E := Demo.environment)
              "data" "reports/matcher_model.pkl" "INV0013" "PO0013" Demo.g0
              "match" (1 # 5) (facts_of_row Demo.short_row) demo_score_short)
    as (mr & Hcall & _ & _ & Hmis & _).
  exists mr. split; [exact Hcall | exact Hmis].
Defined.

(** X11 at the batch of three. *)
Lemma agent_run_keeps_batch_run :
  fst (agent_run (H0 := Demo.environment) "data" "reports/matcher_model.pkl"
         Sample.batch Demo.g0)
  = Ok Sample.finished
  /\ Ctx.invoices Sample.finished = Sample.batch
  /\ exists ts,
       Ctx.tasks Sample.finished = Some ts
       /\ map Task.invoice_id ts = map Item.invoice_id Sample.batch
       /\ map Task.po_number ts = map Item.po_number Sample.batch.
Proof.
  split; [exact sample_run|].
  destruct (agent_run_keeps_batch (E := Demo.environment)
              "data" "reports/matcher_model.pkl" Sample.batch Demo.g0
              Sample.finished sample_run)
    as (_ & _ & Hinv & _ & ts & s & Hts & _ & Hid & Hpo & _).
  split; [exact Hinv|]. exists ts. auto.
Defined.

(** X12 at the batch of three: two drafts. *)
Lemma agent_run_drafts_follow_flags_run :
  fst (agent_run (H0 := Demo.environment) "data" "reports/matcher_model.pkl"
         Sample.batch Demo.g0)
  = Ok Sample.finished
  /\ exists ts s,
       Ctx.tasks Sample.finished = Some ts /\ Ctx.summary Sample.finished = Some s
       /\ Summary.emails_to_send s = count_tasks has_draft ts.
Proof.
  split; [exact sample_run|].
  destruct (agent_run_drafts_follow_flags (E := Demo.environment)
              "data" "reports/matcher_model.pkl" Sample.batch Demo.g0
              Sample.finished sample_run)
    as (ts & s & Hts & Hs & _ & Hcount).
  exists ts, s. auto.
Defined.

(** X13 at the batch of three: one match, one partial, one mismatch. *)
Lemma agent_run_summary_partition_run :
  fst (agent_run (H0 := Demo.environment) "data" "reports/matcher_model.pkl"
         Sample.batch Demo.g0)
  = Ok Sample.finished
  /\ exists s,
       Ctx.summary Sample.finished = Some s
       /\ (Summary.clean_matches s + Summary.partial_matches s + Summary.mismatches s
           = Summary.total_invoices s)%nat
       /\ (Ctx.status Sample.finished = Some "COMPLETED"
           <-> Summary.emails_to_send s = 0%nat).
Proof.
  split; [exact sample_run|].
  destruct (agent_run_summary_partition (E := Demo.environment)
              "data" "reports/matcher_model.pkl" Sample.batch Demo.g0
              Sample.finished sample_run)
    as (ts & s & _ & Hs & Hsum & _ & _ & Hdone & _).
  exists s. auto.
Defined.

(** X14 at a path the demonstration environment has no model for. *)
Lemma agent_run_missing_model_run :
  @models Demo.environment "reports/absent.pkl" = None
  /\ Sample.batch <> []
  /\ agent_run (H0 := Demo.environment) "data" "reports/absent.pkl" Sample.batch Demo.g0
     = (Raise (RuntimeError
                 ("Tool 'matcher' execution failed: Model not found at "
                  ++ "reports/absent.pkl"
                  ++ ". Train D2 first to create matcher_model.pkl.")), Demo.g0).
Proof.
  assert (Hm : @models Demo.environment "reports/absent.pkl" = None) by reflexivity.
  assert (Hne : Sample.batch <> []) by discriminate.
  split; [exact Hm|]. split; [exact Hne|].
  exact (proj2 (agent_run_missing_model (E := Demo.environment)
                  "data" "reports/absent.pkl" Sample.batch Demo.g0 Hm) Hne).
Defined.

(** X16 at the facts of the short pair, whose amounts differ by 20. *)
Lemma build_explanation_names_material_issue_run :
  has_material_issues (facts_of_row Demo.short_row) = true
  /\ exists issue rest,
       build_explanation (E := Demo.environment) (facts_of_row Demo.short_row)
         "mismatch" (1 # 5)
       = "Mismatch detected: " ++ join "; " (issue :: rest)
         ++ ". Confidence: " ++ @format_2f Demo.environment (Fin (1 # 5)).
Proof.
  assert (Hm : has_material_issues (facts_of_row Demo.short_row) = true)
    by (vm_compute; reflexivity).
  split; [exact Hm|].
  exact (build_explanation_names_material_issue (H := Demo.environment)
           (facts_of_row Demo.short_row) (1 # 5) Hm).
Defined.

Lemma sample_score_unknown :
  fst (score_invoice (E := Demo.environment) "data" "reports/matcher_model.pkl"
         "INV0099" "PO0099" Demo.g0)
  = Ok (NotFound "No feature row for given (invoice_id, po_number).").
Proof. vm_compute. reflexivity. Qed.

(** X22 at the pair INV0099 / PO0099, which the data do not hold. *)
Lemma reconcile_not_found_email_run :
  fst (score_invoice (E := Demo.environment) "data" "reports/matcher_model.pkl"
         "INV0099" "PO0099" Demo.g0)
  = Ok (NotFound "No feature row for given (invoice_id, po_number).")
  /\ exists t1 g1,
       reconcile_task (E := Demo.environment) (Demo.context [])
         (Demo.planned_task "INV0099" "PO0099") Demo.g0 = (Ok t1, g1)
       /\ Task.needs_email t1 = Some true
       /\ Task.email_reason t1 = Some "Uncertain match requires clarification".
Proof.
  split; [exact sample_score_unknown|].
  destruct (reconcile_not_found_email (E := Demo.environment) (Demo.context [])
              (Demo.planned_task "INV0099" "PO0099") Demo.g0 _ sample_score_unknown)
    as (t1 & g1 & t2 & Hrec & Hflag & Hreason & _).
  exists t1, g1. auto.
Defined.

(** C10 at a partial date: the invoice line is dated "March 2024", so its day
    is the day of the month of the call.  On 4 November the invoice is three
    days after its purchase order of 1 March, on 20 November nineteen days:
    two calls on identical files, model and pair return different facts. *)
Lemma score_invoice_reads_the_clock :
  (exists f1,
     Sample.score_on "March 2024" (Sample.november 4) = Ok (Found "match" (1 # 5) f1)
     /\ f1 !! "days_delta" = Some (PFloat (Fin 3)))
  /\ (exists f2,
        Sample.score_on "March 2024" (Sample.november 20) = Ok (Found "match" (1 # 5) f2)
        /\ f2 !! "days_delta" = Some (PFloat (Fin 19)))
  /\ Sample.score_on "March 2024" (Sample.november 4)
     <> Sample.score_on "March 2024" (Sample.november 20).
Proof.
  split; [|split].
  - eexists. split; vm_compute; reflexivity.
  - eexists. split; vm_compute; reflexivity.
  - intros Heq.
    apply (f_equal (fun r => match r with
                             | Ok (Found _ _ f) => f !! "days_delta"
                             | _ => None
                             end)) in Heq.
    vm_compute in Heq. discriminate Heq.
Qed.

Lemma sample_dates_agree (f : Files) :
  Sample.files "10/03/2024" "data" = Some f ->
  dates_agree (H := Sample.library) (Sample.november 4) (Sample.november 20) f.
Proof.
  intros [= <-]. split.
  - intros l [<- | []]. reflexivity.
  - intros r [<- | []]. split; reflexivity.
Qed.

(** C10 at a complete date: with the line dated "10/03/2024" the calls of
    4 and of 20 November return the same result. *)
Lemma score_invoice_deterministic_run :
  (forall f, Sample.files "10/03/2024" "data" = Some f ->
             dates_agree (H := Sample.library) (Sample.november 4) (Sample.november 20) f)
  /\ Sample.score_on "10/03/2024" (Sample.november 4)
     = Sample.score_on "10/03/2024" (Sample.november 20).
Proof.
  split; [exact sample_dates_agree|].
  exact (proj1 (score_invoice_deterministic (D := Sample.library) Demo.environment
                  (Sample.files "10/03/2024") (Sample.november 4) (Sample.november 20)
                  "data" "reports/matcher_model.pkl" "INV0012" "PO0012")
           sample_dates_agree Demo.g0 Demo.g0).
Defined.
